(** * NexusLM customer-service tools: a shallow embedding of
    [customer_service/tools/tools.py] and the properties of its tool functions.

    The tool functions are Python functions that talk to the outside world
    (the conversation context, the Compute and Cloud Billing catalogs, the
    HubSpot CRM, an SMTP relay).  They are embedded as computations in a state
    and exception monad over a machine that holds the trace of every external
    interaction and the local variables of the running function; the outside
    world is a record of oracles that answer from the trace so far. *)

From Stdlib Require Import ZArith String Ascii List Lia PrimFloat SpecFloat FloatOps.
From stdpp Require Import base option list gmap strings pretty.

Local Open Scope Z_scope.

(** ** Python values and builtins used by the tools *)

Module Py.

(** The exceptions that the tools and the services they call can raise.
    All of them are subclasses of [Exception]. *)
Inductive exn :=
| AttributeError (attr : string)
| KeyError (key : string)
| IndexError
| ValueError (what : string)
| OverflowError (what : string)
| ZeroDivisionError
| RecursionError
| HttpError (reason : string)
| ApiException (reason : string)
| SMTPException (reason : string)
| OtherError (reason : string).

(** [str(e)] *)
Definition str_exn (e : exn) : string :=
  match e with
  | AttributeError a => "object has no attribute '" +:+ a +:+ "'"
  | KeyError k => "'" +:+ k +:+ "'"
  | IndexError => "list index out of range"
  | ValueError w | OverflowError w => w
  | ZeroDivisionError => "division by zero"
  | RecursionError => "maximum recursion depth exceeded"
  | HttpError r | ApiException r | SMTPException r | OtherError r => r
  end.

Definition is_ApiException (e : exn) : bool :=
  match e with ApiException _ => true | _ => false end.

(** *** Strings *)

(** The white space that [int()] and [float()] skip around an ASCII
    literal: space, tab, line feed, vertical tab, form feed and carriage
    return, and nothing else (the separators 0x1c-0x1f are not skipped). *)
Definition is_space (c : ascii) : bool :=
  let n := nat_of_ascii c in
  ((9 <=? n) && (n <=? 13) || (n =? 32))%nat.

Definition is_digit (c : ascii) : bool :=
  let n := nat_of_ascii c in ((48 <=? n) && (n <=? 57))%nat.

Definition digit_value (c : ascii) : Z := Z.of_nat (nat_of_ascii c) - 48.

Definition lower_ascii (c : ascii) : ascii :=
  let n := nat_of_ascii c in
  if ((65 <=? n) && (n <=? 90))%nat then ascii_of_nat (n + 32) else c.

(** [s.lower()], on the ASCII letters. *)
Fixpoint lower (s : string) : string :=
  match s with
  | EmptyString => EmptyString
  | String c s' => String (lower_ascii c) (lower s')
  end.

Fixpoint is_prefix (p s : string) : bool :=
  match p, s with
  | EmptyString, _ => true
  | String a p', String b s' => Ascii.eqb a b && is_prefix p' s'
  | String _ _, EmptyString => false
  end.

(** [sub in s] *)
Fixpoint contains (sub s : string) : bool :=
  is_prefix sub s ||
  match s with
  | EmptyString => false
  | String _ s' => contains sub s'
  end.

(** [s.split('/')[-1]]: what follows the last slash, the whole string when
    there is none. *)
Fixpoint last_segment_from (s cur : string) : string :=
  match s with
  | EmptyString => cur
  | String c s' =>
      if Ascii.eqb c "/" then last_segment_from s' s' else last_segment_from s' cur
  end.

Definition last_segment (s : string) : string := last_segment_from s s.

(** [s[:n]] *)
Fixpoint take_prefix (n : nat) (s : string) : string :=
  match n, s with
  | S n', String c s' => String c (take_prefix n' s')
  | _, _ => EmptyString
  end.

Fixpoint lstrip (s : list ascii) : list ascii :=
  match s with
  | c :: s' => if is_space c then lstrip s' else s
  | [] => []
  end.

(** What is left of a literal without the white space around it. *)
Definition strip (s : list ascii) : list ascii :=
  rev (lstrip (rev (lstrip s))).

(** A [str] is kept as its UTF-8 encoding.  The code points of a string:
    [pending] bytes of the character at hand are still to come, [acc] holds
    its bits so far and [low] is the least code point that may take that
    many bytes.  [None] when the bytes encode no string. *)
Fixpoint decode_utf8 (s : list ascii) (pending : nat) (acc low : Z)
  : option (list Z) :=
  match s with
  | [] => match pending with O => Some [] | S _ => None end
  | c :: s' =>
      let b := Z.of_N (N_of_ascii c) in
      match pending with
      | O =>
          if b <? 128 then cons b <$> decode_utf8 s' 0 0 0
          else if (192 <=? b) && (b <? 224) then decode_utf8 s' 1 (b - 192) 128
          else if (224 <=? b) && (b <? 240) then decode_utf8 s' 2 (b - 224) 2048
          else if (240 <=? b) && (b <? 248) then decode_utf8 s' 3 (b - 240) 65536
          else None
      | S pending' =>
          if (128 <=? b) && (b <? 192) then
            let acc' := 64 * acc + (b - 128) in
            match pending' with
            | O =>
                if (low <=? acc') && (acc' <? 1114112)
                   && negb ((55296 <=? acc') && (acc' <? 57344))
                then cons acc' <$> decode_utf8 s' 0 0 0
                else None
            | S _ => decode_utf8 s' pending' acc' low
            end
          else None
      end
  end.

Definition code_points (s : string) : option (list Z) :=
  decode_utf8 (list_ascii_of_string s) 0 0 0.

(** The white space beyond ASCII: next line, the no-break spaces, the
    spaces of fixed width, the line and paragraph separators. *)
Definition is_unicode_space (cp : Z) : bool :=
  (cp =? 133) || (cp =? 160) || (cp =? 5760)
  || (8192 <=? cp) && (cp <=? 8202)
  || (cp =? 8232) || (cp =? 8233) || (cp =? 8239) || (cp =? 8287)
  || (cp =? 12288).

(** The digit zero of every decimal digit system of Unicode 14.0 (the
    characters of category Nd, which come in runs of ten): ASCII,
    Arabic-Indic, Devanagari, ..., fullwidth, the mathematical digits. *)
Definition decimal_zeros : list Z :=
  [ 48; 1632; 1776; 1984; 2406; 2534; 2662; 2790; 2918; 3046; 3174; 3302;
    3430; 3558; 3664; 3792; 3872; 4160; 4240; 6112; 6160; 6470; 6608; 6784;
    6800; 6992; 7088; 7232; 7248; 42528; 43216; 43264; 43472; 43504; 43600;
    44016; 65296; 66720; 68912; 69734; 69872; 69942; 70096; 70384; 70736;
    70864; 71248; 71360; 71472; 71904; 72016; 72784; 73040; 73120; 92768;
    92864; 93008; 120782; 120792; 120802; 120812; 120822; 123200; 123632;
    125264; 130032 ].

(** The value of a decimal digit of any script. *)
Definition unicode_decimal (cp : Z) : option Z :=
  (λ zero, cp - zero)
    <$> List.find (λ zero, (zero <=? cp) && (cp <? zero + 10)) decimal_zeros.

Definition ascii_of_Z (n : Z) : ascii := ascii_of_N (Z.to_N n).

(** What [int()] and [float()] first make of a string: an ASCII character
    is kept, white space beyond ASCII becomes a space, a decimal digit of
    another script the ASCII digit of its value, and any other character a
    question mark (which no literal contains). *)
Definition ascii_character (cp : Z) : ascii :=
  if cp <? 128 then ascii_of_Z cp
  else if is_unicode_space cp then " "%char
  else match unicode_decimal cp with
       | Some d => ascii_of_Z (48 + d)
       | None => "?"%char
       end.

Definition ascii_numeral (s : string) : list ascii :=
  match code_points s with
  | Some cps => ascii_character <$> cps
  | None => ["?"%char]
  end.

(** *** Numbers *)

(** A run of decimal digits in which single underscores may separate digits:
    its value, the number of digits and what follows the run.  [sep] tells
    that the previous character was a digit. *)
Fixpoint scan_digits (s : list ascii) (acc : Z) (n : Z) (sep : bool)
  : option (Z * Z * list ascii) :=
  match s with
  | c :: s' =>
      if is_digit c then scan_digits s' (10 * acc + digit_value c) (n + 1) true
      else if Ascii.eqb c "_" && sep then
        match s' with
        | d :: _ => if is_digit d then scan_digits s' acc n false else None
        | [] => None
        end
      else Some (acc, n, s)
  | [] => Some (acc, n, [])
  end.

Definition scan_sign (s : list ascii) : bool * list ascii :=
  match s with
  | c :: s' =>
      if Ascii.eqb c "-" then (true, s')
      else if Ascii.eqb c "+" then (false, s')
      else (false, s)
  | [] => (false, [])
  end.

(** A decimal literal of an integer: its sign, the value of its digits and
    their number. *)
Definition int_literal (s : string) : option (bool * Z * Z) :=
  let '(neg, body) := scan_sign (strip (ascii_numeral s)) in
  match scan_digits body 0 0 false with
  | Some (v, n, []) => if 0 <? n then Some (neg, v, n) else None
  | _ => None
  end.

(** The most digits that [int()] converts (the default of
    [sys.set_int_max_str_digits]). *)
Definition int_max_str_digits : Z := 4300.

(** [int(s)] for a string [s]: [None] stands for [ValueError]. *)
Definition int_of_str (s : string) : option Z :=
  match int_literal s with
  | Some (neg, v, n) =>
      if n <=? int_max_str_digits then Some (if neg then - v else v) else None
  | None => None
  end.

(** The [ValueError] of [int(s)]. *)
Definition int_error (s : string) : exn :=
  match int_literal s with
  | Some _ => ValueError "Exceeds the limit (4300 digits) for integer string conversion"
  | None => ValueError "invalid literal for int() with base 10"
  end.

(** The nearest binary64 of an [int], ties to even; an infinity beyond the
    range of binary64, which [int_fits_float] excludes. *)
Definition float_of_int (z : Z) : float :=
  SF2Prim (binary_normalize prec emax z 0 false).

(** The least number that rounds to an infinity: half a unit in the last
    place above the largest binary64. *)
Definition float_overflow : Z := 2 ^ 1024 - 2 ^ 970.

(** [float(z)] succeeds for these [int]s and raises [OverflowError] for the
    others; so does the conversion of the [int] in [z * x] and [x * z]. *)
Definition int_fits_float (z : Z) : bool := Z.abs z <? float_overflow.

(** [a / b] for two [int]s, [b] not zero: the binary64 nearest to the
    quotient, ties to even; an infinity beyond the range of binary64, which
    [quotient_fits_float] excludes. *)
Definition truediv (a b : Z) : float :=
  let neg := xorb (a <? 0) (b <? 0) in
  match Z.abs a, Z.abs b with
  | Z.pos ma, Z.pos mb =>
      let '(mz, ez, lz) := SFdiv_core_binary prec emax (Z.pos ma) 0 (Z.pos mb) 0 in
      SF2Prim (binary_round_aux prec emax neg mz ez lz)
  | _, _ => if neg then (-0)%float else 0%float
  end.

(** [a / b] succeeds for these [int]s and raises [OverflowError] for the
    others ([ZeroDivisionError] when [b] is zero). *)
Definition quotient_fits_float (a b : Z) : bool :=
  Z.abs a <? float_overflow * Z.abs b.

(** The binary64 nearest to [m * 10^e], for [m > 0]. *)
Definition float_of_decimal (neg : bool) (m : positive) (e : Z) : float :=
  if 0 <=? e then SF2Prim (binary_normalize prec emax ((if neg then Z.neg m else Z.pos m) * 10 ^ e) 0 false)
  else
    let '(mz, ez, lz) := SFdiv_core_binary prec emax (Z.pos m) 0 (10 ^ (- e)) 0 in
    SF2Prim (binary_round_aux prec emax neg mz ez lz).

Definition signed_zero (neg : bool) : float :=
  if neg then (-0)%float else 0%float.

(** The exponent part of a float literal. *)
Definition scan_exponent (s : list ascii) : option (Z * list ascii) :=
  match s with
  | c :: s' =>
      if Ascii.eqb (lower_ascii c) "e" then
        let '(neg, s'') := scan_sign s' in
        match scan_digits s'' 0 0 false with
        | Some (v, n, rest) =>
            if 0 <? n then Some (if neg then - v else v, rest) else None
        | None => None
        end
      else Some (0, s)
  | [] => Some (0, [])
  end.

(** [float(s)] for a string [s]: [None] stands for [ValueError]. *)
Definition float_of_str (s : string) : option float :=
  let '(neg, body) := scan_sign (strip (ascii_numeral s)) in
  let word := lower (string_of_list_ascii body) in
  if String.eqb word "inf" || String.eqb word "infinity" then
    Some (if neg then neg_infinity else infinity)
  else if String.eqb word "nan" then Some nan
  else
    ip ← scan_digits body 0 0 false;
    let '(iv, inum, after_int) := ip in
    fp ← match after_int with
         | c :: s' => if Ascii.eqb c "." then scan_digits s' 0 0 false
                      else Some (0, 0, after_int)
         | [] => Some (0, 0, [])
         end;
    let '(fv, fnum, after_frac) := fp in
    if 0 <? inum + fnum then
      ex ← scan_exponent after_frac;
      match ex with
      | (ev, []) =>
          match iv * 10 ^ fnum + fv with
          | Z.pos m => Some (float_of_decimal neg m (ev - fnum))
          | _ => Some (signed_zero neg)
          end
      | _ => None
      end
    else None.

(** [z <= x] for an [int] and a [float]: Python compares the exact values. *)
Definition int_le_float (z : Z) (x : float) : bool :=
  match Prim2SF x with
  | S754_zero _ => z <=? 0
  | S754_infinity neg => negb neg
  | S754_nan => false
  | S754_finite neg m e =>
      let v := if neg then Z.neg m else Z.pos m in
      if 0 <=? e then z <=? v * 2 ^ e else z * 2 ^ (- e) <=? v
  end.

End Py.

(** ** The outside world *)

(** A JSON object of the Compute API (an instance, a disk, a machine type or
    a disk type), with the keys that the tools read; an absent key is [None]. *)
Record Resource := {
  res_name : option string;                   (* 'name' *)
  res_labels : option (gmap string string);   (* 'labels' *)
  res_machineType : option string;            (* 'machineType' *)
  res_type : option string;                   (* 'type' *)
  res_sizeGb : option string;                 (* 'sizeGb' *)
  res_guestCpus : option Z;                   (* 'guestCpus' *)
  res_memoryMb : option Z;                    (* 'memoryMb' *)
}.

Inductive Collection := instances | disks | machineTypes | diskTypes.

(** A prepared [list] request of the Compute API. *)
Record Request := {
  req_collection : Collection;
  req_project : string;
  req_zone : string;
  req_pageToken : option string;
}.

(** One page of a listing. *)
Record Response := {
  resp_items : option (list Resource);        (* 'items' *)
  resp_nextPageToken : option string;         (* 'nextPageToken' *)
}.

(** The answer of the Cloud Billing catalog to a SKU listing: under 'skus',
    each SKU has a list 'pricingInfo', whose entries have under
    'pricingExpression' a list 'tieredRates' of rates with a 'unitPrice'. *)
Record TieredRate := { unitPrice_nanos : Z }.
Record PricingInfo := { pricingExpression_tieredRates : list TieredRate }.
Record Sku := { sku_pricingInfo : list PricingInfo }.
Record SkuList := { skus : option (list Sku) }.

Inductive SmtpOp :=
| smtp_connect (host : string) (port : Z)
| smtp_starttls
| smtp_login (user password : string)
| smtp_sendmail (from_addr to_addr subject body : string)
| smtp_quit.

(** What a tool did to the outside world, in order. *)
Inductive Event :=
| Logged (level fmt : string)                           (* logger.<level>(fmt, ...) *)
| Asked (prompt answer : string)                        (* ToolContext.get_input *)
| Confirmed (customer_id : string) (answer : bool)      (* ToolContext.get_confirmation *)
| ToolLogged (msg : string)                             (* ToolContext.log_info *)
| CatalogCall (req : Request) (result : Py.exn + Response)   (* request.execute() *)
| BillingCall (filter : string)                         (* skus().list(...).execute() *)
| CrmUpdate (contact_id : string) (properties : list (string * string))
| Mail (op : SmtpOp).

Definition Trace := list Event.

(** The outside world: every oracle answers from the trace so far.  [configs]
    is the attribute lookup of the module-level settings object, [None] when
    the object has no such attribute.  The questions to the conversation are
    always answered, and the API clients are always built: the services fail,
    if they do, when a request is executed. *)
Record World := {
  configs : string → option string;
  get_input : Trace → string → string;
  get_confirmation : Trace → string → list (string * string) → bool;
  log_info : Trace → string → option Py.exn;
  compute_execute : Trace → Request → Py.exn + Response;
  billing_execute : Trace → string → Py.exn + SkuList;
  hubspot_update : Trace → string → string → list (string * string) → Py.exn + string;
  uuid4 : Trace → string;
  smtp : Trace → SmtpOp → option Py.exn;
}.

(** The settings class of [customer_service/config.py], with the defaults
    of its string attributes, spelled as the class declares them. *)
Definition Config (attr : string) : option string :=
  if String.eqb attr "app_name" then Some "NexusLM Customer Service Agent"
  else if String.eqb attr "CLOUD_PROJECT" then Some "my_project"
  else if String.eqb attr "CLOUD_LOCATION" then Some "us-central1"
  else if String.eqb attr "GENAI_USE_VERTEXAI" then Some "1"
  else if String.eqb attr "API_KEY" then Some ""
  else if String.eqb attr "SENDER_EMAIL" then Some ""
  else if String.eqb attr "SENDER_PASSWORD" then Some ""
  else if String.eqb attr "HUBSPOT_API_KEY" then Some ""
  else None.

(** ** The monad of tool computations *)

(** How a computation ends: with a value, with an exception, or still
    running when the bound on loop iterations is used up. *)
Inductive outcome (A : Type) :=
| Return (a : A)
| Raise (e : Py.exn)
| OutOfFuel.
Arguments Return {A} a.
Arguments Raise {A} e.
Arguments OutOfFuel {A}.

(** The machine: the trace of interactions and the local variables. *)
Record machine (L : Type) := Machine { trace : Trace; locals : L }.
Arguments Machine {L} trace locals.
Arguments trace {L} m.
Arguments locals {L} m.

Definition M (L A : Type) : Type := machine L → outcome A * machine L.

#[export] Instance M_ret {L} : MRet (M L) := λ A a m, (Return a, m).

#[export] Instance M_bind {L} : MBind (M L) := λ A B f c m,
  match c m with
  | (Return a, m') => f a m'
  | (Raise e, m') => (Raise e, m')
  | (OutOfFuel, m') => (OutOfFuel, m')
  end.

Definition raise {L A} (e : Py.exn) : M L A := λ m, (Raise e, m).

Definition out_of_fuel {L A} : M L A := λ m, (OutOfFuel, m).

(** [try: body except Exception as e: handler e] *)
Definition try_except {L A} (body : M L A) (handler : Py.exn → M L A) : M L A :=
  λ m, match body m with
       | (Raise e, m') => handler e m'
       | r => r
       end.

(** [try: body except hubspot.ApiException as e: handler e] *)
Definition try_except_ApiException {L A} (body : M L A) (handler : Py.exn → M L A)
  : M L A :=
  λ m, match body m with
       | (Raise e, m') => if Py.is_ApiException e then handler e m' else (Raise e, m')
       | r => r
       end.

Definition emit {L} (ev : Event) : M L unit :=
  λ m, (Return tt, Machine (trace m ++ [ev]) (locals m)).

Definition get_locals {L} : M L L := λ m, (Return (locals m), m).

Definition modify_locals {L} (f : L → L) : M L unit :=
  λ m, (Return tt, Machine (trace m) (f (locals m))).

(** Consulting an oracle of the world. *)
Definition oracle {L A} (f : Trace → A) : M L A := λ m, (Return (f (trace m)), m).

Definition lift_result {L A} (r : Py.exn + A) : M L A :=
  match r with inl e => raise e | inr a => mret a end.

(** [d[key]] on an object whose key may be absent. *)
Definition getitem {L A} (field : option A) (key : string) : M L A :=
  match field with Some a => mret a | None => raise (Py.KeyError key) end.

(** [l[0]] *)
Definition first {L A} (l : list A) : M L A :=
  match l !! 0%nat with Some a => mret a | None => raise Py.IndexError end.

(** [for x in l: body x] *)
Fixpoint for_each {L A} (l : list A) (body : A → M L unit) : M L unit :=
  match l with
  | [] => mret tt
  | x :: l' => body x ;; for_each l' body
  end.

Section Effects.
Context (w : World) {L : Type}.

Definition logger (level fmt : string) : M L unit := emit (Logged level fmt).

Definition getattr_configs (attr : string) : M L string :=
  match configs w attr with
  | Some v => mret v
  | None => raise (Py.AttributeError attr)
  end.

Definition ToolContext_get_input (prompt : string) : M L string :=
  answer ← oracle (λ tr, get_input w tr prompt);
  emit (Asked prompt answer) ;;
  mret answer.

Definition ToolContext_get_confirmation (customer_id : string)
    (details : list (string * string)) : M L bool :=
  answer ← oracle (λ tr, get_confirmation w tr customer_id details);
  emit (Confirmed customer_id answer) ;;
  mret answer.

Definition ToolContext_log_info (msg : string) : M L unit :=
  r ← oracle (λ tr, log_info w tr msg);
  emit (ToolLogged msg) ;;
  match r with Some e => raise e | None => mret tt end.

(** [request.execute()] on the Compute API *)
Definition execute (req : Request) : M L Response :=
  r ← oracle (λ tr, compute_execute w tr req);
  emit (CatalogCall req r) ;;
  lift_result r.

(** [billing.services().skus().list(parent=..., filter=...).execute()] *)
Definition skus_list_execute (filter : string) : M L SkuList :=
  r ← oracle (λ tr, billing_execute w tr filter);
  emit (BillingCall filter) ;;
  lift_result r.

Definition smtp_do (op : SmtpOp) : M L unit :=
  r ← oracle (λ tr, smtp w tr op);
  emit (Mail op) ;;
  match r with Some e => raise e | None => mret tt end.
End Effects.

(** [collection.list(project=..., zone=...)]: the request for the first page. *)
Definition list_request (c : Collection) (project zone : string) : Request :=
  {| req_collection := c; req_project := project; req_zone := zone;
     req_pageToken := None |}.

(** [list_next(previous_request, previous_response)] of the API client: no
    request when the response has no (or an empty) continuation token, the
    previous request with the token otherwise. *)
Definition list_next {L} (previous_request : option Request)
    (previous_response : Response) : M L (option Request) :=
  match resp_nextPageToken previous_response with
  | None => mret None
  | Some token =>
      if String.eqb token "" then mret None
      else match previous_request with
           | Some req =>
               mret (Some {| req_collection := req_collection req;
                             req_project := req_project req;
                             req_zone := req_zone req;
                             req_pageToken := Some token |})
           | None => raise (Py.AttributeError "uri")
           end
  end.

(** [price_request['skus'][0]['pricingInfo'][0]['pricingExpression']
    ['tieredRates'][0]['unitPrice']['nanos']] *)
Definition first_unit_price_nanos {L} (price_request : SkuList) : M L Z :=
  skus_ ← getitem (skus price_request) "skus";
  sku ← first skus_;
  info ← first (sku_pricingInfo sku);
  rate ← first (pricingExpression_tieredRates info);
  mret (unitPrice_nanos rate).

(** [int(s)] and [float(s)] for a string, as computations. *)
Definition py_int {L} (s : string) : M L Z :=
  match Py.int_of_str s with
  | Some z => mret z
  | None => raise (Py.int_error s)
  end.

Definition py_float {L} (s : string) : M L float :=
  match Py.float_of_str s with
  | Some x => mret x
  | None => raise (Py.ValueError "could not convert string to float")
  end.

(** [float(z)] for an [int], also where an [int] meets a [float] in a
    product. *)
Definition py_float_of_int {L} (z : Z) : M L float :=
  if Py.int_fits_float z then mret (Py.float_of_int z)
  else raise (Py.OverflowError "int too large to convert to float").

(** [a / b] for two [int]s. *)
Definition int_truediv {L} (a b : Z) : M L float :=
  if b =? 0 then raise Py.ZeroDivisionError
  else if Py.quotient_fits_float a b then mret (Py.truediv a b)
  else raise (Py.OverflowError "integer division result too large for a float").

(** ** [retrieve_cart_information] *)

Record CartItem := {
  product_id : string;
  name : string;
  quantity : Z;
  monthly_cost : float;
}.

(** The dictionary that [retrieve_cart_information] returns. *)
Record CartSummary := { items : list CartItem; subtotal : float }.

(** The local variables of [retrieve_cart_information] that live across
    loop iterations. *)
Record CartLocals := {
  request : option Request;
  cart_items : list CartItem;
  cart_subtotal : float;
}.

Definition set_request (r : option Request) (l : CartLocals) : CartLocals :=
  {| request := r; cart_items := cart_items l; cart_subtotal := cart_subtotal l |}.

(** [cart_items.append(item)] *)
Definition append_item (item : CartItem) (l : CartLocals) : CartLocals :=
  {| request := request l; cart_items := cart_items l ++ [item];
     cart_subtotal := cart_subtotal l |}.

(** [cart_subtotal += monthly_cost] *)
Definition add_subtotal (cost : float) (l : CartLocals) : CartLocals :=
  {| request := request l; cart_items := cart_items l;
     cart_subtotal := (cart_subtotal l + cost)%float |}.

(** [resource.get('labels', {}).get('customer_id')] *)
Definition customer_label (r : Resource) : option string :=
  labels ← res_labels r; labels !! "customer_id".

Section Cart.
Context (w : World).

(** The body of [for instance in response.get('items', [])]. *)
Definition instance_body (customer_id : string) (response : Response)
    (instance : Resource) : M CartLocals unit :=
  (if bool_decide (customer_label instance = Some customer_id) then
     full_type ← getitem (res_machineType instance) "machineType";
     let machine_type := Py.last_segment full_type in
     price_request ← skus_list_execute w ("resource.name = " +:+ machine_type);
     nanos ← first_unit_price_nanos price_request;
     nanos_float ← py_float_of_int nanos;
     let price_per_hour := (nanos_float / 1e9)%float in
     let monthly_cost := (price_per_hour * 730)%float in
     instance_name ← getitem (res_name instance) "name";
     modify_locals (append_item {| product_id := machine_type;
                                   name := instance_name;
                                   quantity := 1;
                                   monthly_cost := monthly_cost |}) ;;
     modify_locals (add_subtotal monthly_cost)
   else mret tt) ;;
  l ← get_locals;
  next ← list_next (request l) response;
  modify_locals (set_request next).

(** The first [while request is not None] loop; [fuel] bounds its
    iterations. *)
Fixpoint instances_while (fuel : nat) (customer_id zone : string)
  : M CartLocals unit :=
  l ← get_locals;
  match request l with
  | None => mret tt
  | Some req =>
      match fuel with
      | O => out_of_fuel
      | S fuel' =>
          response ← execute w req;
          for_each (default [] (resp_items response))
                   (instance_body customer_id response) ;;
          project ← getattr_configs w "GOOGLE_CLOUD_PROJECT";
          modify_locals (set_request (Some (list_request disks project zone))) ;;
          instances_while fuel' customer_id zone
      end
  end.

(** The body of [for disk in response.get('items', [])]. *)
Definition disk_body (customer_id : string) (disk : Resource)
  : M CartLocals unit :=
  if bool_decide (customer_label disk = Some customer_id) then
    full_type ← getitem (res_type disk) "type";
    let disk_type := Py.last_segment full_type in
    size_str ← getitem (res_sizeGb disk) "sizeGb";
    size_gb ← py_int size_str;
    price_request ← skus_list_execute w ("resource.name = " +:+ disk_type);
    nanos ← first_unit_price_nanos price_request;
    nanos_float ← py_float_of_int nanos;
    let price_per_gb := (nanos_float / 1e9)%float in
    size_float ← py_float_of_int size_gb;
    let monthly_cost := (price_per_gb * size_float)%float in
    modify_locals (append_item {| product_id := disk_type;
                                  name := disk_type +:+ " " +:+ pretty size_gb +:+ "GB";
                                  quantity := 1;
                                  monthly_cost := monthly_cost |}) ;;
    modify_locals (add_subtotal monthly_cost)
  else mret tt.

(** The second [while request is not None] loop. *)
Fixpoint disks_while (fuel : nat) (customer_id : string) : M CartLocals unit :=
  l ← get_locals;
  match request l with
  | None => mret tt
  | Some req =>
      match fuel with
      | O => out_of_fuel
      | S fuel' =>
          response ← execute w req;
          for_each (default [] (resp_items response)) (disk_body customer_id) ;;
          l' ← get_locals;
          next ← list_next (request l') response;
          modify_locals (set_request next) ;;
          disks_while fuel' customer_id
      end
  end.

Definition retrieve_cart_information (fuel : nat) (customer_id : string)
  : M CartLocals CartSummary :=
  logger "info" "Accessing cart information for customer ID: %s" ;;
  try_except
    (modify_locals (λ _, {| request := None; cart_items := [];
                            cart_subtotal := 0%float |}) ;;
     zone ← ToolContext_get_input w "Please enter the zone for resources";
     project ← getattr_configs w "GOOGLE_CLOUD_PROJECT";
     modify_locals (set_request (Some (list_request instances project zone))) ;;
     instances_while fuel customer_id zone ;;
     disks_while fuel customer_id ;;
     l ← get_locals;
     mret {| items := cart_items l; subtotal := cart_subtotal l |})
    (λ e, logger "error" "Failed to access cart information: %s" ;; raise e).
End Cart.

(** A tool call starts with an empty trace. *)
Definition run {L A} (c : M L A) (l : L) : outcome A * machine L :=
  c (Machine [] l).

Definition no_locals : CartLocals :=
  {| request := None; cart_items := []; cart_subtotal := 0%float |}.

(** [sum(item.monthly_cost for item in items)], started from [0.0]. *)
Definition sum_monthly_cost (l : list CartItem) : float :=
  foldl (λ acc item, (acc + monthly_cost item)%float) 0%float l.

(** ** [get_product_recommendations] *)

(** The 'specs' of a recommendation: of a machine type or of a disk type. *)
Inductive Specs :=
| MachineSpecs (cpus : Z) (memory_gb : float)
| DiskSpecs (type_ : string) (size_gb : string).

(** The 'description' of a recommendation, a sentence with holes:
    "General-purpose instance with {cpus} vCPUs and {memory}GB memory",
    "Compute-optimized instance with {cpus} vCPUs and {memory}GB memory",
    "Storage optimized for {workload_type}". *)
Inductive Description :=
| GeneralPurpose (cpus : Z) (memory_gb : float)
| ComputeOptimized (cpus : Z) (memory_gb : float)
| StorageOptimized (workload_type : string).

Record RecommendationItem := {
  rec_product_id : string;
  rec_name : string;
  rec_description : Description;
  rec_specs : Specs;
}.

Section Recommendations.
Context (w : World).

(** [recommendations["recommendations"].append(item)]; the local variable
    of the function is the list under construction. *)
Definition recommend (item : RecommendationItem)
  : M (list RecommendationItem) unit :=
  modify_locals (λ l, l ++ [item]).

(** The body of the loop over machine types for "web-server". *)
Definition web_server_body (vcpu_count memory_needed : string)
    (machine : Resource) : M (list RecommendationItem) unit :=
  machine_name ← getitem (res_name machine) "name";
  if Py.contains "n2-standard" machine_name then
    guestCpus ← getitem (res_guestCpus machine) "guestCpus";
    vcpus ← py_int vcpu_count;
    vcpus_float ← py_float_of_int vcpus;
    if Py.int_le_float guestCpus (vcpus_float * 1.5)%float then
      memoryMb ← getitem (res_memoryMb machine) "memoryMb";
      memory_gb ← int_truediv memoryMb 1024;
      memory ← py_float memory_needed;
      if (memory_gb <=? memory * 1.5)%float then
        recommend {| rec_product_id := machine_name;
                     rec_name := machine_name +:+ " Instance";
                     rec_description := GeneralPurpose guestCpus memory_gb;
                     rec_specs := MachineSpecs guestCpus memory_gb |}
      else mret tt
    else mret tt
  else mret tt.

(** The body of the loop over machine types for "data-processing". *)
Definition data_processing_body (vcpu_count memory_needed : string)
    (machine : Resource) : M (list RecommendationItem) unit :=
  machine_name ← getitem (res_name machine) "name";
  if Py.contains "c2-standard" machine_name then
    guestCpus ← getitem (res_guestCpus machine) "guestCpus";
    vcpus ← py_int vcpu_count;
    if vcpus <=? guestCpus then
      memoryMb ← getitem (res_memoryMb machine) "memoryMb";
      memory_gb ← int_truediv memoryMb 1024;
      memory ← py_float memory_needed;
      if (memory <=? memory_gb)%float then
        recommend {| rec_product_id := machine_name;
                     rec_name := machine_name +:+ " Instance";
                     rec_description := ComputeOptimized guestCpus memory_gb;
                     rec_specs := MachineSpecs guestCpus memory_gb |}
      else mret tt
    else mret tt
  else mret tt.

(** The body of the loop over disk types. *)
Definition disk_type_body (workload_type storage_needed : string)
    (disk : Resource) : M (list RecommendationItem) unit :=
  disk_name ← getitem (res_name disk) "name";
  if Py.contains "pd-ssd" disk_name
       && String.eqb (Py.lower workload_type) "data-processing"
     || Py.contains "pd-standard" disk_name
       && String.eqb (Py.lower workload_type) "web-server"
  then
    recommend {| rec_product_id := disk_name;
                 rec_name := "Persistent Disk";
                 rec_description := StorageOptimized workload_type;
                 rec_specs :=
                   DiskSpecs (if Py.contains "ssd" disk_name then "SSD"
                              else "Standard") storage_needed |}
  else mret tt.

Definition get_product_recommendations (customer_id : string)
  : M (list RecommendationItem) (list RecommendationItem) :=
  logger "info" "Getting Compute Engine recommendations for customer %s" ;;
  try_except
    (workload_type ← ToolContext_get_input w
       "What type of workload? (web-server/data-processing)";
     vcpu_count ← ToolContext_get_input w
       "How many vCPUs needed? (enter number)";
     memory_needed ← ToolContext_get_input w
       "How much memory needed in GB? (enter number)";
     zone ← ToolContext_get_input w
       "Please enter the zone for recommendations";
     project ← getattr_configs w "GOOGLE_CLOUD_PROJECT";
     machine_types ← execute w (list_request machineTypes project zone);
     modify_locals (λ _, []) ;;
     (if String.eqb (Py.lower workload_type) "web-server" then
        for_each (default [] (resp_items machine_types))
                 (web_server_body vcpu_count memory_needed)
      else if String.eqb (Py.lower workload_type) "data-processing" then
        for_each (default [] (resp_items machine_types))
                 (data_processing_body vcpu_count memory_needed)
      else mret tt) ;;
     project' ← getattr_configs w "GOOGLE_CLOUD_PROJECT";
     disk_types ← execute w (list_request diskTypes project' zone);
     storage_needed ← ToolContext_get_input w
       "How much storage needed in GB? (enter number)";
     for_each (default [] (resp_items disk_types))
              (disk_type_body workload_type storage_needed) ;;
     get_locals)
    (λ e, logger "error" "Failed to get recommendations: %s" ;; raise e).
End Recommendations.

(** ** [update_hubspot_crm] and [send_meeting_invitation] *)

(** The status dictionary that the tools return. *)
Record Status := { status : string; message : string }.

Definition newline : string := String (ascii_of_nat 10) EmptyString.

Section Notifications.
Context (w : World).

(** [hubspot_client.crm.contacts.basic_api.update(contact_id=...,
    simple_public_object_input=...)] on a client made with the token. *)
Definition basic_api_update (token contact_id : string)
    (properties : list (string * string)) : M unit string :=
  r ← oracle (λ tr, hubspot_update w tr token contact_id properties);
  emit (CrmUpdate contact_id properties) ;;
  lift_result r.

Definition update_hubspot_crm (customer_id : string)
    (details : list (string * string)) : M unit Status :=
  logger "info" "Updating HubSpot CRM for customer ID %s with details: %s" ;;
  confirm ← ToolContext_get_confirmation w customer_id details;
  if negb confirm then
    mret {| status := "cancelled"; message := "Update cancelled by user" |}
  else
    try_except_ApiException
      (token ← getattr_configs w "hubspot_api_key";
       api_response ← basic_api_update token customer_id details;
       ToolContext_log_info w ("HubSpot API response: " +:+ api_response))
      (λ e, logger "error" "HubSpot API error: %s" ;; raise e) ;;
    try_except
      (for_each details
         (λ kv, ToolContext_log_info w
                  ("Updating " +:+ kv.1 +:+ ": " +:+ kv.2)) ;;
       mret {| status := "success"; message := "HubSpot record updated." |})
      (λ e, logger "error" "Failed to update HubSpot: %s" ;;
            mret {| status := "error";
                    message := "Failed to update HubSpot: " +:+ Py.str_exn e |}).

(** [depth] is the number of stack frames that the interpreter still
    allows: a call beyond it raises [RecursionError]. *)
Fixpoint send_meeting_invitation (depth : nat)
    (sender_email sender_password receiver_email subject message_ : string)
  : M unit Status :=
  match depth with
  | O => raise Py.RecursionError
  | S depth' =>
      sender_email ← getattr_configs w "sender_email";
      sender_password ← getattr_configs w "sender_password";
      receiver_email ← ToolContext_get_input w
        "Please enter the receiver's email address";
      let subject := "Meeting Invitation!" in
      uuid ← oracle (uuid4 w);
      let meeting_id := Py.take_prefix 8 uuid in
      let meeting_link := "https://meet.google.com/" +:+ meeting_id in
      let message_ :=
        "Hello there! This issue needs further investigation. Please join the meeting session using the link below."
        +:+ newline +:+ meeting_link in
      smtp_do w (smtp_connect "smtp.gmail.com" 587) ;;
      smtp_do w smtp_starttls ;;
      smtp_do w (smtp_login sender_email sender_password) ;;
      smtp_do w (smtp_sendmail sender_email receiver_email subject message_) ;;
      smtp_do w smtp_quit ;;
      send_meeting_invitation depth' sender_email sender_password
                              receiver_email subject message_ ;;
      logger "info" "Sending meeting invitation to %s" ;;
      mret {| status := "success";
              message := "Link sent to " +:+ receiver_email |}
  end.
End Notifications.

(** ** What the claims observe *)

(** The mails handed to the relay, the CRM updates and the catalog requests
    of a trace. *)
Definition deliveries (tr : Trace) : list SmtpOp :=
  tr ≫= λ ev, match ev with
              | Mail (smtp_sendmail f t s b) => [smtp_sendmail f t s b]
              | _ => []
              end.

Definition crm_calls (tr : Trace) : list (string * list (string * string)) :=
  tr ≫= λ ev, match ev with CrmUpdate c p => [(c, p)] | _ => [] end.

Definition catalog_calls (tr : Trace) : list Request :=
  tr ≫= λ ev, match ev with CatalogCall req _ => [req] | _ => [] end.

(** The resources that the catalog has listed so far. *)
Definition listed (tr : Trace) : list Resource :=
  tr ≫= λ ev, match ev with
              | CatalogCall _ (inr response) => default [] (resp_items response)
              | _ => []
              end.

(** [item] is the cart line that the calculator makes from [r], a resource
    labelled with the customer: an instance gives its machine type and its
    name, a disk its disk type. *)
Definition made_from (customer_id : string) (r : Resource) (item : CartItem) : Prop :=
  customer_label r = Some customer_id ∧
  (((Py.last_segment <$> res_machineType r) = Some (product_id item) ∧
    res_name r = Some (name item)) ∨
   (Py.last_segment <$> res_type r) = Some (product_id item)).

(** What holds of the cart under construction at every point of a run. *)
Record cart_inv (customer_id : string) (m : machine CartLocals) : Prop := {
  inv_subtotal :
    cart_subtotal (locals m) = sum_monthly_cost (cart_items (locals m));
  inv_quantity :
    Forall (λ item, quantity item = 1) (cart_items (locals m));
  inv_origin :
    Forall (λ item, ∃ r, r ∈ listed (trace m) ∧ made_from customer_id r item)
           (cart_items (locals m));
}.

(** ** Assertions on tool computations *)

(** [triple P c Q I]: started in a machine that satisfies [P], the
    computation [c] either returns a value [a] in a machine that satisfies
    [Q a], or stops otherwise (exception, bound used up) in a machine that
    satisfies [I]. *)
Definition triple {L A} (P : machine L → Prop) (c : M L A)
    (Q : A → machine L → Prop) (I : machine L → Prop) : Prop :=
  ∀ m, P m →
    match c m with
    | (Return a, m') => Q a m'
    | (_, m') => I m'
    end.

(** An assertion that no further interaction with the world invalidates. *)
Definition stable {L} (P : machine L → Prop) : Prop :=
  ∀ m ev, P m → P (Machine (trace m ++ [ev]) (locals m)).

(** The assertion inside a loop over the resources of a page: the cart
    invariant, and every resource of the page has been listed. *)
Definition in_page (customer_id : string) (page : list Resource)
    (m : machine CartLocals) : Prop :=
  cart_inv customer_id m ∧ ∀ r, r ∈ page → r ∈ listed (trace m).

(** What the bounds of [get_product_recommendations] say of a recommended
    item, for the answers [workload], [vcpu] and [memory] of the
    conversation: a machine type recommended for "web-server" has at most
    1.5 times the requested vCPUs and memory, one recommended for
    "data-processing" has at least the requested vCPUs and memory.  The
    requested numbers are [int(vcpu)] and [float(memory)], the comparisons
    those of Python on [int] and [float]. *)
Definition fits (workload vcpu memory : string) (item : RecommendationItem) : Prop :=
  match rec_specs item with
  | MachineSpecs cpus memory_gb =>
      (Py.lower workload = "web-server" →
       ∃ v x, Py.int_of_str vcpu = Some v ∧ Py.float_of_str memory = Some x ∧
              Py.int_le_float cpus (Py.float_of_int v * 1.5)%float = true ∧
              (memory_gb <=? x * 1.5)%float = true) ∧
      (Py.lower workload = "data-processing" →
       ∃ v x, Py.int_of_str vcpu = Some v ∧ Py.float_of_str memory = Some x ∧
              v ≤ cpus ∧ (x <=? memory_gb)%float = true)
  | DiskSpecs _ _ => True
  end.

(** The assertion along [get_product_recommendations]: every item
    recommended so far fits. *)
Definition all_fit (workload vcpu memory : string)
    (m : machine (list RecommendationItem)) : Prop :=
  Forall (fits workload vcpu memory) (locals m).

(** An entry of a machine-type listing as the Compute API gives it: it has
    a 'name', a 'guestCpus' and a 'memoryMb', and its memory in GB is within
    the range of a [float]. *)
Definition api_machine (machine : Resource) : Prop :=
  is_Some (res_name machine) ∧ is_Some (res_guestCpus machine) ∧
  ∃ memoryMb, res_memoryMb machine = Some memoryMb ∧
              Py.quotient_fits_float memoryMb 1024 = true.

(** The family of machine types that a workload is served from. *)
Definition family (workload : string) : string :=
  if String.eqb (Py.lower workload) "web-server" then "n2-standard"
  else "c2-standard".

Definition in_family (workload : string) (machine : Resource) : bool :=
  match res_name machine with
  | Some machine_name => Py.contains (family workload) machine_name
  | None => false
  end.

(** The machine is of the family and passes the test on its vCPUs, for the
    requested number [v]. *)
Definition passes_vcpu_test (workload : string) (v : Z) (machine : Resource) : bool :=
  in_family workload machine &&
  match res_guestCpus machine with
  | Some guestCpus =>
      if String.eqb (Py.lower workload) "web-server"
      then Py.int_le_float guestCpus (Py.float_of_int v * 1.5)%float
      else v <=? guestCpus
  | None => false
  end.

(** The exceptions of [int(s)] and [float(s)] on a string that is no number. *)
Definition invalid_int : Py.exn :=
  Py.ValueError "invalid literal for int() with base 10".

Definition invalid_float : Py.exn :=
  Py.ValueError "could not convert string to float".

(** The body of the loop over the machine types that a known workload
    selects. *)
Definition machine_loop_body (workload vcpu memory : string)
  : Resource → M (list RecommendationItem) unit :=
  if String.eqb (Py.lower workload) "web-server"
  then web_server_body vcpu memory
  else data_processing_body vcpu memory.

(** The trace of a call that failed after the machine-type listing: it
    holds one catalog call, for that listing, and ends with the error log. *)
Definition failed_after_listing (tr : Trace) : Prop :=
  (∃ req, catalog_calls tr = [req] ∧ req_collection req = machineTypes) ∧
  last tr = Some (Logged "error" "Failed to get recommendations: %s").

(** ** Example worlds *)

(** A settings object with the attributes that [tools.py] reads. *)
Definition tool_configs (attr : string) : option string :=
  if String.eqb attr "GOOGLE_CLOUD_PROJECT" then Some "my_project"
  else if String.eqb attr "sender_email" then Some "agent@example.com"
  else if String.eqb attr "sender_password" then Some "app-password"
  else if String.eqb attr "hubspot_api_key" then Some "pat-token"
  else None.

(** A world whose answers do not depend on what happened before, in which
    the logging of the tool context and the mail relay never fail. *)
Definition static_world (settings : string → option string)
    (answers : string → string) (confirm : bool)
    (catalog : Request → Py.exn + Response)
    (prices : string → Py.exn + SkuList) (crm : Py.exn + string) : World :=
  {| configs := settings;
     get_input := λ _ prompt, answers prompt;
     get_confirmation := λ _ _ _, confirm;
     log_info := λ _ _, None;
     compute_execute := λ _ req, catalog req;
     billing_execute := λ _ filter, prices filter;
     hubspot_update := λ _ _ _ _, crm;
     uuid4 := λ _, "3f2b8c1e-7a4d-4e0b-9c55-1d2e3f4a5b6c";
     smtp := λ _ _, None |}.

Definition instance_of (customer instance_name machine_type : string) : Resource :=
  {| res_name := Some instance_name;
     res_labels := Some {[ "customer_id" := customer ]};
     res_machineType :=
       Some ("zones/us-central1-a/machineTypes/" +:+ machine_type);
     res_type := None; res_sizeGb := None;
     res_guestCpus := None; res_memoryMb := None |}.

Definition disk_of (customer disk_name disk_type size_gb : string) : Resource :=
  {| res_name := Some disk_name;
     res_labels := Some {[ "customer_id" := customer ]};
     res_machineType := None;
     res_type := Some ("zones/us-central1-a/diskTypes/" +:+ disk_type);
     res_sizeGb := Some size_gb;
     res_guestCpus := None; res_memoryMb := None |}.

Definition machine_type_of (type_name : string) (cpus memory_mb : Z) : Resource :=
  {| res_name := Some type_name; res_labels := None; res_machineType := None;
     res_type := None; res_sizeGb := None;
     res_guestCpus := Some cpus; res_memoryMb := Some memory_mb |}.

Definition disk_type_of (type_name : string) : Resource :=
  {| res_name := Some type_name; res_labels := None; res_machineType := None;
     res_type := None; res_sizeGb := None;
     res_guestCpus := None; res_memoryMb := None |}.

Definition page (resources : list Resource) (next : option string) : Response :=
  {| resp_items := Some resources; resp_nextPageToken := next |}.

(** A SKU listing with one SKU, one pricing entry and one rate. *)
Definition priced (nanos : Z) : SkuList :=
  {| skus := Some [ {| sku_pricingInfo :=
       [ {| pricingExpression_tieredRates := [ {| unitPrice_nanos := nanos |} ] |} ] |} ] |}.

Definition zone_answer (prompt : string) : string := "us-central1-a".

(** Prices: 0.10 an hour for n2-standard-2, 0.17 a GB for pd-ssd, no SKU
    for anything else. *)
Definition price_list (filter : string) : Py.exn + SkuList :=
  if String.eqb filter "resource.name = n2-standard-2" then inr (priced 100000000)
  else if String.eqb filter "resource.name = pd-ssd" then inr (priced 170000000)
  else inr {| skus := Some [] |}.

(** Customer "123" has one instance and one disk. *)
Definition scenario_catalog (req : Request) : Py.exn + Response :=
  match req_collection req with
  | instances => inr (page [instance_of "123" "vm-1" "n2-standard-2"] None)
  | disks => inr (page [disk_of "123" "disk-1" "pd-ssd" "100"] None)
  | _ => inl (Py.HttpError "not found")
  end.

Definition scenario_world : World :=
  static_world tool_configs zone_answer true scenario_catalog price_list (inr "ok").

(** The cart line of the instance of the scenario: 0.10 * 730 a month. *)
Definition vm_1_item : CartItem :=
  {| product_id := "n2-standard-2"; name := "vm-1"; quantity := 1;
     monthly_cost := 73%float |}.






(** Customer "123" has two instances, listed on two pages, and one disk. *)
Definition paged_catalog (req : Request) : Py.exn + Response :=
  match req_collection req, req_pageToken req with
  | instances, None =>
      inr (page [instance_of "123" "vm-1" "n2-standard-2"] (Some "page-2"))
  | instances, Some _ =>
      inr (page [instance_of "123" "vm-2" "n2-standard-2"] None)
  | disks, _ => inr (page [disk_of "123" "disk-1" "pd-ssd" "100"] None)
  | _, _ => inl (Py.HttpError "not found")
  end.

Definition paged_world : World :=
  static_world tool_configs zone_answer true paged_catalog price_list (inr "ok").

(** Customer "123" has a priced instance and one of a type without SKU. *)
Definition unpriced_catalog (req : Request) : Py.exn + Response :=
  match req_collection req with
  | instances => inr (page [instance_of "123" "vm-1" "n2-standard-2";
                            instance_of "123" "vm-2" "x9-custom-2"] None)
  | disks => inr (page [] None)
  | _ => inl (Py.HttpError "not found")
  end.

Definition unpriced_world : World :=
  static_world tool_configs zone_answer true unpriced_catalog price_list (inr "ok").

(** The answers of a customer to the questions about the workload. *)
Definition needs (workload vcpu memory storage : string) (prompt : string) : string :=
  if String.eqb prompt "What type of workload? (web-server/data-processing)"
  then workload
  else if String.eqb prompt "How many vCPUs needed? (enter number)" then vcpu
  else if String.eqb prompt "How much memory needed in GB? (enter number)"
  then memory
  else if String.eqb prompt "How much storage needed in GB? (enter number)"
  then storage
  else "us-central1-a".

Definition type_catalog (machines : list Resource) (req : Request)
  : Py.exn + Response :=
  match req_collection req with
  | machineTypes => inr (page machines None)
  | diskTypes => inr (page [disk_type_of "pd-ssd"; disk_type_of "pd-standard"] None)
  | _ => inl (Py.HttpError "not found")
  end.

Definition sizing_world (workload vcpu memory storage : string)
    (machines : list Resource) : World :=
  static_world tool_configs (needs workload vcpu memory storage) true
               (type_catalog machines) price_list (inr "ok").

Definition compute_optimized : list Resource :=
  [machine_type_of "c2-standard-4" 4 16384;
   machine_type_of "c2-standard-8" 8 32768;
   machine_type_of "n2-standard-2" 2 8192].

(** A world for the CRM updater: the answer to the confirmation and the
    outcome of the update call. *)
Definition crm_world (confirm : bool) (crm : Py.exn + string) : World :=
  static_world tool_configs zone_answer confirm scenario_catalog price_list crm.

(** A world for the invitation sender: the relay accepts every mail. *)
Definition relay_world : World :=
  static_world tool_configs (λ _, "customer@example.com") true
               scenario_catalog price_list (inr "ok").

(** The scenario with the settings class of [config.py] as [configs]. *)
Definition shipped_world : World :=
  static_world Config zone_answer true scenario_catalog price_list (inr "ok").

Definition appointment : list (string * string) :=
  [("appointment_date", "2024-07-25"); ("appointment_time", "9-12")].

Definition cancelled : Status :=
  {| status := "cancelled"; message := "Update cancelled by user" |}.

Definition success : Status :=
  {| status := "success"; message := "HubSpot record updated." |}.

(** ** [send_security_instructions] *)

Definition is_KeyError (e : Py.exn) : bool :=
  match e with Py.KeyError _ => true | _ => false end.

(** [try: body except (ImportError, KeyError) as e: handler e]: of the two,
    the body of the tool can raise [KeyError] only. *)
Definition try_except_KeyError {L A} (body : M L A) (handler : Py.exn → M L A)
  : M L A :=
  λ m, match body m with
       | (Raise e, m') => if is_KeyError e then handler e m' else (Raise e, m')
       | r => r
       end.

(** [sep.join(l)] *)
Fixpoint str_join (sep : string) (l : list string) : string :=
  match l with
  | [] => ""
  | x :: l' =>
      match l' with
      | [] => x
      | _ :: _ => x +:+ sep +:+ str_join sep l'
      end
  end.

Section Security.
Context (w : World).

(** The table of the instructions, a dictionary from 'base' and from the
    compute types to lists of lines, that [tools.py] imports from [prompts]
    under the name [SECURITY_INSTRUCTIONS]. *)
Context (SECURITY_INSTRUCTIONS : gmap string (list string)).

(** The [try] block: the text of the instructions for a compute type. *)
Definition security_message (compute_type : string) : M unit string :=
  base_instructions ← getitem (SECURITY_INSTRUCTIONS !! "base") "base";
  let specific_instructions :=
    default [] (SECURITY_INSTRUCTIONS !! Py.lower compute_type) in
  let instructions := base_instructions ++ specific_instructions in
  mret ("Security Best Practices for " +:+ compute_type +:+ ":" +:+ newline
        +:+ str_join newline instructions).

(** [delivery_method] is 'email' when the caller gives none.  The [except]
    branch returns from the function: [Some] carries its status. *)
Definition send_security_instructions (customer_id delivery_method : string)
  : M unit Status :=
  logger "info" "Sending security instructions to customer: %s via %s" ;;
  compute_type ← ToolContext_get_input w
    "What type of compute engine? (n2-standard/c2-standard)";
  failed ← try_except_KeyError
    (message_ ← security_message compute_type; mret None)
    (λ e, logger "error" "Failed to load security instructions: %s" ;;
          mret (Some {| status := "error";
                        message := "Failed to load security configuration" |}));
  match failed with
  | Some result => mret result
  | None =>
      mret {| status := "success";
              message := "Security instructions for " +:+ compute_type
                         +:+ " sent via " +:+ delivery_method +:+ "." |}
  end.
End Security.

(** ** More of what a trace shows *)

Definition billing_calls (tr : Trace) : list string :=
  tr ≫= λ ev, match ev with BillingCall filter => [filter] | _ => [] end.

(** The questions put to the conversation. *)
Definition questions (tr : Trace) : list string :=
  tr ≫= λ ev, match ev with Asked prompt _ => [prompt] | _ => [] end.

(** The events by which a call changes something outside: an update of the
    CRM, a mail handed to the relay. *)
Definition is_mutation (ev : Event) : bool :=
  match ev with
  | CrmUpdate _ _ | Mail (smtp_sendmail _ _ _ _) => true
  | _ => false
  end.

(** A table of instructions, and a world that answers "N2-Standard". *)
Definition sample_instructions : gmap string (list string) :=
  {[ "base" := ["Use least privilege"; "Rotate keys"];
     "n2-standard" := ["Enable shielded VM"] ]}.

Definition security_world : World :=
  static_world tool_configs (λ _, "N2-Standard") true scenario_catalog
               price_list (inr "ok").

(** A world in which the catalog is unreachable. *)
Definition unreachable_world : World :=
  static_world tool_configs zone_answer true
               (λ _, inl (Py.HttpError "503 Service Unavailable"))
               price_list (inr "ok").

(** A world in which the tool context refuses the messages about the
    details of a CRM update. *)
Definition log_failure_world : World :=
  {| configs := tool_configs;
     get_input := λ _ prompt, zone_answer prompt;
     get_confirmation := λ _ _ _, true;
     log_info := λ _ msg, if Py.is_prefix "Updating " msg
                          then Some (Py.OtherError "context closed") else None;
     compute_execute := λ _ req, scenario_catalog req;
     billing_execute := λ _ filter, price_list filter;
     hubspot_update := λ _ _ _ _, inr "ok";
     uuid4 := λ _, "3f2b8c1e-7a4d-4e0b-9c55-1d2e3f4a5b6c";
     smtp := λ _ _, None |}.

(** A world in which the relay refuses the login. *)
Definition auth_failure_world : World :=
  {| configs := tool_configs;
     get_input := λ _ _, "customer@example.com";
     get_confirmation := λ _ _ _, true;
     log_info := λ _ _, None;
     compute_execute := λ _ req, scenario_catalog req;
     billing_execute := λ _ filter, price_list filter;
     hubspot_update := λ _ _ _ _, inr "ok";
     uuid4 := λ _, "3f2b8c1e-7a4d-4e0b-9c55-1d2e3f4a5b6c";
     smtp := λ _ op, match op with
                     | smtp_login _ _ =>
                         Some (Py.SMTPException "535 Authentication failed")
                     | _ => None
                     end |}.

(** The text of an invitation, up to the meeting link. *)
Definition invitation_text : string :=
  "Hello there! This issue needs further investigation. Please join the meeting session using the link below."
  +:+ newline +:+ "https://meet.google.com/".

(** What a call of [send_meeting_invitation] can leave in the trace: the
    question about the receiver, and the steps of a mail session in which
    the mail goes from the configured sender to an address that the
    conversation gave, with the fixed subject and an invitation as text. *)
Definition invitation_event (w : World) (ev : Event) : Prop :=
  match ev with
  | Asked prompt _ => prompt = "Please enter the receiver's email address"
  | Mail (smtp_sendmail from_addr to_addr subject body) =>
      configs w "sender_email" = Some from_addr ∧
      (∃ tr, to_addr = get_input w tr "Please enter the receiver's email address") ∧
      subject = "Meeting Invitation!" ∧
      (∃ tr, body = invitation_text +:+ Py.take_prefix 8 (uuid4 w tr))
  | Mail _ => True
  | _ => False
  end.

(** What [get_product_recommendations] makes of a machine type that it
    recommends: an item named after the type, of the family of the workload,
    described with the specs it carries. *)
Definition machine_recommendation (workload : string) (item : RecommendationItem)
  : Prop :=
  match rec_specs item with
  | MachineSpecs cpus memory_gb =>
      rec_name item = rec_product_id item +:+ " Instance" ∧
      Py.contains (family workload) (rec_product_id item) = true ∧
      (Py.lower workload = "web-server" ∧
       rec_description item = GeneralPurpose cpus memory_gb ∨
       Py.lower workload = "data-processing" ∧
       rec_description item = ComputeOptimized cpus memory_gb)
  | DiskSpecs _ _ => True
  end.

(** What it makes of a disk type that it recommends: the standard disk for
    "web-server", the SSD for "data-processing", sized with the answer
    [storage] of the conversation as it was typed. *)
Definition disk_recommendation (workload storage : string) (item : RecommendationItem)
  : Prop :=
  match rec_specs item with
  | MachineSpecs _ _ => True
  | DiskSpecs type_ size_gb =>
      size_gb = storage ∧
      rec_name item = "Persistent Disk" ∧
      rec_description item = StorageOptimized workload ∧
      type_ = (if Py.contains "ssd" (rec_product_id item) then "SSD" else "Standard") ∧
      (Py.lower workload = "web-server" ∧
       Py.contains "pd-standard" (rec_product_id item) = true ∨
       Py.lower workload = "data-processing" ∧
       Py.contains "pd-ssd" (rec_product_id item) = true)
  end.

(** A loop body that only appends to the recommendations, and only items
    named after the resource at hand; it leaves the trace alone. *)
Definition appends_named (body : Resource → M (list RecommendationItem) unit) : Prop :=
  ∀ r m, ∃ o new,
    body r m = (o, Machine (trace m) (locals m ++ new)) ∧
    sublist (rec_product_id <$> new) (omap res_name [r]).

(** The response has no continuation token (an empty one counts as none). *)
Definition last_page (response : Response) : Prop :=
  resp_nextPageToken response = None ∨ resp_nextPageToken response = Some "".

(** The catalog requests of a run of the first loop of
    [retrieve_cart_information] that started with [req] and made [n]
    iterations: [req], and then the first page of the disk listing again
    and again. *)
Definition loop_requests (n : nat) (req : Request) (project zone : string)
  : list Request :=
  match n with
  | O => []
  | S n' => req :: replicate n' (list_request disks project zone)
  end.

(** A world in which customer "123" owns nothing: the catalog lists
    resources of customer "456" only. *)
Definition stranger_world : World :=
  static_world tool_configs zone_answer true
    (λ req, match req_collection req with
            | instances => inr (page [instance_of "456" "vm-7" "n2-standard-2"] None)
            | _ => inr (page [disk_of "456" "disk-7" "pd-ssd" "50"] None)
            end)
    price_list (inr "ok").

(** The filter of the billing lookup that prices a cart line. *)
Definition price_filter (item : CartItem) : string :=
  "resource.name = " +:+ product_id item.

Definition read_only (tr : Trace) : Prop :=
  Forall (λ ev, is_mutation ev = false) tr.

(** Between two steps of a loop body of [retrieve_cart_information]: the
    calls to the billing service are those that priced the lines of the
    cart, one for each line and in their order, and nothing outside has
    been changed. *)
Definition billed (m : machine CartLocals) : Prop :=
  read_only (trace m) ∧
  billing_calls (trace m) = price_filter <$> cart_items (locals m).

(** The same with a lookup under way, whose line is not yet in the cart. *)
Definition billing (filter : string) (m : machine CartLocals) : Prop :=
  read_only (trace m) ∧
  billing_calls (trace m) = (price_filter <$> cart_items (locals m)) ++ [filter].

(** Wherever a run stops. *)
Definition billed_or_billing (m : machine CartLocals) : Prop :=
  billed m ∨ ∃ filter, billing filter m.

(** ** The customer entity *)

(** The models of [entities/customer.py].  A model is built from keyword
    arguments; an argument that the caller leaves out is [None].  Building
    fails with the validation error of the library (a [ValueError]) when a
    field without default is left out. *)
Module Entities.

Record Address := { street : string; city : string; state : string; zip : string }.

Record Product := { product_id : string; name : string; quantity : Z }.

Record Purchase := {
  date : string;
  items : list Product;
  total_amount : float;
}.

Record CommunicationPreferences := {
  email : bool;
  sms : bool;
  push_notifications : bool;
}.

Record Customer := {
  account_number : string;
  customer_id : string;
  customer_first_name : string;
  customer_last_name : string;
  customer_email : string;                     (* 'email' *)
  phone_number : string;
  customer_start_date : string;
  years_as_customer : Z;
  billing_address : Address;
  purchase_history : list Purchase;
  loyalty_points : Z;
  preferred_store : string;
  communication_preferences : CommunicationPreferences;
  scheduled_appointments : list (string * string);
}.

Definition field_required (field : string) : Py.exn :=
  Py.ValueError ("1 validation error for Customer: " +:+ field +:+ ": Field required").

(** A field without default. *)
Definition required {A B} (field : string) (arg : option A)
    (k : A → Py.exn + B) : Py.exn + B :=
  match arg with
  | Some a => k a
  | None => inl (field_required field)
  end.

(** [Customer(account_number=..., customer_id=..., ...)] *)
Definition Customer_new
    (account_number_ customer_id_ customer_first_name_ customer_last_name_
       email_ phone_number_ customer_start_date_ : option string)
    (years_as_customer_ : option Z) (billing_address_ : option Address)
    (purchase_history_ : option (list Purchase)) (loyalty_points_ : option Z)
    (preferred_store_ : option string)
    (communication_preferences_ : option CommunicationPreferences)
    (scheduled_appointments_ : option (list (string * string)))
  : Py.exn + Customer :=
  required "account_number" account_number_ (λ a1,
  required "customer_id" customer_id_ (λ a2,
  required "customer_first_name" customer_first_name_ (λ a3,
  required "customer_last_name" customer_last_name_ (λ a4,
  required "email" email_ (λ a5,
  required "phone_number" phone_number_ (λ a6,
  required "customer_start_date" customer_start_date_ (λ a7,
  required "years_as_customer" years_as_customer_ (λ a8,
  required "billing_address" billing_address_ (λ a9,
  required "purchase_history" purchase_history_ (λ a10,
  required "loyalty_points" loyalty_points_ (λ a11,
  required "preferred_store" preferred_store_ (λ a12,
  required "communication_preferences" communication_preferences_ (λ a13,
  inr {| account_number := a1; customer_id := a2; customer_first_name := a3;
         customer_last_name := a4; customer_email := a5; phone_number := a6;
         customer_start_date := a7; years_as_customer := a8;
         billing_address := a9; purchase_history := a10;
         loyalty_points := a11; preferred_store := a12;
         communication_preferences := a13;
         scheduled_appointments := default [] scheduled_appointments_ |}
  ))))))))))))).

#[warnings="-inexact-float"]
Definition example_purchases : list Purchase :=
  [ {| date := "2023-03-05";
       items := [ {| product_id := "vm-n1-111";
                     name := "N1 Standard Instance (2 vCPU)"; quantity := 1 |};
                  {| product_id := "disk-222";
                     name := "Persistent Disk 100GB SSD"; quantity := 1 |} ];
       total_amount := 125.40%float |};
    {| date := "2023-07-12";
       items := [ {| product_id := "vm-c2-333";
                     name := "C2 High-CPU Instance (4 vCPU)"; quantity := 2 |};
                  {| product_id := "ip-444";
                     name := "Static IP Address"; quantity := 2 |} ];
       total_amount := 245.80%float |};
    {| date := "2024-01-20";
       items := [ {| product_id := "vm-e2-555";
                     name := "E2 Standard Instance (8 vCPU)"; quantity := 1 |};
                  {| product_id := "snapshot-666";
                     name := "Disk Snapshot Service"; quantity := 1 |} ];
       total_amount := 320.15%float |} ].

(** [Customer.get_customer(current_customer_id, account_number)] *)
Definition get_customer (current_customer_id account_number_ : string)
  : Py.exn + Customer :=
  Customer_new
    (Some account_number_)                 (* account_number *)
    (Some current_customer_id)             (* customer_id *)
    (Some "John")                          (* customer_first_name *)
    (Some "Johnson")                       (* customer_last_name *)
    (Some "John.johnson@example.com")      (* email *)
    (Some "+1-702-555-1212")               (* phone_number *)
    (Some "2022-06-10")                    (* customer_start_date *)
    (Some 2)                               (* years_as_customer *)
    (Some {| street := "123 Main St"; city := "Anytown"; state := "CA";
             zip := "12345" |})            (* billing_address *)
    (Some example_purchases)               (* purchase_history *)
    (Some 133)                             (* loyalty_points *)
    None                                   (* preferred_store: not passed *)
    (Some {| email := true; sms := false; push_notifications := true |})
    (Some []).                             (* scheduled_appointments *)

End Entities.

(** A world in which customer "123" owns a disk and no instance. *)
Definition disk_owner_world : World :=
  static_world tool_configs zone_answer true
    (λ req, match req_collection req with
            | instances => inr (page [instance_of "456" "vm-7" "n2-standard-2"] None)
            | _ => inr (page [disk_of "456" "disk-7" "pd-ssd" "50";
                              disk_of "123" "disk-1" "pd-ssd" "100"] None)
            end)
    price_list (inr "ok").

(** ** The rules of the program logic *)

Section Logic.
Context {L : Type}.
Implicit Types (P : machine L → Prop) (I : machine L → Prop).

Lemma triple_ret {A} P I (a : A) (Q : A → machine L → Prop) :
  (∀ m, P m → Q a m) → triple P (mret a) Q I.
Proof. intros H m Hm. cbn. auto. Qed.

Lemma triple_raise {A} P I e (Q : A → machine L → Prop) :
  (∀ m, P m → I m) → triple P (raise e) Q I.
Proof. intros H m Hm. cbn. auto. Qed.

Lemma triple_out_of_fuel {A} P I (Q : A → machine L → Prop) :
  (∀ m, P m → I m) → triple P out_of_fuel Q I.
Proof. intros H m Hm. cbn. auto. Qed.

Lemma triple_bind {A B} P I (c : M L A) (f : A → M L B) Q R :
  triple P c Q I → (∀ a, triple (Q a) (f a) R I) → triple P (c ≫= f) R I.
Proof.
  intros Hc Hf m Hm. specialize (Hc m Hm).
  unfold mbind, M_bind. destruct (c m) as [[a| |] m']; auto.
  apply Hf, Hc.
Qed.

Lemma triple_conseq {A} P P' I (c : M L A) (Q Q' : A → machine L → Prop) :
  triple P' c Q' I → (∀ m, P m → P' m) → (∀ a m, Q' a m → Q a m) →
  triple P c Q I.
Proof.
  intros Hc HP HQ m Hm. specialize (Hc m (HP m Hm)).
  destruct (c m) as [[a| |] m']; auto.
Qed.

Lemma triple_try_except {A} P I (body : M L A) handler Q :
  triple P body Q I → (∀ e, triple I (handler e) Q I) →
  triple P (try_except body handler) Q I.
Proof.
  intros Hb Hh m Hm. specialize (Hb m Hm). unfold try_except.
  destruct (body m) as [[a| e |] m']; auto. apply Hh, Hb.
Qed.

Lemma triple_for_each {A} P I (l : list A) (body : A → M L unit) :
  (∀ x, x ∈ l → triple P (body x) (λ _, P) I) →
  triple P (for_each l body) (λ _, P) I.
Proof.
  induction l as [|x l IH]; intros Hbody; cbn [for_each].
  - apply triple_ret. auto.
  - eapply triple_bind.
    + apply Hbody. left.
    + intros []. apply IH. intros y Hy. apply Hbody. now right.
Qed.

Lemma triple_get_locals P I :
  triple P get_locals (λ l m, l = locals m ∧ P m) I.
Proof. intros m Hm. cbn. auto. Qed.

Lemma triple_modify_locals P I (f : L → L) (Q : unit → machine L → Prop) :
  (∀ m, P m → Q tt (Machine (trace m) (f (locals m)))) →
  triple P (modify_locals f) Q I.
Proof. intros H m Hm. cbn. auto. Qed.

Lemma triple_emit P I ev (Q : unit → machine L → Prop) :
  (∀ m, P m → Q tt (Machine (trace m ++ [ev]) (locals m))) →
  triple P (emit ev) Q I.
Proof. intros H m Hm. cbn. auto. Qed.

Lemma triple_getitem {A} P I (field : option A) key :
  (∀ m, P m → I m) →
  triple P (getitem field key) (λ a m, field = Some a ∧ P m) I.
Proof. intros H m Hm. destruct field; cbn; auto. Qed.

Lemma triple_first {A} P I (l : list A) :
  (∀ m, P m → I m) →
  triple P (first l) (λ a m, l !! 0%nat = Some a ∧ P m) I.
Proof. intros H m Hm. unfold first. destruct (l !! 0%nat); cbn; auto. Qed.

Lemma triple_getitem_bind {A B} P I (field : option A) key (k : A → M L B) R :
  (∀ m, P m → I m) → (∀ a, field = Some a → triple P (k a) R I) →
  triple P (getitem field key ≫= k) R I.
Proof.
  intros HI Hk. eapply triple_bind; [apply triple_getitem, HI|].
  intros a m [Ha Hm]. now apply Hk.
Qed.

Lemma triple_first_bind {A B} P I (l : list A) (k : A → M L B) R :
  (∀ m, P m → I m) → (∀ a, triple P (k a) R I) →
  triple P (first l ≫= k) R I.
Proof.
  intros HI Hk. eapply triple_bind; [apply triple_first, HI|].
  intros a m [_ Hm]. now apply Hk.
Qed.

Lemma triple_py_int_bind {B} P I s (k : Z → M L B) R :
  (∀ m, P m → I m) → (∀ z, Py.int_of_str s = Some z → triple P (k z) R I) →
  triple P (py_int s ≫= k) R I.
Proof.
  intros HI Hk m Hm. unfold mbind, M_bind, py_int.
  destruct (Py.int_of_str s) as [z|]; cbn; [now apply Hk | now apply HI].
Qed.

Lemma triple_py_float_bind {B} P I s (k : float → M L B) R :
  (∀ m, P m → I m) → (∀ x, Py.float_of_str s = Some x → triple P (k x) R I) →
  triple P (py_float s ≫= k) R I.
Proof.
  intros HI Hk m Hm. unfold mbind, M_bind, py_float.
  destruct (Py.float_of_str s) as [x|]; cbn; [now apply Hk | now apply HI].
Qed.

Lemma triple_py_float_of_int_bind {B} P I z (k : float → M L B) R :
  (∀ m, P m → I m) → triple P (k (Py.float_of_int z)) R I →
  triple P (py_float_of_int z ≫= k) R I.
Proof.
  intros HI Hk m Hm. unfold mbind, M_bind, py_float_of_int.
  destruct (Py.int_fits_float z); cbn; [now apply Hk | now apply HI].
Qed.

Lemma triple_int_truediv_bind {B} P I a b (k : float → M L B) R :
  (∀ m, P m → I m) → triple P (k (Py.truediv a b)) R I →
  triple P (int_truediv a b ≫= k) R I.
Proof.
  intros HI Hk m Hm. unfold mbind, M_bind, int_truediv.
  destruct (b =? 0); cbn; [now apply HI|].
  destruct (Py.quotient_fits_float a b); cbn; [now apply Hk | now apply HI].
Qed.

Lemma triple_list_next P I request response :
  (∀ m, P m → I m) → triple P (list_next request response) (λ _, P) I.
Proof.
  intros HI m Hm. unfold list_next.
  destruct (resp_nextPageToken response) as [token|]; cbn; auto.
  destruct (String.eqb token ""); cbn; auto.
  destruct request; cbn; auto.
Qed.

Lemma triple_pure {A} (φ : Prop) P I (c : M L A) Q :
  (φ → triple P c Q I) → triple (λ m, φ ∧ P m) c Q I.
Proof. intros H m [Hφ Hm]. now apply H. Qed.

Lemma triple_any {A} P (c : M L A) :
  triple P c (λ _ _, True) (λ _, True).
Proof. intros m _. destruct (c m) as [[?| |] ?]; exact I. Qed.

Section World.
Context (w : World).

Lemma triple_logger P I level fmt :
  stable P → triple P (logger level fmt) (λ _, P) I.
Proof. intros HP m Hm. cbn. now apply HP. Qed.

Lemma triple_getattr_configs P I attr :
  (∀ m, P m → I m) →
  triple P (getattr_configs w attr) (λ v m, configs w attr = Some v ∧ P m) I.
Proof.
  intros HI m Hm. unfold getattr_configs.
  destruct (configs w attr); cbn; auto.
Qed.

Lemma triple_get_input P I prompt :
  stable P →
  triple P (ToolContext_get_input w prompt)
         (λ answer m, Asked prompt answer ∈ trace m ∧ P m) I.
Proof.
  intros HP m Hm. cbn. split; [|now apply HP].
  apply elem_of_app. right. left.
Qed.

Lemma triple_execute P I req :
  stable P → (∀ m, P m → I m) →
  triple P (execute w req)
         (λ response m, CatalogCall req (inr response) ∈ trace m ∧ P m) I.
Proof.
  intros HP HI m Hm. unfold execute, mbind, M_bind, oracle, emit. cbn.
  destruct (compute_execute w (trace m) req) as [e|response]; cbn.
  - now apply HI, HP.
  - split; [|now apply HP]. apply elem_of_app. right. left.
Qed.

Lemma triple_skus_list_execute P I filter :
  stable P → (∀ m, P m → I m) →
  triple P (skus_list_execute w filter) (λ _, P) I.
Proof.
  intros HP HI m Hm. unfold skus_list_execute, mbind, M_bind, oracle, emit. cbn.
  destruct (billing_execute w (trace m) filter); cbn; [apply HI|]; now apply HP.
Qed.

Lemma triple_get_input_answer P I prompt :
  stable P →
  triple P (ToolContext_get_input w prompt)
         (λ answer m, (∃ tr, answer = get_input w tr prompt) ∧ P m) I.
Proof. intros HP m Hm. cbn. split; [eauto | now apply HP]. Qed.
End World.
End Logic.

(** ** The cart invariant along [retrieve_cart_information] *)

Lemma listed_snoc tr ev r : r ∈ listed tr → r ∈ listed (tr ++ [ev]).
Proof.
  unfold listed. rewrite bind_app, elem_of_app. auto.
Qed.

Lemma listed_catalog_call tr req response r :
  CatalogCall req (inr response) ∈ tr →
  r ∈ default [] (resp_items response) → r ∈ listed tr.
Proof.
  intros Hev Hr. unfold listed. apply list_elem_of_bind.
  exists (CatalogCall req (inr response)). auto.
Qed.

Lemma sum_monthly_cost_snoc l item :
  sum_monthly_cost (l ++ [item]) = (sum_monthly_cost l + monthly_cost item)%float.
Proof. unfold sum_monthly_cost. now rewrite foldl_app. Qed.

Lemma cart_inv_stable customer_id : stable (cart_inv customer_id).
Proof.
  intros m ev [Hsum Hq Ho]. split; cbn; auto.
  eapply Forall_impl; [exact Ho|]. cbn. intros item (r & Hr & Hmade).
  exists r. split; [now apply listed_snoc | exact Hmade].
Qed.

Lemma in_page_stable customer_id page : stable (in_page customer_id page).
Proof.
  intros m ev [Hinv Hpage]. split; [now apply cart_inv_stable|].
  intros r Hr. cbn. apply listed_snoc. auto.
Qed.

Lemma in_page_cart_inv customer_id page m :
  in_page customer_id page m → cart_inv customer_id m.
Proof. now intros [H _]. Qed.

Lemma cart_inv_set_request customer_id m r :
  cart_inv customer_id m →
  cart_inv customer_id (Machine (trace m) (set_request r (locals m))).
Proof. intros [Hsum Hq Ho]. split; cbn; auto. Qed.

Lemma cart_inv_add customer_id m r item :
  cart_inv customer_id m → r ∈ listed (trace m) →
  made_from customer_id r item → quantity item = 1 →
  cart_inv customer_id
    (Machine (trace m)
       (add_subtotal (monthly_cost item) (append_item item (locals m)))).
Proof.
  intros [Hsum Hq Ho] Hr Hmade Hone. split; cbn.
  - rewrite sum_monthly_cost_snoc. now rewrite Hsum.
  - apply Forall_app. split; [exact Hq|]. now constructor.
  - apply Forall_app. split; [exact Ho|]. constructor; [|constructor].
    exists r. auto.
Qed.

Section CartInvariant.
Context (w : World) (customer_id : string).

Lemma instance_body_inv page response instance :
  instance ∈ page →
  triple (in_page customer_id page)
         (instance_body w customer_id response instance)
         (λ _, in_page customer_id page) (cart_inv customer_id).
Proof.
  intros Hin. unfold instance_body.
  pose proof (in_page_cart_inv customer_id page) as HI.
  pose proof (in_page_stable customer_id page) as HS.
  eapply triple_bind with (Q := λ _, in_page customer_id page).
  - case_bool_decide as Hlabel; [|now apply triple_ret].
    apply triple_getitem_bind; [exact HI|]. intros full_type Htype.
    eapply triple_bind; [now apply triple_skus_list_execute|].
    intros price_request. unfold first_unit_price_nanos.
    eapply triple_bind with (Q := λ _, in_page customer_id page).
    { apply triple_getitem_bind; [exact HI|]. intros skus_ _.
      apply triple_first_bind; [exact HI|]. intros sku.
      apply triple_first_bind; [exact HI|]. intros info.
      apply triple_first_bind; [exact HI|]. intros rate.
      apply triple_ret. intros m Hm. exact Hm. }
    intros nanos. cbn beta.
    apply triple_py_float_of_int_bind; [exact HI|].
    apply triple_getitem_bind; [exact HI|]. intros instance_name Hname.
    intros m [Hinv Hpage]. unfold mbind, M_bind, modify_locals. cbn.
    split; [|exact Hpage].
    match goal with
    | |- cart_inv _ (Machine _ (add_subtotal _ (append_item ?it _))) =>
        apply (cart_inv_add customer_id m instance it)
    end; auto.
    split; [exact Hlabel|]. left. cbn. rewrite Htype, Hname. auto.
  - intros []. eapply triple_bind; [apply triple_get_locals|].
    intros l. eapply triple_bind.
    + eapply triple_conseq; [apply triple_list_next| |].
      * intros m Hm. apply HI. exact Hm.
      * intros m [_ Hm]. exact Hm.
      * intros next m Hm. exact Hm.
    + intros next. apply triple_modify_locals.
      intros m [Hinv Hpage]. split; [now apply cart_inv_set_request|exact Hpage].
Qed.

Lemma disk_body_inv page disk :
  disk ∈ page →
  triple (in_page customer_id page) (disk_body w customer_id disk)
         (λ _, in_page customer_id page) (cart_inv customer_id).
Proof.
  intros Hin. unfold disk_body.
  pose proof (in_page_cart_inv customer_id page) as HI.
  pose proof (in_page_stable customer_id page) as HS.
  case_bool_decide as Hlabel; [|now apply triple_ret].
  apply triple_getitem_bind; [exact HI|]. intros full_type Htype.
  apply triple_getitem_bind; [exact HI|]. intros size_str _.
  apply triple_py_int_bind; [exact HI|]. intros size_gb _.
  eapply triple_bind; [now apply triple_skus_list_execute|].
  intros price_request. unfold first_unit_price_nanos.
  eapply triple_bind with (Q := λ _, in_page customer_id page).
  { apply triple_getitem_bind; [exact HI|]. intros skus_ _.
    apply triple_first_bind; [exact HI|]. intros sku.
    apply triple_first_bind; [exact HI|]. intros info.
    apply triple_first_bind; [exact HI|]. intros rate.
    apply triple_ret. intros m Hm. exact Hm. }
  intros nanos. cbn beta.
  apply triple_py_float_of_int_bind; [exact HI|].
  apply triple_py_float_of_int_bind; [exact HI|].
  intros m [Hinv Hpage]. unfold mbind, M_bind, modify_locals. cbn.
  split; [|exact Hpage].
  match goal with
  | |- cart_inv _ (Machine _ (add_subtotal _ (append_item ?it _))) =>
      apply (cart_inv_add customer_id m disk it)
  end; auto.
  split; [exact Hlabel|]. right. cbn. now rewrite Htype.
Qed.

(** Entering the loop over a page that the catalog has just returned. *)
Lemma page_loop_inv response req (body : Resource → M CartLocals unit) :
  (∀ r, r ∈ default [] (resp_items response) →
        triple (in_page customer_id (default [] (resp_items response))) (body r)
               (λ _, in_page customer_id (default [] (resp_items response)))
               (cart_inv customer_id)) →
  triple (λ m, CatalogCall req (inr response) ∈ trace m ∧ cart_inv customer_id m)
         (for_each (default [] (resp_items response)) body)
         (λ _, cart_inv customer_id) (cart_inv customer_id).
Proof.
  intros Hbody. eapply triple_conseq.
  - apply triple_for_each. exact Hbody.
  - intros m [Hcall Hinv]. split; [exact Hinv|].
    intros r Hr. eapply listed_catalog_call; eauto.
  - intros u m Hm. now apply in_page_cart_inv in Hm.
Qed.

Lemma instances_while_inv fuel zone :
  triple (cart_inv customer_id) (instances_while w fuel customer_id zone)
         (λ _, cart_inv customer_id) (cart_inv customer_id).
Proof.
  induction fuel as [|fuel IH]; cbn [instances_while].
  - eapply triple_bind; [apply triple_get_locals|]. intros l.
    destruct (request l); [apply triple_out_of_fuel | apply triple_ret];
      now intros m [_ Hm].
  - eapply triple_bind; [apply triple_get_locals|]. intros l.
    destruct (request l) as [req|]; [|apply triple_ret; now intros m [_ Hm]].
    eapply triple_bind.
    { eapply triple_conseq with (P' := cart_inv customer_id);
        [apply (triple_execute w); [apply cart_inv_stable | auto]
        | now intros m [_ Hm] | intros a m Hm; exact Hm]. }
    intros response.
    eapply triple_bind.
    { apply page_loop_inv. intros r Hr. now apply instance_body_inv. }
    intros []. eapply triple_bind; [apply (triple_getattr_configs w); auto|].
    intros project. eapply triple_bind with (Q := λ _, cart_inv customer_id).
    + apply triple_modify_locals. intros m [_ Hm].
      now apply cart_inv_set_request.
    + intros []. exact IH.
Qed.

Lemma disks_while_inv fuel :
  triple (cart_inv customer_id) (disks_while w fuel customer_id)
         (λ _, cart_inv customer_id) (cart_inv customer_id).
Proof.
  induction fuel as [|fuel IH]; cbn [disks_while].
  - eapply triple_bind; [apply triple_get_locals|]. intros l.
    destruct (request l); [apply triple_out_of_fuel | apply triple_ret];
      now intros m [_ Hm].
  - eapply triple_bind; [apply triple_get_locals|]. intros l.
    destruct (request l) as [req|]; [|apply triple_ret; now intros m [_ Hm]].
    eapply triple_bind.
    { eapply triple_conseq with (P' := cart_inv customer_id);
        [apply (triple_execute w); [apply cart_inv_stable | auto]
        | now intros m [_ Hm] | intros a m Hm; exact Hm]. }
    intros response.
    eapply triple_bind.
    { apply page_loop_inv. intros r Hr. now apply disk_body_inv. }
    intros []. eapply triple_bind; [apply triple_get_locals|]. intros l'.
    eapply triple_bind with (Q := λ _, cart_inv customer_id).
    { eapply triple_conseq with (P' := cart_inv customer_id);
        [apply triple_list_next; auto | now intros m [_ Hm]
        | intros a m Hm; exact Hm]. }
    intros next. eapply triple_bind with (Q := λ _, cart_inv customer_id).
    + apply triple_modify_locals. intros m Hm.
      now apply cart_inv_set_request.
    + intros []. exact IH.
Qed.

(** The invariant holds wherever a run of [retrieve_cart_information]
    stops, and a returned summary is the cart of the final machine. *)
Lemma retrieve_cart_information_inv fuel :
  triple (λ _, True) (retrieve_cart_information w fuel customer_id)
         (λ summary m, cart_inv customer_id m ∧
                       items summary = cart_items (locals m) ∧
                       subtotal summary = cart_subtotal (locals m))
         (cart_inv customer_id).
Proof.
  unfold retrieve_cart_information.
  pose proof (cart_inv_stable customer_id) as HS.
  eapply triple_bind with (Q := λ _ _, True).
  { apply triple_emit. auto. }
  intros []. apply triple_try_except.
  - eapply triple_bind with (Q := λ _, cart_inv customer_id).
    { apply triple_modify_locals. intros m _. split; cbn; auto. }
    intros []. eapply triple_bind; [now apply (triple_get_input w)|].
    intros zone.
    eapply triple_bind;
      [apply (triple_getattr_configs w); now intros m [_ Hm]|].
    intros project. eapply triple_bind with (Q := λ _, cart_inv customer_id).
    { apply triple_modify_locals. intros m (_ & _ & Hm).
      now apply cart_inv_set_request. }
    intros []. eapply triple_bind; [apply instances_while_inv|].
    intros []. eapply triple_bind; [apply disks_while_inv|].
    intros []. eapply triple_bind; [apply triple_get_locals|].
    intros l. apply triple_ret. intros m [-> Hm]. auto.
  - intros e. eapply triple_bind; [now apply triple_logger|].
    intros []. apply triple_raise. auto.
Qed.
End CartInvariant.

(** No run of [retrieve_cart_information] reaches its [return]: every
    iteration of the first loop ends by assigning the request for the disk
    listing to [request], so the loop condition never fails. *)
Lemma instances_while_never_returns w fuel customer_id zone :
  triple (λ m, request (locals m) ≠ None)
         (instances_while w fuel customer_id zone)
         (λ _ _, False) (λ _, True).
Proof.
  induction fuel as [|fuel IH]; cbn [instances_while].
  - eapply triple_bind; [apply triple_get_locals|]. intros l.
    destruct (request l) eqn:Hreq; [now apply triple_out_of_fuel|].
    intros m [-> Hm]. congruence.
  - eapply triple_bind; [apply triple_get_locals|]. intros l.
    destruct (request l) as [req|] eqn:Hreq; [|intros m [-> Hm]; congruence].
    eapply triple_bind with (Q := λ _ _, True).
    { intros m _. destruct (execute w req m) as [[?| |] ?]; auto. }
    intros response. eapply triple_bind with (Q := λ _ _, True).
    { intros m _. destruct (for_each _ _ m) as [[?| |] ?]; auto. }
    intros []. eapply triple_bind with (Q := λ _ _, True).
    { intros m _. destruct (getattr_configs w _ m) as [[?| |] ?]; auto. }
    intros project.
    eapply triple_bind with (Q := λ _ m, request (locals m) ≠ None).
    { apply triple_modify_locals. intros m _. cbn. congruence. }
    intros []. exact IH.
Qed.

Lemma retrieve_cart_information_never_returns w fuel customer_id l :
  ∀ summary, (run (retrieve_cart_information w fuel customer_id) l).1 ≠ Return summary.
Proof.
  assert (triple (λ _, True) (retrieve_cart_information w fuel customer_id)
                 (λ _ _, False) (λ _, True)) as H.
  { unfold retrieve_cart_information.
    eapply triple_bind with (Q := λ _ _, True); [now apply triple_emit|].
    intros []. apply triple_try_except.
    - eapply triple_bind with (Q := λ _ _, True); [now apply triple_modify_locals|].
      intros []. eapply triple_bind with (Q := λ _ _, True).
      { intros m _. destruct (ToolContext_get_input w _ m) as [[?| |] ?]; auto. }
      intros zone. eapply triple_bind with (Q := λ _ _, True).
      { intros m _. destruct (getattr_configs w _ m) as [[?| |] ?]; auto. }
      intros project.
      eapply triple_bind with (Q := λ _ m, request (locals m) ≠ None).
      { apply triple_modify_locals. intros m _. cbn. congruence. }
      intros []. eapply triple_bind; [apply instances_while_never_returns|].
      intros [] m [].
    - intros e. eapply triple_bind with (Q := λ _ _, True); [now apply triple_emit|].
      intros []. now apply triple_raise. }
  intros summary Hret. specialize (H (Machine [] l) I). unfold run in Hret.
  destruct (retrieve_cart_information w fuel customer_id (Machine [] l))
    as [[?| |] ?]; cbn in Hret; congruence || contradiction.
Qed.

(** ** The claims about [retrieve_cart_information] *)




(** The scenario world: the run stops with the instance of customer "123"
    in the cart. *)
Example scenario_run :
  let '(result, m) := run (retrieve_cart_information scenario_world 2 "123") no_locals in
  result = Raise (Py.KeyError "machineType") ∧
  cart_items (locals m) = [vm_1_item] ∧ cart_subtotal (locals m) = 73%float.
Proof. vm_compute. auto. Qed.

(** The second loop alone, entered with the request for the disk listing
    and the instance of the scenario in the cart: 0.10 * 730 + 0.17 * 100. *)
Example scenario_disks_loop :
  let start := {| request := Some (list_request disks "my_project" "us-central1-a");
                  cart_items := [vm_1_item]; cart_subtotal := 73%float |} in
  let '(result, m) := run (disks_while scenario_world 2 "123") start in
  result = Return tt ∧ cart_subtotal (locals m) = 90%float ∧
  (monthly_cost <$> cart_items (locals m)) = [73%float; 17%float].
Proof. vm_compute. auto. Qed.

(** C2. The listing of the instances of customer "123" comes on two pages.
    The calculator requests the first page and then the disk listing: the
    request for the second page, made by [list_next] inside the loop over
    the items, is overwritten before it is executed, and the disk of the
    customer, taken for an instance, ends the call with [KeyError].  The
    second page is never visited and no result is produced. *)
Theorem second_page_is_never_visited fuel :
  let '(result, m) :=
    run (retrieve_cart_information paged_world (S (S fuel)) "123") no_locals in
  result = Raise (Py.KeyError "machineType") ∧
  catalog_calls (trace m) =
    [list_request instances "my_project" "us-central1-a";
     list_request disks "my_project" "us-central1-a"] ∧
  cart_items (locals m) = [vm_1_item].
Proof. vm_compute. auto. Qed.

(** C3. Customer "123" has a priced instance and an instance of a type for
    which the billing catalog lists no SKU.  The calculator indexes into the
    empty list: the call ends with [IndexError], logged as an error and
    raised again, although the priced instance is already in the cart. *)
Theorem missing_sku_aborts_the_cart fuel :
  let '(result, m) :=
    run (retrieve_cart_information unpriced_world (S fuel) "123") no_locals in
  result = Raise Py.IndexError ∧
  last (trace m) = Some (Logged "error" "Failed to access cart information: %s") ∧
  cart_items (locals m) = [vm_1_item].
Proof. vm_compute. auto. Qed.

(** ** The claims about [get_product_recommendations] *)

Section Fit.
Context (workload vcpu memory : string).

Lemma all_fit_stable : stable (all_fit workload vcpu memory).
Proof. intros m ev Hm. exact Hm. Qed.

Lemma web_server_body_fits machine :
  Py.lower workload = "web-server" →
  triple (all_fit workload vcpu memory) (web_server_body vcpu memory machine) (λ _, all_fit workload vcpu memory) (λ _, True).
Proof.
  intros Hw m Hm.
  unfold web_server_body, mbind, M_bind, getitem, py_int, py_float,
    py_float_of_int, int_truediv, recommend, modify_locals, mret, M_ret, raise.
  destruct (res_name machine) as [machine_name|]; [|exact I].
  destruct (Py.contains "n2-standard" machine_name); [|exact Hm].
  destruct (res_guestCpus machine) as [guestCpus|]; [|exact I].
  destruct (Py.int_of_str vcpu) as [v|] eqn:Hv; [|exact I].
  destruct (Py.int_fits_float v); [|exact I].
  destruct (Py.int_le_float guestCpus _) eqn:Hcpus; [|exact Hm].
  destruct (res_memoryMb machine) as [memoryMb|]; [|exact I].
  cbn [Z.eqb].
  destruct (Py.quotient_fits_float memoryMb 1024); [|exact I].
  destruct (Py.float_of_str memory) as [x|] eqn:Hx; [|exact I].
  destruct (Py.truediv memoryMb 1024 <=? x * 1.5)%float eqn:Hmem; [|exact Hm].
  apply Forall_app. split; [exact Hm|]. constructor; [|constructor].
  split.
  - intros _. exists v, x. auto.
  - intros Hd. rewrite Hw in Hd. discriminate Hd.
Qed.

Lemma data_processing_body_fits machine :
  Py.lower workload = "data-processing" →
  triple (all_fit workload vcpu memory) (data_processing_body vcpu memory machine) (λ _, all_fit workload vcpu memory)
         (λ _, True).
Proof.
  intros Hw m Hm.
  unfold data_processing_body, mbind, M_bind, getitem, py_int, py_float,
    int_truediv, recommend, modify_locals, mret, M_ret, raise.
  destruct (res_name machine) as [machine_name|]; [|exact I].
  destruct (Py.contains "c2-standard" machine_name); [|exact Hm].
  destruct (res_guestCpus machine) as [guestCpus|]; [|exact I].
  destruct (Py.int_of_str vcpu) as [v|] eqn:Hv; [|exact I].
  destruct (v <=? guestCpus) eqn:Hcpus; [|exact Hm].
  destruct (res_memoryMb machine) as [memoryMb|]; [|exact I].
  cbn [Z.eqb].
  destruct (Py.quotient_fits_float memoryMb 1024); [|exact I].
  destruct (Py.float_of_str memory) as [x|] eqn:Hx; [|exact I].
  destruct (x <=? Py.truediv memoryMb 1024)%float eqn:Hmem; [|exact Hm].
  apply Forall_app. split; [exact Hm|]. constructor; [|constructor].
  split.
  - intros Hd. rewrite Hw in Hd. discriminate Hd.
  - intros _. exists v, x. apply Z.leb_le in Hcpus. auto.
Qed.

Lemma disk_type_body_fits workload_type storage disk :
  triple (all_fit workload vcpu memory) (disk_type_body workload_type storage disk) (λ _, all_fit workload vcpu memory)
         (λ _, True).
Proof.
  intros m Hm.
  unfold disk_type_body, mbind, M_bind, getitem, recommend, modify_locals,
    mret, M_ret, raise.
  destruct (res_name disk) as [disk_name|]; [|exact I].
  match goal with |- context [if ?b then _ else _] => destruct b end;
    [|exact Hm].
  apply Forall_app. split; [exact Hm|]. constructor; [|constructor]. exact I.
Qed.
Lemma get_product_recommendations_fits w customer_id :
  (∀ tr, get_input w tr "What type of workload? (web-server/data-processing)"
         = workload) →
  (∀ tr, get_input w tr "How many vCPUs needed? (enter number)" = vcpu) →
  (∀ tr, get_input w tr "How much memory needed in GB? (enter number)"
         = memory) →
  triple (λ _, True) (get_product_recommendations w customer_id)
         (λ recs _, Forall (fits workload vcpu memory) recs) (λ _, True).
Proof.
  intros Hworkload Hvcpu Hmemory. unfold get_product_recommendations.
  eapply triple_bind; [apply triple_any|]. intros [].
  apply triple_try_except.
  2: { intros e. eapply triple_bind; [apply triple_any|]. intros [].
       now apply triple_raise. }
  eapply triple_bind; [now apply (triple_get_input_answer w (λ _, True))|].
  intros workload_type. apply triple_pure. intros [tr ->]. rewrite Hworkload.
  eapply triple_bind; [now apply (triple_get_input_answer w (λ _, True))|].
  intros vcpu_count. apply triple_pure. intros [tr' ->]. rewrite Hvcpu.
  eapply triple_bind; [now apply (triple_get_input_answer w (λ _, True))|].
  intros memory_needed. apply triple_pure. intros [tr'' ->]. rewrite Hmemory.
  eapply triple_bind; [apply triple_any|]. intros zone.
  eapply triple_bind; [apply triple_any|]. intros project.
  eapply triple_bind; [apply triple_any|]. intros machine_types.
  eapply triple_bind with (Q := λ _, all_fit workload vcpu memory).
  { apply triple_modify_locals. intros m _. constructor. }
  intros []. eapply triple_bind with (Q := λ _, all_fit workload vcpu memory).
  { destruct (String.eqb (Py.lower workload) "web-server") eqn:Hweb.
    - apply String.eqb_eq in Hweb. apply triple_for_each. intros machine _.
      now apply web_server_body_fits.
    - destruct (String.eqb (Py.lower workload) "data-processing") eqn:Hdata.
      + apply String.eqb_eq in Hdata. apply triple_for_each. intros machine _.
        now apply data_processing_body_fits.
      + now apply triple_ret. }
  intros []. pose proof all_fit_stable as HS.
  eapply triple_bind;
    [apply (triple_getattr_configs w (all_fit workload vcpu memory)); auto|].
  intros project'. apply triple_pure. intros _.
  eapply triple_bind; [apply (triple_execute w); auto|].
  intros disk_types.
  eapply triple_bind with (Q := λ _, all_fit workload vcpu memory).
  { eapply triple_conseq;
      [apply (triple_get_input w (all_fit workload vcpu memory) (λ _, True)
                "How much storage needed in GB? (enter number)"); exact HS
      | now intros m [_ Hm] | now intros a m [_ Hm]]. }
  intros storage_needed.
  eapply triple_bind with (Q := λ _, all_fit workload vcpu memory).
  { apply triple_for_each. intros disk _. apply disk_type_body_fits. }
  intros []. intros m Hm. exact Hm.
Qed.
End Fit.

(** C5. In a conversation that answers [workload], [vcpu] and [memory] to
    the questions about the workload, every machine-type item that
    [get_product_recommendations] returns satisfies the bound of the
    workload: for "web-server", its cpus are at most 1.5 times [int(vcpu)]
    and its memory_gb at most 1.5 times [float(memory)]; for
    "data-processing", its cpus are at least [int(vcpu)] and its memory_gb at
    least [float(memory)]. *)
Theorem recommended_machines_fit w customer_id workload vcpu memory l recs m :
  (∀ tr, get_input w tr "What type of workload? (web-server/data-processing)"
         = workload) →
  (∀ tr, get_input w tr "How many vCPUs needed? (enter number)" = vcpu) →
  (∀ tr, get_input w tr "How much memory needed in GB? (enter number)"
         = memory) →
  run (get_product_recommendations w customer_id) l = (Return recs, m) →
  ∀ item cpus memory_gb,
    item ∈ recs → rec_specs item = MachineSpecs cpus memory_gb →
    (Py.lower workload = "web-server" →
     ∃ v x, Py.int_of_str vcpu = Some v ∧ Py.float_of_str memory = Some x ∧
            Py.int_le_float cpus (Py.float_of_int v * 1.5)%float = true ∧
            (memory_gb <=? x * 1.5)%float = true) ∧
    (Py.lower workload = "data-processing" →
     ∃ v x, Py.int_of_str vcpu = Some v ∧ Py.float_of_str memory = Some x ∧
            v ≤ cpus ∧ (x <=? memory_gb)%float = true).
Proof.
  intros Hworkload Hvcpu Hmemory Hrun item cpus memory_gb Hitem Hspecs.
  pose proof (get_product_recommendations_fits workload vcpu memory w
                customer_id Hworkload Hvcpu Hmemory (Machine [] l) I) as H.
  unfold run in Hrun. rewrite Hrun in H.
  rewrite Forall_forall in H. specialize (H item Hitem).
  unfold fits in H. now rewrite Hspecs in H.
Qed.

Lemma recommended_machines_fit_witness :
  (Py.lower "data-processing" = "web-server" →
   ∃ v x, Py.int_of_str "4" = Some v ∧ Py.float_of_str "16" = Some x ∧
          Py.int_le_float 8 (Py.float_of_int v * 1.5)%float = true ∧
          (32 <=? x * 1.5)%float = true) ∧
  (Py.lower "data-processing" = "data-processing" →
   ∃ v x, Py.int_of_str "4" = Some v ∧ Py.float_of_str "16" = Some x ∧
          v ≤ 8 ∧ (x <=? 32)%float = true).
Proof.
  pose (w := sizing_world "data-processing" "4" "16" "100" compute_optimized).
  pose (item := {| rec_product_id := "c2-standard-8";
                   rec_name := "c2-standard-8 Instance";
                   rec_description := ComputeOptimized 8 32%float;
                   rec_specs := MachineSpecs 8 32%float |}).
  apply (recommended_machines_fit w "123" "data-processing" "4" "16" []
           (run (get_product_recommendations w "123") []).2.(locals)
           (run (get_product_recommendations w "123") []).2
           (λ _, eq_refl) (λ _, eq_refl) (λ _, eq_refl)
           ltac:(vm_compute; reflexivity) item).
  - vm_compute. right. left.
  - reflexivity.
Defined.

(** ** The claims about [update_hubspot_crm] *)

Lemma crm_calls_app tr tr' : crm_calls (tr ++ tr') = crm_calls tr ++ crm_calls tr'.
Proof. apply bind_app. Qed.

(** The loop that logs the details, when the tool context accepts every
    message: it only adds log messages to the trace. *)
Lemma log_details_returns w (details : list (string * string)) :
  (∀ tr msg, log_info w tr msg = None) →
  ∀ m : machine unit, ∃ tr',
    for_each details
      (λ kv, ToolContext_log_info w ("Updating " +:+ kv.1 +:+ ": " +:+ kv.2)) m
    = (Return tt, Machine (trace m ++ tr') (locals m)) ∧ crm_calls tr' = [].
Proof.
  intros Hlog. induction details as [|kv details IH]; intros m.
  - exists []. cbn. rewrite app_nil_r. now destruct m.
  - cbn [for_each]. unfold mbind, M_bind at 1.
    unfold ToolContext_log_info at 1. unfold mbind, M_bind, oracle, emit. cbn.
    rewrite Hlog. cbn.
    destruct (IH (Machine (trace m ++ [ToolLogged ("Updating " +:+ kv.1 +:+ ": " +:+ kv.2)])
                          (locals m))) as (tr' & -> & Hcalls).
    eexists (_ :: tr'). cbn [trace locals]. rewrite <- app_assoc. cbn.
    split; [reflexivity|]. exact Hcalls.
Qed.

(** C7. When the conversation withholds the confirmation,
    [update_hubspot_crm] returns the status "cancelled" and the trace of the
    call holds no update of the CRM. *)
Theorem withheld_confirmation_cancels w customer_id details :
  (∀ tr, get_confirmation w tr customer_id details = false) →
  ∃ m, run (update_hubspot_crm w customer_id details) tt = (Return cancelled, m) ∧
       crm_calls (trace m) = [].
Proof.
  intros Hno. unfold run, update_hubspot_crm, logger, ToolContext_get_confirmation,
    mbind, M_bind, oracle, emit. cbn. rewrite Hno. cbn.
  eexists. split; reflexivity.
Qed.

Lemma withheld_confirmation_cancels_witness :
  ∃ m, run (update_hubspot_crm (crm_world false (inr "ok")) "123" appointment) tt
       = (Return cancelled, m) ∧ crm_calls (trace m) = [].
Proof.
  exact (withheld_confirmation_cancels (crm_world false (inr "ok")) "123"
           appointment (λ _, eq_refl)).
Defined.

(** C8, as the code has it. In a confirmed call with a configured token:
    when the update call of the CRM fails, the exception is raised to the
    caller (after an error log when it is an [ApiException]) and no status
    is returned; when the update call succeeds and the tool context accepts
    the log messages, the status "success" is returned.  In both cases the
    CRM has been called once. *)
Theorem confirmed_update_succeeds_or_raises w customer_id details token :
  (∀ tr, get_confirmation w tr customer_id details = true) →
  configs w "hubspot_api_key" = Some token →
  (∀ e, (∀ tr, hubspot_update w tr token customer_id details = inl e) →
        ∃ m, run (update_hubspot_crm w customer_id details) tt = (Raise e, m) ∧
             crm_calls (trace m) = [(customer_id, details)] ∧
             (Py.is_ApiException e = true →
              last (trace m) = Some (Logged "error" "HubSpot API error: %s"))) ∧
  (∀ response,
     (∀ tr, hubspot_update w tr token customer_id details = inr response) →
     (∀ tr msg, log_info w tr msg = None) →
     ∃ m, run (update_hubspot_crm w customer_id details) tt = (Return success, m) ∧
          crm_calls (trace m) = [(customer_id, details)]).
Proof.
  intros Hyes Htoken. split.
  - intros e Hfail.
    unfold run, update_hubspot_crm, logger, ToolContext_get_confirmation,
      try_except_ApiException, basic_api_update, getattr_configs,
      mbind, M_bind, oracle, emit.
    cbn. rewrite Hyes. cbn. rewrite Htoken. cbn. rewrite Hfail. cbn.
    destruct (Py.is_ApiException e) eqn:He; cbn.
    + eexists. split; [reflexivity|]. split; [reflexivity|]. intros _. reflexivity.
    + eexists. split; [reflexivity|]. split; [reflexivity|]. intros H. discriminate H.
  - intros response Hok Hlog.
    pose proof (log_details_returns w details Hlog) as Hloop.
    unfold run, update_hubspot_crm.
    set (loop := for_each details _) in *.
    unfold logger, ToolContext_get_confirmation, try_except_ApiException,
      basic_api_update, getattr_configs, ToolContext_log_info, try_except,
      mbind, M_bind, oracle, emit.
    cbn. rewrite Hyes. cbn. rewrite Htoken. cbn. rewrite Hok. cbn.
    rewrite Hlog. cbn.
    match goal with
    | |- context [loop ?m0] => destruct (Hloop m0) as (tr' & -> & Hcalls)
    end.
    cbn. eexists. split; [reflexivity|]. cbn [trace].
    match goal with
    | |- crm_calls (?a :: ?b :: ?c :: ?d :: tr') = _ =>
        change (crm_calls ([a; b; c; d] ++ tr') = [(customer_id, details)])
    end.
    rewrite crm_calls_app, Hcalls. reflexivity.
Qed.

Lemma confirmed_update_succeeds_or_raises_witness :
  ∃ m, run (update_hubspot_crm (crm_world true (inr "ok")) "123" appointment) tt
       = (Return success, m) ∧
       crm_calls (trace m) = [("123", appointment)].
Proof.
  exact (proj2 (confirmed_update_succeeds_or_raises
                  (crm_world true (inr "ok")) "123" appointment "pat-token"
                  (λ _, eq_refl) eq_refl)
               "ok" (λ _, eq_refl) (λ _ _, eq_refl)).
Defined.

(** C8, as stated, fails: the CRM answers the confirmed update with an
    [ApiException]; the call ends with that exception, not with a status. *)
Lemma crm_failure_is_raised :
  let call := run (update_hubspot_crm
                     (crm_world true (inl (Py.ApiException "404 Not Found")))
                     "123" appointment) tt in
  call.1 = Raise (Py.ApiException "404 Not Found") ∧
  (∀ result : Status, call.1 ≠ Return result) ∧
  crm_calls (trace call.2) = [("123", appointment)].
Proof. vm_compute. repeat split; congruence. Qed.

(** ** The claims about the input of [get_product_recommendations] *)

Lemma loop_raises (trigger : Resource → bool) e
    (body : Resource → M (list RecommendationItem) unit) machines
    (m : machine (list RecommendationItem)) :
  (∀ r m', api_machine r →
     body r m' = if trigger r then (Raise e, m') else (Return tt, m')) →
  Forall api_machine machines → Exists (λ r, trigger r = true) machines →
  for_each machines body m = (Raise e, m).
Proof.
  intros Hbody Hall Hex.
  induction Hall as [|r machines Hr Hall IH].
  - inversion Hex.
  - cbn [for_each]. unfold mbind, M_bind. rewrite (Hbody r m Hr).
    destruct (trigger r) eqn:Htrigger; [reflexivity|].
    apply IH. inversion Hex; subst; [congruence | assumption].
Qed.

Section Parsing.
Context (workload vcpu memory : string).
Context (Hknown : Py.lower workload = "web-server" ∨
                  Py.lower workload = "data-processing").

Lemma body_raises_invalid_int r (m : machine (list RecommendationItem)) :
  Py.int_of_str vcpu = None → api_machine r →
  (machine_loop_body workload vcpu memory) r m
  = if in_family workload r then (Raise (Py.int_error vcpu), m)
    else (Return tt, m).
Proof.
  intros Hint ([n Hn] & [c Hc] & _).
  unfold machine_loop_body, in_family, family. rewrite Hn.
  destruct (String.eqb (Py.lower workload) "web-server").
  - unfold web_server_body, mbind, M_bind, getitem, py_int.
    rewrite Hn, Hc, Hint. cbn. now destruct (Py.contains "n2-standard" n).
  - unfold data_processing_body, mbind, M_bind, getitem, py_int.
    rewrite Hn, Hc, Hint. cbn. now destruct (Py.contains "c2-standard" n).
Qed.

Lemma body_raises_invalid_float v r (m : machine (list RecommendationItem)) :
  Py.int_of_str vcpu = Some v →
  (Py.lower workload = "web-server" → Py.int_fits_float v = true) →
  Py.float_of_str memory = None → api_machine r →
  (machine_loop_body workload vcpu memory) r m
  = if passes_vcpu_test workload v r then (Raise invalid_float, m)
    else (Return tt, m).
Proof.
  intros Hint Hfits Hfloat ([n Hn] & [c Hc] & (mb & Hmb & Hquotient)).
  unfold machine_loop_body, passes_vcpu_test, in_family, family. rewrite Hn, Hc.
  destruct (String.eqb (Py.lower workload) "web-server") eqn:Hw.
  - apply String.eqb_eq in Hw. specialize (Hfits Hw).
    unfold web_server_body, mbind, M_bind, getitem, py_int, py_float,
      py_float_of_int, int_truediv.
    rewrite Hn, Hc, Hmb, Hint, Hfloat. cbn -[Py.int_fits_float Py.quotient_fits_float].
    destruct (Py.contains "n2-standard" n); [|reflexivity].
    cbn -[Py.int_fits_float Py.quotient_fits_float]. rewrite Hfits.
    cbn -[Py.quotient_fits_float].
    destruct (Py.int_le_float c _); [|reflexivity].
    cbn -[Py.quotient_fits_float]. rewrite Hquotient. reflexivity.
  - unfold data_processing_body, mbind, M_bind, getitem, py_int, py_float,
      int_truediv.
    rewrite Hn, Hc, Hmb, Hint, Hfloat. cbn -[Py.quotient_fits_float].
    destruct (Py.contains "c2-standard" n); [|reflexivity].
    cbn -[Py.quotient_fits_float].
    destruct (v <=? c); [|reflexivity].
    cbn -[Py.quotient_fits_float]. rewrite Hquotient. reflexivity.
Qed.

(** The run up to the loop over the machine types, and its end when the
    loop raises. *)
Lemma run_until_machine_loop w customer_id project response machines l e :
  (∀ tr, get_input w tr "What type of workload? (web-server/data-processing)"
         = workload) →
  (∀ tr, get_input w tr "How many vCPUs needed? (enter number)" = vcpu) →
  (∀ tr, get_input w tr "How much memory needed in GB? (enter number)"
         = memory) →
  configs w "GOOGLE_CLOUD_PROJECT" = Some project →
  (∀ tr req, req_collection req = machineTypes →
             compute_execute w tr req = inr response) →
  resp_items response = Some machines →
  (∀ m, for_each machines (machine_loop_body workload vcpu memory) m = (Raise e, m)) →
  ∃ m, run (get_product_recommendations w customer_id) l = (Raise e, m) ∧
       failed_after_listing (trace m).
Proof.
  intros Hworkload Hvcpu Hmemory Hproject Hcatalog Hitems Hloop.
  unfold machine_loop_body in Hloop.
  unfold run, get_product_recommendations, try_except, logger,
    ToolContext_get_input, getattr_configs, execute, modify_locals,
    mbind, M_bind, oracle, emit.
  cbn. rewrite !Hworkload, !Hvcpu, !Hmemory, Hproject. cbn.
  rewrite Hcatalog by reflexivity. cbn. rewrite Hitems. cbn [default].
  destruct Hknown as [Hw|Hw]; rewrite Hw in Hloop |- *;
    cbn [String.eqb Ascii.eqb Bool.eqb] in Hloop |- *;
    rewrite Hloop; cbn; eexists; (split; [reflexivity|]);
    (split; [cbn; eexists; split; reflexivity | reflexivity]).
Qed.
End Parsing.

(** C6, as the code has it. The values are not validated before the
    catalog is called.  For the workloads "web-server" and "data-processing"
    and a machine-type listing as the API gives it: a vCPU value that
    [int()] refuses ends the call with the [ValueError] of [int()] when the
    listing offers a machine of the family of the workload; a memory value
    that [float()] refuses (with a vCPU value that [int()] accepts and, for
    "web-server", that is within the range of a [float]) ends it with the
    [ValueError] of [float()] when a machine of the family passes the test
    on its vCPUs.  In both cases the error is logged and raised again, the
    listing has been requested from the catalog by then, and it is the only
    catalog call of the run. *)
Theorem non_numeric_value_raises_after_listing
    w customer_id workload vcpu memory project response machines l :
  (∀ tr, get_input w tr "What type of workload? (web-server/data-processing)"
         = workload) →
  (∀ tr, get_input w tr "How many vCPUs needed? (enter number)" = vcpu) →
  (∀ tr, get_input w tr "How much memory needed in GB? (enter number)"
         = memory) →
  configs w "GOOGLE_CLOUD_PROJECT" = Some project →
  (∀ tr req, req_collection req = machineTypes →
             compute_execute w tr req = inr response) →
  resp_items response = Some machines →
  Forall api_machine machines →
  Py.lower workload = "web-server" ∨ Py.lower workload = "data-processing" →
  (Py.int_of_str vcpu = None →
   Exists (λ r, in_family workload r = true) machines →
   ∃ m, run (get_product_recommendations w customer_id) l
        = (Raise (Py.int_error vcpu), m) ∧
        failed_after_listing (trace m)) ∧
  (∀ v, Py.int_of_str vcpu = Some v →
        (Py.lower workload = "web-server" → Py.int_fits_float v = true) →
        Py.float_of_str memory = None →
        Exists (λ r, passes_vcpu_test workload v r = true) machines →
        ∃ m, run (get_product_recommendations w customer_id) l
             = (Raise invalid_float, m) ∧
             failed_after_listing (trace m)).
Proof.
  intros Hworkload Hvcpu Hmemory Hproject Hcatalog Hitems Hall Hknown. split.
  - intros Hint Hex.
    apply (run_until_machine_loop workload vcpu memory Hknown w customer_id
             project response machines l (Py.int_error vcpu)); auto.
    intros m. apply (loop_raises (in_family workload)); auto.
    intros r m' Hr. now apply body_raises_invalid_int.
  - intros v Hint Hfits Hfloat Hex.
    apply (run_until_machine_loop workload vcpu memory Hknown w customer_id
             project response machines l invalid_float); auto.
    intros m. apply (loop_raises (passes_vcpu_test workload v)); auto.
    intros r m' Hr. now apply body_raises_invalid_float.
Qed.

Lemma non_numeric_value_raises_after_listing_witness :
  ∃ m, run (get_product_recommendations
              (sizing_world "web-server" "four" "8" "100" compute_optimized)
              "123") []
       = (Raise invalid_int, m) ∧
       failed_after_listing (trace m).
Proof.
  refine (proj1 (non_numeric_value_raises_after_listing
           (sizing_world "web-server" "four" "8" "100" compute_optimized)
           "123" "web-server" "four" "8" "my_project"
           (page compute_optimized None) compute_optimized []
           (λ _, eq_refl) (λ _, eq_refl) (λ _, eq_refl) eq_refl _ eq_refl _
           (or_introl eq_refl)) eq_refl _).
  - intros tr req Hreq. cbn. unfold type_catalog. rewrite Hreq. reflexivity.
  - repeat constructor; cbn; eauto.
  - right. right. left. reflexivity.
Defined.

(** What [int()] and [float()] accept: white space around the literal (not
    the separator 0x1c), single underscores between digits, the decimal
    digits of any script; at most 4300 digits for an [int]; and an [int]
    beyond the range of binary64 does not convert to a [float]. *)
Example numeric_literals :
  Py.int_of_str " 42 " = Some 42 ∧ Py.int_of_str "1_000" = Some 1000 ∧
  Py.int_of_str "٤" = Some 4 ∧ Py.int_of_str (String "028" "4") = None ∧
  Py.int_of_str "four" = None ∧ Py.int_of_str "4.0" = None ∧
  Py.float_of_str "٤" = Some 4%float ∧ Py.float_of_str "1e3" = Some 1000%float ∧
  Py.float_of_str (String "028" "4") = None ∧
  Py.int_fits_float (10 ^ 308) = true ∧ Py.int_fits_float (10 ^ 400) = false.
Proof. vm_compute. repeat split. Qed.

(** C6, as stated, fails: the customer asks for a web server with "four"
    vCPUs and "lots" of storage, and the listing offers no machine of the
    family.  Neither value is a number, yet the call returns a
    recommendation (the standard disk, sized "lots") after two catalog
    calls. *)
Lemma non_numeric_values_are_not_validated :
  let w := sizing_world "web-server" "four" "8" "lots"
                        [machine_type_of "c2-standard-4" 4 16384] in
  let call := run (get_product_recommendations w "123") [] in
  Py.int_of_str "four" = None ∧ Py.int_of_str "lots" = None ∧
  Py.float_of_str "lots" = None ∧
  call.1 = Return [ {| rec_product_id := "pd-standard";
                       rec_name := "Persistent Disk";
                       rec_description := StorageOptimized "web-server";
                       rec_specs := DiskSpecs "Standard" "lots" |} ] ∧
  catalog_calls (trace call.2) =
    [list_request machineTypes "my_project" "us-central1-a";
     list_request diskTypes "my_project" "us-central1-a"].
Proof. vm_compute. auto 6. Qed.

(** ** The claims about [send_meeting_invitation] *)

(** No call of [send_meeting_invitation] returns a status: the function
    calls itself before it reaches its [return]. *)
Lemma send_meeting_invitation_never_returns w depth :
  ∀ sender_email sender_password receiver_email subject message_,
    triple (λ _, True)
           (send_meeting_invitation w depth sender_email sender_password
                                    receiver_email subject message_)
           (λ _ _, False) (λ _, True).
Proof.
  induction depth as [|depth IH]; intros; cbn [send_meeting_invitation].
  - now apply triple_raise.
  - do 9 (eapply triple_bind; [apply triple_any|]; intros ?).
    eapply triple_bind; [apply IH|]. intros ? m [].
Qed.

Lemma deliveries_app tr tr' : deliveries (tr ++ tr') = deliveries tr ++ deliveries tr'.
Proof. apply bind_app. Qed.

Lemma relay_world_recursion depth :
  ∀ sender_email sender_password receiver_email subject message_ (m : machine unit),
    ∃ tr', send_meeting_invitation relay_world depth sender_email sender_password
                                   receiver_email subject message_ m
           = (Raise Py.RecursionError, Machine (trace m ++ tr') tt) ∧
           length (deliveries tr') = depth.
Proof.
  induction depth as [|depth IH]; intros; cbn [send_meeting_invitation].
  - exists []. rewrite app_nil_r. now destruct m as [tr []].
  - unfold getattr_configs, ToolContext_get_input, smtp_do, mbind, M_bind,
      oracle, emit. cbn.
    match goal with
    | |- context [send_meeting_invitation relay_world depth ?a ?b ?c ?d ?e ?m0] =>
        destruct (IH a b c d e m0) as (tr' & -> & Hlen)
    end.
    cbn [trace]. repeat rewrite <- app_assoc. eexists. split; [reflexivity|].
    rewrite !deliveries_app, !length_app, Hlen. reflexivity.
Qed.

(** C4. With a relay that accepts every mail, a call of
    [send_meeting_invitation] under a recursion limit of [depth] frames
    hands [depth] mails to the relay, one for each frame, and ends with
    [RecursionError]: not with one delivery and a status. *)
Theorem invitation_is_sent_once_per_frame depth
    sender_email sender_password receiver_email subject message_ :
  let '(result, m) :=
    run (send_meeting_invitation relay_world depth sender_email sender_password
                                 receiver_email subject message_) tt in
  result = Raise Py.RecursionError ∧ length (deliveries (trace m)) = depth.
Proof.
  unfold run.
  destruct (relay_world_recursion depth sender_email sender_password
              receiver_email subject message_ (Machine [] tt)) as (tr' & -> & Hlen).
  split; [reflexivity|]. exact Hlen.
Qed.

(** ** The settings class of the package *)

(** [tools.py] reads [configs.GOOGLE_CLOUD_PROJECT], [configs.sender_email],
    [configs.sender_password] and [configs.hubspot_api_key]; the settings
    class of [config.py] declares [CLOUD_PROJECT], [SENDER_EMAIL],
    [SENDER_PASSWORD] and [HUBSPOT_API_KEY].  With that class as [configs]
    the attribute lookups fail, and the tools stop there. *)
Example shipped_settings_lack_the_attributes :
  Config "GOOGLE_CLOUD_PROJECT" = None ∧ Config "sender_email" = None ∧
  Config "sender_password" = None ∧ Config "hubspot_api_key" = None.
Proof. repeat split. Qed.

Example shipped_cart_call fuel :
  let '(result, m) := run (retrieve_cart_information shipped_world fuel "123") no_locals in
  result = Raise (Py.AttributeError "GOOGLE_CLOUD_PROJECT") ∧
  catalog_calls (trace m) = [].
Proof. vm_compute. auto. Qed.

Example shipped_recommendation_call :
  let '(result, m) := run (get_product_recommendations shipped_world "123") [] in
  result = Raise (Py.AttributeError "GOOGLE_CLOUD_PROJECT") ∧
  catalog_calls (trace m) = [].
Proof. vm_compute. auto. Qed.

Example shipped_invitation_call depth :
  let '(result, m) :=
    run (send_meeting_invitation shipped_world (S depth) "" "" "" "" "") tt in
  result = Raise (Py.AttributeError "sender_email") ∧ deliveries (trace m) = [].
Proof. vm_compute. auto. Qed.

Example shipped_crm_call :
  let '(result, m) := run (update_hubspot_crm shipped_world "123" appointment) tt in
  result = Raise (Py.AttributeError "hubspot_api_key") ∧ crm_calls (trace m) = [].
Proof. vm_compute. auto. Qed.

(** ** Further properties of the tools *)

(** X1. A run of [retrieve_cart_information] never returns a cart: in every
    world it ends with an exception, logged as an error just before it is
    raised again, or it is still in the first loop when the bound on the
    iterations is used up. *)
Theorem cart_call_raises_or_loops w fuel customer_id l :
  let '(result, m) := run (retrieve_cart_information w fuel customer_id) l in
  match result with
  | Return _ => False
  | Raise _ =>
      last (trace m) = Some (Logged "error" "Failed to access cart information: %s")
  | OutOfFuel => True
  end.
Proof.
  pose proof (retrieve_cart_information_never_returns w fuel customer_id l) as Hnever.
  unfold run, retrieve_cart_information in *.
  unfold mbind at 1 in Hnever. unfold M_bind at 1 in Hnever.
  unfold mbind at 1. unfold M_bind at 1.
  cbn [logger emit] in *. unfold try_except in *. revert Hnever.
  match goal with |- context [match ?body ?m0 with _ => _ end] =>
    destruct (body m0) as [[summary|e|] m1] end.
  - intros H. now apply (H summary).
  - intros _. unfold mbind, M_bind, logger, emit, raise. cbn. apply last_snoc.
  - intros _. exact I.
Qed.

(** X2. [send_security_instructions] returns a status in every world and for
    every table: the status "error" exactly when the table has no 'base'
    entry, the status "success" otherwise, with a message that names the
    compute type as typed and the delivery method as given, whether or not
    the table knows the type or the method is one of 'email' and 'sms'. *)
Theorem security_instructions_status w table customer_id delivery_method :
  let compute_type :=
    get_input w [Logged "info" "Sending security instructions to customer: %s via %s"]
              "What type of compute engine? (n2-standard/c2-standard)" in
  (run (send_security_instructions w table customer_id delivery_method) tt).1
  = Return (match table !! "base" with
            | Some _ =>
                {| status := "success";
                   message := "Security instructions for " +:+ compute_type
                              +:+ " sent via " +:+ delivery_method +:+ "." |}
            | None =>
                {| status := "error";
                   message := "Failed to load security configuration" |}
            end).
Proof.
  unfold run, send_security_instructions, try_except_KeyError, security_message,
    ToolContext_get_input, logger, getitem, mbind, M_bind, oracle, emit.
  cbn. destruct (table !! "base"); reflexivity.
Qed.

(** X3. [send_security_instructions] hands nothing to anyone: the trace of a
    call is the information log and the question about the compute type,
    followed by the error log when the table has no 'base' entry.  No mail
    and no message is sent, by whichever method. *)
Theorem security_instructions_are_not_sent w table customer_id delivery_method :
  let asked := "What type of compute engine? (n2-standard/c2-standard)" in
  let start := [Logged "info" "Sending security instructions to customer: %s via %s"] in
  trace (run (send_security_instructions w table customer_id delivery_method) tt).2
  = start ++ [Asked asked (get_input w start asked)] ++
    match table !! "base" with
    | Some _ => []
    | None => [Logged "error" "Failed to load security instructions: %s"]
    end.
Proof.
  unfold run, send_security_instructions, try_except_KeyError, security_message,
    ToolContext_get_input, logger, getitem, mbind, M_bind, oracle, emit.
  cbn. destruct (table !! "base"); reflexivity.
Qed.

(** X4. Without a 'GOOGLE_CLOUD_PROJECT' attribute in the settings,
    [retrieve_cart_information] ends with [AttributeError] right after the
    question about the zone: the error is logged and raised again, and
    neither the catalog nor the billing service has been called. *)
Theorem cart_needs_the_project_setting w fuel customer_id l :
  configs w "GOOGLE_CLOUD_PROJECT" = None →
  ∃ m, run (retrieve_cart_information w fuel customer_id) l
       = (Raise (Py.AttributeError "GOOGLE_CLOUD_PROJECT"), m) ∧
       catalog_calls (trace m) = [] ∧ billing_calls (trace m) = [] ∧
       last (trace m) = Some (Logged "error" "Failed to access cart information: %s").
Proof.
  intros Hnone.
  unfold run, retrieve_cart_information, try_except, logger,
    ToolContext_get_input, getattr_configs, modify_locals,
    mbind, M_bind, oracle, emit.
  cbn. rewrite Hnone. cbn. eexists. repeat split.
Qed.

Lemma cart_needs_the_project_setting_witness :
  ∃ m, run (retrieve_cart_information shipped_world 3 "123") no_locals
       = (Raise (Py.AttributeError "GOOGLE_CLOUD_PROJECT"), m) ∧
       catalog_calls (trace m) = [] ∧ billing_calls (trace m) = [] ∧
       last (trace m) = Some (Logged "error" "Failed to access cart information: %s").
Proof.
  exact (cart_needs_the_project_setting shipped_world 3 "123" no_locals eq_refl).
Defined.

(** X5. When the listing of the instances fails, [retrieve_cart_information]
    ends with the exception of the catalog, logged as an error and raised
    again: after that one catalog call, with no billing call and an empty
    cart. *)
Theorem cart_catalog_failure_aborts w fuel customer_id l project e :
  configs w "GOOGLE_CLOUD_PROJECT" = Some project →
  (∀ tr req, req_collection req = instances → compute_execute w tr req = inl e) →
  ∃ m zone, run (retrieve_cart_information w (S fuel) customer_id) l = (Raise e, m) ∧
       catalog_calls (trace m) = [list_request instances project zone] ∧
       billing_calls (trace m) = [] ∧ cart_items (locals m) = [] ∧
       last (trace m) = Some (Logged "error" "Failed to access cart information: %s").
Proof.
  intros Hproject Hfail.
  unfold run, retrieve_cart_information, try_except, logger,
    ToolContext_get_input, getattr_configs, modify_locals,
    mbind, M_bind, oracle, emit.
  cbn. rewrite Hproject. cbn.
  unfold mbind, M_bind, get_locals, execute, mbind, M_bind, oracle, emit. cbn.
  rewrite Hfail by reflexivity. cbn. eexists _, _. repeat split.
Qed.

Lemma cart_catalog_failure_aborts_witness :
  ∃ m zone, run (retrieve_cart_information unreachable_world 1 "123") no_locals
            = (Raise (Py.HttpError "503 Service Unavailable"), m) ∧
       catalog_calls (trace m) = [list_request instances "my_project" zone] ∧
       billing_calls (trace m) = [] ∧ cart_items (locals m) = [] ∧
       last (trace m) = Some (Logged "error" "Failed to access cart information: %s").
Proof.
  exact (cart_catalog_failure_aborts unreachable_world 0 "123" no_locals
           "my_project" (Py.HttpError "503 Service Unavailable")
           eq_refl (λ _ _ _, eq_refl)).
Defined.

(** X6. Without a 'GOOGLE_CLOUD_PROJECT' attribute in the settings,
    [get_product_recommendations] asks its first four questions and ends
    with [AttributeError], logged and raised again, before any catalog
    call. *)
Theorem recommendations_need_the_project_setting w customer_id l :
  configs w "GOOGLE_CLOUD_PROJECT" = None →
  ∃ m, run (get_product_recommendations w customer_id) l
       = (Raise (Py.AttributeError "GOOGLE_CLOUD_PROJECT"), m) ∧
       catalog_calls (trace m) = [] ∧
       questions (trace m)
       = ["What type of workload? (web-server/data-processing)";
          "How many vCPUs needed? (enter number)";
          "How much memory needed in GB? (enter number)";
          "Please enter the zone for recommendations"] ∧
       last (trace m) = Some (Logged "error" "Failed to get recommendations: %s").
Proof.
  intros Hnone.
  unfold run, get_product_recommendations, try_except, logger,
    ToolContext_get_input, getattr_configs, mbind, M_bind, oracle, emit.
  cbn. rewrite Hnone. cbn. eexists. repeat split.
Qed.

Lemma recommendations_need_the_project_setting_witness :
  ∃ m, run (get_product_recommendations shipped_world "123") []
       = (Raise (Py.AttributeError "GOOGLE_CLOUD_PROJECT"), m) ∧
       catalog_calls (trace m) = [] ∧
       questions (trace m)
       = ["What type of workload? (web-server/data-processing)";
          "How many vCPUs needed? (enter number)";
          "How much memory needed in GB? (enter number)";
          "Please enter the zone for recommendations"] ∧
       last (trace m) = Some (Logged "error" "Failed to get recommendations: %s").
Proof.
  exact (recommendations_need_the_project_setting shipped_world "123" [] eq_refl).
Defined.

(** The loop over the disk types appends nothing for a workload that is
    neither of the two. *)
Lemma disk_loop_skips workload storage disk_types_ (m : machine (list RecommendationItem)) :
  Py.lower workload ≠ "web-server" → Py.lower workload ≠ "data-processing" →
  Forall (λ r, is_Some (res_name r)) disk_types_ →
  for_each disk_types_ (disk_type_body workload storage) m = (Return tt, m).
Proof.
  intros Hweb Hdata Hnames. apply String.eqb_neq in Hweb, Hdata.
  induction Hnames as [|r disk_types_ [n Hn] _ IH]; [reflexivity|].
  cbn [for_each]. unfold mbind, M_bind, disk_type_body at 1, mbind, M_bind, getitem.
  rewrite Hn. cbn. rewrite Hweb, Hdata, !andb_false_r. cbn. exact IH.
Qed.

(** X7. For a workload that is neither "web-server" nor "data-processing"
    (in any letter case), [get_product_recommendations] returns the empty
    list of recommendations, not an error, whatever the other answers are,
    numbers or not; it still requests both listings from the catalog. *)
Theorem unknown_workload_gets_no_recommendation w customer_id l workload project :
  (∀ tr, get_input w tr "What type of workload? (web-server/data-processing)"
         = workload) →
  Py.lower workload ≠ "web-server" → Py.lower workload ≠ "data-processing" →
  configs w "GOOGLE_CLOUD_PROJECT" = Some project →
  (∀ tr req, ∃ response, compute_execute w tr req = inr response ∧
     Forall (λ r, is_Some (res_name r)) (default [] (resp_items response))) →
  ∃ m, run (get_product_recommendations w customer_id) l = (Return [], m) ∧
       req_collection <$> catalog_calls (trace m) = [machineTypes; diskTypes].
Proof.
  intros Hworkload Hweb Hdata Hproject Hcatalog.
  pose proof Hweb as Hweb'. pose proof Hdata as Hdata'.
  apply String.eqb_neq in Hweb', Hdata'.
  unfold run, get_product_recommendations, try_except, logger,
    ToolContext_get_input, getattr_configs, execute, modify_locals, get_locals,
    mbind, M_bind, oracle, emit.
  cbn. rewrite !Hworkload, Hproject. cbn.
  match goal with |- context [compute_execute w ?tr ?req] =>
    destruct (Hcatalog tr req) as (machine_types & -> & _) end.
  cbn. rewrite Hweb', Hdata'. cbn.
  match goal with |- context [compute_execute w ?tr ?req] =>
    destruct (Hcatalog tr req) as (disk_types_ & -> & Hnames) end.
  cbn. rewrite disk_loop_skips by assumption. cbn.
  eexists. split; reflexivity.
Qed.

Lemma unknown_workload_gets_no_recommendation_witness :
  ∃ m, run (get_product_recommendations
              (static_world tool_configs (needs "batch" "four" "8" "lots") true
                 (λ _, inr (page [disk_type_of "pd-ssd"; disk_type_of "pd-standard"] None))
                 price_list (inr "ok")) "123") []
       = (Return [], m) ∧
       req_collection <$> catalog_calls (trace m) = [machineTypes; diskTypes].
Proof.
  apply (unknown_workload_gets_no_recommendation _ "123" [] "batch" "my_project").
  - reflexivity.
  - vm_compute. congruence.
  - vm_compute. congruence.
  - reflexivity.
  - intros tr req. eexists. split; [reflexivity|]. repeat constructor; cbn; eauto.
Defined.

(** A rule for [get_product_recommendations]: an assertion that the three
    loop bodies keep, for the answers of the conversation, holds of the
    recommendations that a call returns. *)
Lemma recommendations_rule w customer_id workload
    (P : machine (list RecommendationItem) → Prop) :
  (∀ tr, get_input w tr "What type of workload? (web-server/data-processing)"
         = workload) →
  stable P → (∀ tr, P (Machine tr [])) →
  (∀ vcpu memory machine, Py.lower workload = "web-server" →
     triple P (web_server_body vcpu memory machine) (λ _, P) (λ _, True)) →
  (∀ vcpu memory machine, Py.lower workload = "data-processing" →
     triple P (data_processing_body vcpu memory machine) (λ _, P) (λ _, True)) →
  (∀ tr disk,
     triple P (disk_type_body workload
                 (get_input w tr "How much storage needed in GB? (enter number)")
                 disk)
            (λ _, P) (λ _, True)) →
  triple (λ _, True) (get_product_recommendations w customer_id)
         (λ recs m, recs = locals m ∧ P m) (λ _, True).
Proof.
  intros Hworkload HS Hreset Hweb Hdata Hdisk.
  unfold get_product_recommendations.
  eapply triple_bind; [apply triple_any|]. intros [].
  apply triple_try_except.
  2: { intros e. eapply triple_bind; [apply triple_any|]. intros [].
       now apply triple_raise. }
  eapply triple_bind; [now apply (triple_get_input_answer w (λ _, True))|].
  intros workload_type. apply triple_pure. intros [tr ->]. rewrite Hworkload.
  eapply triple_bind; [apply triple_any|]. intros vcpu_count.
  eapply triple_bind; [apply triple_any|]. intros memory_needed.
  eapply triple_bind; [apply triple_any|]. intros zone.
  eapply triple_bind; [apply triple_any|]. intros project.
  eapply triple_bind; [apply triple_any|]. intros machine_types.
  eapply triple_bind with (Q := λ _, P).
  { apply triple_modify_locals. intros m _. apply Hreset. }
  intros []. eapply triple_bind with (Q := λ _, P).
  { destruct (String.eqb (Py.lower workload) "web-server") eqn:Hw.
    - apply String.eqb_eq in Hw. apply triple_for_each. intros machine _.
      now apply Hweb.
    - destruct (String.eqb (Py.lower workload) "data-processing") eqn:Hd.
      + apply String.eqb_eq in Hd. apply triple_for_each. intros machine _.
        now apply Hdata.
      + now apply triple_ret. }
  intros [].
  eapply triple_bind; [apply (triple_getattr_configs w P); auto|].
  intros project'. apply triple_pure. intros _.
  eapply triple_bind; [apply (triple_execute w); auto|].
  intros disk_types.
  eapply triple_bind with
    (Q := λ answer m, (∃ tr, answer = get_input w tr
             "How much storage needed in GB? (enter number)") ∧ P m).
  { eapply triple_conseq;
      [apply (triple_get_input_answer w P (λ _, True)); exact HS
      | now intros m [_ Hm] | auto]. }
  intros storage_needed. apply triple_pure. intros [tr' ->].
  eapply triple_bind with (Q := λ _, P).
  { apply triple_for_each. intros disk _. apply Hdisk. }
  intros []. intros m Hm. cbn. auto.
Qed.

Lemma recommend_keeps (Φ : RecommendationItem → Prop) item
    (m : machine (list RecommendationItem)) :
  Forall Φ (locals m) → Φ item →
  Forall Φ (locals (Machine (trace m) (locals m ++ [item]))).
Proof. intros Hm Hitem. apply Forall_app. split; [exact Hm|]. now constructor. Qed.

Lemma web_server_body_keeps (Φ : RecommendationItem → Prop) vcpu memory machine :
  (∀ machine_name cpus memory_gb,
     Py.contains "n2-standard" machine_name = true →
     Φ {| rec_product_id := machine_name;
          rec_name := machine_name +:+ " Instance";
          rec_description := GeneralPurpose cpus memory_gb;
          rec_specs := MachineSpecs cpus memory_gb |}) →
  triple (λ m, Forall Φ (locals m)) (web_server_body vcpu memory machine)
         (λ _ m, Forall Φ (locals m)) (λ _, True).
Proof.
  intros HΦ m Hm.
  unfold web_server_body, mbind, M_bind, getitem, py_int, py_float,
    py_float_of_int, int_truediv, recommend, modify_locals, mret, M_ret, raise.
  destruct (res_name machine) as [machine_name|]; [|exact I].
  destruct (Py.contains "n2-standard" machine_name) eqn:Hfam; [|exact Hm].
  destruct (res_guestCpus machine) as [guestCpus|]; [|exact I].
  destruct (Py.int_of_str vcpu) as [v|]; [|exact I].
  destruct (Py.int_fits_float v); [|exact I].
  destruct (Py.int_le_float guestCpus _); [|exact Hm].
  destruct (res_memoryMb machine) as [memoryMb|]; [|exact I].
  cbn [Z.eqb].
  destruct (Py.quotient_fits_float memoryMb 1024); [|exact I].
  destruct (Py.float_of_str memory) as [x|]; [|exact I].
  destruct (Py.truediv memoryMb 1024 <=? x * 1.5)%float; [|exact Hm].
  apply recommend_keeps; auto.
Qed.

Lemma data_processing_body_keeps (Φ : RecommendationItem → Prop) vcpu memory machine :
  (∀ machine_name cpus memory_gb,
     Py.contains "c2-standard" machine_name = true →
     Φ {| rec_product_id := machine_name;
          rec_name := machine_name +:+ " Instance";
          rec_description := ComputeOptimized cpus memory_gb;
          rec_specs := MachineSpecs cpus memory_gb |}) →
  triple (λ m, Forall Φ (locals m)) (data_processing_body vcpu memory machine)
         (λ _ m, Forall Φ (locals m)) (λ _, True).
Proof.
  intros HΦ m Hm.
  unfold data_processing_body, mbind, M_bind, getitem, py_int, py_float,
    int_truediv, recommend, modify_locals, mret, M_ret, raise.
  destruct (res_name machine) as [machine_name|]; [|exact I].
  destruct (Py.contains "c2-standard" machine_name) eqn:Hfam; [|exact Hm].
  destruct (res_guestCpus machine) as [guestCpus|]; [|exact I].
  destruct (Py.int_of_str vcpu) as [v|]; [|exact I].
  destruct (v <=? guestCpus); [|exact Hm].
  destruct (res_memoryMb machine) as [memoryMb|]; [|exact I].
  cbn [Z.eqb].
  destruct (Py.quotient_fits_float memoryMb 1024); [|exact I].
  destruct (Py.float_of_str memory) as [x|]; [|exact I].
  destruct (x <=? Py.truediv memoryMb 1024)%float; [|exact Hm].
  apply recommend_keeps; auto.
Qed.

Lemma disk_type_body_keeps (Φ : RecommendationItem → Prop) workload storage disk :
  (∀ disk_name,
     Py.contains "pd-ssd" disk_name && String.eqb (Py.lower workload) "data-processing"
     || Py.contains "pd-standard" disk_name && String.eqb (Py.lower workload) "web-server"
     = true →
     Φ {| rec_product_id := disk_name;
          rec_name := "Persistent Disk";
          rec_description := StorageOptimized workload;
          rec_specs := DiskSpecs (if Py.contains "ssd" disk_name then "SSD"
                                  else "Standard") storage |}) →
  triple (λ m, Forall Φ (locals m)) (disk_type_body workload storage disk)
         (λ _ m, Forall Φ (locals m)) (λ _, True).
Proof.
  intros HΦ m Hm.
  unfold disk_type_body, mbind, M_bind, getitem, recommend, modify_locals,
    mret, M_ret, raise.
  destruct (res_name disk) as [disk_name|]; [|exact I].
  match goal with |- context [if ?b then _ else _] => destruct b eqn:Hsel end;
    [|exact Hm].
  apply recommend_keeps; auto.
Qed.

(** X8. Every machine type that [get_product_recommendations] returns is of
    the family of the workload: its name contains "n2-standard" for
    "web-server" and "c2-standard" for "data-processing"; the item is named
    after the type and described with the specs it carries. *)
Theorem recommended_machines_are_of_the_family w customer_id workload l recs m :
  (∀ tr, get_input w tr "What type of workload? (web-server/data-processing)"
         = workload) →
  run (get_product_recommendations w customer_id) l = (Return recs, m) →
  Forall (machine_recommendation workload) recs.
Proof.
  intros Hworkload Hrun. unfold run in Hrun.
  pose proof (recommendations_rule w customer_id workload
                (λ m, Forall (machine_recommendation workload) (locals m))
                Hworkload) as H.
  specialize (H ltac:(intros ? ? ?; assumption) ltac:(intros; constructor)).
  assert (triple (λ _, True) (get_product_recommendations w customer_id)
            (λ recs m, recs = locals m ∧
                       Forall (machine_recommendation workload) (locals m))
            (λ _, True)) as Htriple.
  { apply H.
    - intros vcpu memory machine Hw. apply web_server_body_keeps.
      intros n c g Hn. unfold machine_recommendation, family. cbn.
      rewrite Hw. cbn. auto.
    - intros vcpu memory machine Hd. apply data_processing_body_keeps.
      intros n c g Hn. unfold machine_recommendation, family. cbn.
      rewrite Hd. cbn. auto.
    - intros tr disk. apply disk_type_body_keeps. intros. exact I. }
  specialize (Htriple (Machine [] l) I). rewrite Hrun in Htriple.
  now destruct Htriple as [-> ?].
Qed.

Lemma recommended_machines_are_of_the_family_witness :
  Forall (machine_recommendation "data-processing")
    (locals (run (get_product_recommendations
                    (sizing_world "data-processing" "4" "16" "100" compute_optimized)
                    "123") []).2).
Proof.
  apply (recommended_machines_are_of_the_family
           (sizing_world "data-processing" "4" "16" "100" compute_optimized)
           "123" "data-processing" [] _
           (run (get_product_recommendations
                   (sizing_world "data-processing" "4" "16" "100" compute_optimized)
                   "123") []).2 (λ _, eq_refl)).
  vm_compute. reflexivity.
Defined.

(** X9. Every disk type that [get_product_recommendations] returns is the
    standard disk for "web-server" and the SSD for "data-processing", and its
    size is the answer about the storage exactly as it was typed: the answer
    is never parsed, so it need not be a number. *)
Theorem recommended_disks_carry_the_storage_answer
    w customer_id workload storage l recs m :
  (∀ tr, get_input w tr "What type of workload? (web-server/data-processing)"
         = workload) →
  (∀ tr, get_input w tr "How much storage needed in GB? (enter number)"
         = storage) →
  run (get_product_recommendations w customer_id) l = (Return recs, m) →
  Forall (disk_recommendation workload storage) recs.
Proof.
  intros Hworkload Hstorage Hrun. unfold run in Hrun.
  pose proof (recommendations_rule w customer_id workload
                (λ m, Forall (disk_recommendation workload storage) (locals m))
                Hworkload) as H.
  specialize (H ltac:(intros ? ? ?; assumption) ltac:(intros; constructor)).
  assert (triple (λ _, True) (get_product_recommendations w customer_id)
            (λ recs m, recs = locals m ∧
                       Forall (disk_recommendation workload storage) (locals m))
            (λ _, True)) as Htriple.
  { apply H.
    - intros vcpu memory machine Hw. apply web_server_body_keeps.
      intros. exact I.
    - intros vcpu memory machine Hd. apply data_processing_body_keeps.
      intros. exact I.
    - intros tr disk. rewrite Hstorage. apply disk_type_body_keeps.
      intros disk_name Hsel. unfold disk_recommendation. cbn.
      repeat split.
      apply orb_true_iff in Hsel as [Hsel|Hsel];
        apply andb_true_iff in Hsel as [Hname Hw]; apply String.eqb_eq in Hw; auto. }
  specialize (Htriple (Machine [] l) I). rewrite Hrun in Htriple.
  now destruct Htriple as [-> ?].
Qed.

Lemma recommended_disks_carry_the_storage_answer_witness :
  Forall (disk_recommendation "web-server" "lots")
    (locals (run (get_product_recommendations
                    (sizing_world "web-server" "2" "8" "lots" compute_optimized)
                    "123") []).2).
Proof.
  apply (recommended_disks_carry_the_storage_answer
           (sizing_world "web-server" "2" "8" "lots" compute_optimized)
           "123" "web-server" "lots" [] _
           (run (get_product_recommendations
                   (sizing_world "web-server" "2" "8" "lots" compute_optimized)
                   "123") []).2 (λ _, eq_refl) (λ _, eq_refl)).
  vm_compute. reflexivity.
Defined.

Lemma appends_nothing (o : outcome unit) (m : machine (list RecommendationItem)) r :
  ∃ o' new, (o, m) = (o', Machine (trace m) (locals m ++ new)) ∧
            sublist (rec_product_id <$> new) (omap res_name [r]).
Proof.
  exists o, []. rewrite app_nil_r. destruct m. split; [reflexivity|].
  apply sublist_nil_l.
Qed.

Lemma appends_one (m : machine (list RecommendationItem)) r item :
  res_name r = Some (rec_product_id item) →
  ∃ o' new, (Return tt, Machine (trace m) (locals m ++ [item]))
            = (o', Machine (trace m) (locals m ++ new)) ∧
            sublist (rec_product_id <$> new) (omap res_name [r]).
Proof.
  intros Hname. exists (Return tt), [item]. split; [reflexivity|].
  cbn. rewrite Hname. reflexivity.
Qed.

Lemma web_server_body_appends vcpu memory :
  appends_named (web_server_body vcpu memory).
Proof.
  intros r m.
  unfold web_server_body, mbind, M_bind, getitem, py_int, py_float,
    py_float_of_int, int_truediv, recommend, modify_locals, mret, M_ret, raise.
  destruct (res_name r) as [machine_name|] eqn:Hn; [|apply appends_nothing].
  destruct (Py.contains "n2-standard" machine_name); [|apply appends_nothing].
  destruct (res_guestCpus r) as [guestCpus|]; [|apply appends_nothing].
  destruct (Py.int_of_str vcpu) as [v|]; [|apply appends_nothing].
  destruct (Py.int_fits_float v); [|apply appends_nothing].
  destruct (Py.int_le_float guestCpus _); [|apply appends_nothing].
  destruct (res_memoryMb r) as [memoryMb|]; [|apply appends_nothing].
  cbn [Z.eqb].
  destruct (Py.quotient_fits_float memoryMb 1024); [|apply appends_nothing].
  destruct (Py.float_of_str memory) as [x|]; [|apply appends_nothing].
  destruct (Py.truediv memoryMb 1024 <=? x * 1.5)%float; [|apply appends_nothing].
  now apply appends_one.
Qed.

Lemma data_processing_body_appends vcpu memory :
  appends_named (data_processing_body vcpu memory).
Proof.
  intros r m.
  unfold data_processing_body, mbind, M_bind, getitem, py_int, py_float,
    int_truediv, recommend, modify_locals, mret, M_ret, raise.
  destruct (res_name r) as [machine_name|] eqn:Hn; [|apply appends_nothing].
  destruct (Py.contains "c2-standard" machine_name); [|apply appends_nothing].
  destruct (res_guestCpus r) as [guestCpus|]; [|apply appends_nothing].
  destruct (Py.int_of_str vcpu) as [v|]; [|apply appends_nothing].
  destruct (v <=? guestCpus); [|apply appends_nothing].
  destruct (res_memoryMb r) as [memoryMb|]; [|apply appends_nothing].
  cbn [Z.eqb].
  destruct (Py.quotient_fits_float memoryMb 1024); [|apply appends_nothing].
  destruct (Py.float_of_str memory) as [x|]; [|apply appends_nothing].
  destruct (x <=? Py.truediv memoryMb 1024)%float; [|apply appends_nothing].
  now apply appends_one.
Qed.

Lemma disk_type_body_appends workload storage :
  appends_named (disk_type_body workload storage).
Proof.
  intros r m.
  unfold disk_type_body, mbind, M_bind, getitem, recommend, modify_locals,
    mret, M_ret, raise.
  destruct (res_name r) as [disk_name|] eqn:Hn; [|apply appends_nothing].
  match goal with |- context [if ?b then _ else _] => destruct b end;
    [|apply appends_nothing].
  now apply appends_one.
Qed.

Lemma for_each_appends body (l : list Resource) :
  appends_named body →
  ∀ m, ∃ o new,
    for_each l body m = (o, Machine (trace m) (locals m ++ new)) ∧
    sublist (rec_product_id <$> new) (omap res_name l).
Proof.
  intros Hbody. induction l as [|r l IH]; intros m.
  - exists (Return tt), []. rewrite app_nil_r. destruct m. split; constructor.
  - cbn [for_each]. unfold mbind, M_bind.
    destruct (Hbody r m) as (o1 & new1 & -> & Hsub1).
    replace (omap res_name (r :: l)) with (omap res_name [r] ++ omap res_name l)
      by (cbn; destruct (res_name r); reflexivity).
    destruct o1 as [[]|e|].
    + destruct (IH (Machine (trace m) (locals m ++ new1))) as (o2 & new2 & -> & Hsub2).
      exists o2, (new1 ++ new2). cbn [trace locals]. rewrite app_assoc.
      split; [reflexivity|]. rewrite fmap_app. now apply sublist_app.
    + exists (Raise e), new1. split; [reflexivity|]. now apply sublist_inserts_r.
    + exists OutOfFuel, new1. split; [reflexivity|]. now apply sublist_inserts_r.
Qed.

(** X10. The recommendations follow the order of the catalog: the names of
    the items that [get_product_recommendations] returns are, in order, a
    part of the names that the catalog listed, the machine types first and
    the disk types after them.  Nothing is reordered and nothing is
    recommended twice or from elsewhere. *)
Theorem recommendations_follow_the_listing w customer_id l recs m :
  run (get_product_recommendations w customer_id) l = (Return recs, m) →
  sublist (rec_product_id <$> recs) (omap res_name (listed (trace m))).
Proof.
  unfold run, get_product_recommendations, try_except, logger,
    ToolContext_get_input, getattr_configs, execute, modify_locals, get_locals,
    mbind, M_bind, oracle, emit.
  cbn. destruct (configs w "GOOGLE_CLOUD_PROJECT") as [project|]; cbn;
    [|discriminate].
  match goal with |- context [compute_execute w ?tr ?req] =>
    destruct (compute_execute w tr req) as [e|machine_types] end; cbn;
    [discriminate|].
  match goal with
  | |- context [(if ?b then ?ws else if ?b' then ?dp else ?none) ?m0] =>
      assert (∃ o new,
                (if b then ws else if b' then dp else none) m0
                = (o, Machine (trace m0) (locals m0 ++ new)) ∧
                sublist (rec_product_id <$> new)
                        (omap res_name (default [] (resp_items machine_types))))
        as (o1 & new1 & -> & Hsub1)
  end.
  { destruct (String.eqb _ "web-server");
      [apply for_each_appends, web_server_body_appends|].
    destruct (String.eqb _ "data-processing");
      [apply for_each_appends, data_processing_body_appends|].
    exists (Return tt), []. split; [reflexivity | apply sublist_nil_l]. }
  destruct o1 as [[]|e|]; cbn; [|discriminate..].
  match goal with |- context [compute_execute w ?tr ?req] =>
    destruct (compute_execute w tr req) as [e|disk_types] end; cbn;
    [discriminate|].
  match goal with |- context [for_each ?items ?body ?m0] =>
    destruct (for_each_appends body items (disk_type_body_appends _ _) m0)
      as (o2 & new2 & -> & Hsub2)
  end.
  destruct o2 as [[]|e|]; cbn; [|discriminate..].
  intros [= <- <-]. cbn. rewrite app_nil_r, fmap_app, omap_app.
  now apply sublist_app.
Qed.

Lemma recommendations_follow_the_listing_witness :
  sublist ["c2-standard-4"; "c2-standard-8"; "pd-ssd"]
          ["c2-standard-4"; "c2-standard-8"; "n2-standard-2"; "pd-ssd"; "pd-standard"].
Proof.
  exact (recommendations_follow_the_listing
           (sizing_world "data-processing" "4" "16" "100" compute_optimized)
           "123" [] _ _ eq_refl).
Defined.

(** The loop that logs the details adds no update of the CRM to the trace,
    whether the tool context accepts the messages or not. *)
Lemma log_details_calls_no_crm w (details : list (string * string)) :
  ∀ m : machine unit, ∃ o tr',
    for_each details
      (λ kv, ToolContext_log_info w ("Updating " +:+ kv.1 +:+ ": " +:+ kv.2)) m
    = (o, Machine (trace m ++ tr') (locals m)) ∧ crm_calls tr' = [].
Proof.
  induction details as [|kv details IH]; intros m.
  - exists (Return tt), []. rewrite app_nil_r. now destruct m.
  - cbn [for_each]. unfold mbind, M_bind at 1.
    unfold ToolContext_log_info at 1. unfold mbind, M_bind, oracle, emit. cbn.
    destruct (log_info w (trace m) _) as [e|]; cbn.
    + exists (Raise e), [ToolLogged ("Updating " +:+ kv.1 +:+ ": " +:+ kv.2)].
      split; reflexivity.
    + destruct (IH (Machine (trace m ++ [ToolLogged ("Updating " +:+ kv.1 +:+ ": " +:+ kv.2)])
                            (locals m))) as (o & tr' & -> & Hcalls).
      exists o, (ToolLogged ("Updating " +:+ kv.1 +:+ ": " +:+ kv.2) :: tr').
      cbn [trace locals]. rewrite <- app_assoc. split; [reflexivity|]. exact Hcalls.
Qed.

Lemma crm_calls_cons ev tr :
  crm_calls (ev :: tr)
  = match ev with CrmUpdate c p => [(c, p)] | _ => [] end ++ crm_calls tr.
Proof. reflexivity. Qed.

(** X11. In every world, a call of [update_hubspot_crm] updates the CRM at
    most once, with the customer and the details it was given, and only
    after the conversation has confirmed: nothing is retried, whatever
    fails. *)
Theorem crm_is_updated_at_most_once w customer_id details :
  let m := (run (update_hubspot_crm w customer_id details) tt).2 in
  (crm_calls (trace m) = [] ∨
   crm_calls (trace m) = [(customer_id, details)] ∧
   Confirmed customer_id true ∈ trace m).
Proof.
  pose proof (log_details_calls_no_crm w details) as Hloop.
  unfold run, update_hubspot_crm.
  set (loop := for_each details _) in *.
  unfold logger, ToolContext_get_confirmation, try_except_ApiException,
    basic_api_update, getattr_configs, ToolContext_log_info, try_except,
    mbind, M_bind, oracle, emit.
  cbn. destruct (get_confirmation w _ customer_id details); cbn; [|now left].
  destruct (configs w "hubspot_api_key") as [token|]; cbn; [|now left].
  destruct (hubspot_update w _ token customer_id details) as [e|response]; cbn.
  { right. destruct (Py.is_ApiException e); cbn; split; try reflexivity;
      repeat constructor. }
  destruct (log_info w _ _) as [e|]; cbn.
  { right. destruct (Py.is_ApiException e); cbn; split; try reflexivity;
      repeat constructor. }
  match goal with
  | |- context [loop ?m0] => destruct (Hloop m0) as (o & tr' & -> & Hcalls)
  end.
  right. destruct o as [[]|e|]; cbn -[crm_calls].
  all: split; [|repeat constructor].
  all: repeat (rewrite crm_calls_cons || rewrite crm_calls_app);
    rewrite Hcalls; reflexivity.
Qed.

(** X12. In a confirmed call without a 'hubspot_api_key' attribute in the
    settings, [update_hubspot_crm] ends with [AttributeError] before the CRM
    is called; as the handler of that block catches [ApiException] only, the
    error is not even logged. *)
Theorem crm_update_needs_the_token w customer_id details :
  (∀ tr, get_confirmation w tr customer_id details = true) →
  configs w "hubspot_api_key" = None →
  run (update_hubspot_crm w customer_id details) tt
  = (Raise (Py.AttributeError "hubspot_api_key"),
     Machine [Logged "info" "Updating HubSpot CRM for customer ID %s with details: %s";
              Confirmed customer_id true] tt).
Proof.
  intros Hyes Hnone.
  unfold run, update_hubspot_crm, logger, ToolContext_get_confirmation,
    try_except_ApiException, basic_api_update, getattr_configs,
    mbind, M_bind, oracle, emit.
  cbn. rewrite Hyes. cbn. rewrite Hnone. reflexivity.
Qed.

Lemma crm_update_needs_the_token_witness :
  run (update_hubspot_crm shipped_world "123" appointment) tt
  = (Raise (Py.AttributeError "hubspot_api_key"),
     Machine [Logged "info" "Updating HubSpot CRM for customer ID %s with details: %s";
              Confirmed "123" true] tt).
Proof.
  exact (crm_update_needs_the_token shipped_world "123" appointment
           (λ _, eq_refl) eq_refl).
Defined.

(** X13. The status "error" of [update_hubspot_crm] reports a failure of the
    logging, not of the CRM: when the update has succeeded and the tool
    context then refuses the message about the first detail, the call
    returns the status "error" with the text of that exception, although the
    CRM has been updated. *)
Theorem error_status_comes_after_the_update
    w customer_id key value details token response e :
  (∀ tr, get_confirmation w tr customer_id ((key, value) :: details) = true) →
  configs w "hubspot_api_key" = Some token →
  (∀ tr, hubspot_update w tr token customer_id ((key, value) :: details)
         = inr response) →
  (∀ tr, log_info w tr ("HubSpot API response: " +:+ response) = None) →
  (∀ tr, log_info w tr ("Updating " +:+ key +:+ ": " +:+ value) = Some e) →
  ∃ m, run (update_hubspot_crm w customer_id ((key, value) :: details)) tt
       = (Return {| status := "error";
                    message := "Failed to update HubSpot: " +:+ Py.str_exn e |}, m) ∧
       crm_calls (trace m) = [(customer_id, (key, value) :: details)].
Proof.
  intros Hyes Htoken Hok Hlog1 Hlog2.
  unfold run, update_hubspot_crm. cbn [for_each].
  unfold logger, ToolContext_get_confirmation, try_except_ApiException,
    basic_api_update, getattr_configs, ToolContext_log_info, try_except,
    mbind, M_bind, oracle, emit.
  cbn. rewrite Hyes. cbn. rewrite Htoken. cbn. rewrite Hok. cbn.
  rewrite Hlog1. cbn. rewrite Hlog2. cbn.
  eexists. split; reflexivity.
Qed.

Lemma error_status_comes_after_the_update_witness :
  ∃ m, run (update_hubspot_crm log_failure_world "123" appointment) tt
       = (Return {| status := "error";
                    message := "Failed to update HubSpot: context closed" |}, m) ∧
       crm_calls (trace m) = [("123", appointment)].
Proof.
  exact (error_status_comes_after_the_update log_failure_world "123"
           "appointment_date" "2024-07-25" [("appointment_time", "9-12")]
           "pat-token" "ok" (Py.OtherError "context closed")
           (λ _, eq_refl) eq_refl (λ _, eq_refl) (λ _, eq_refl) (λ _, eq_refl)).
Defined.

(** What a call of [send_meeting_invitation] adds to the trace, and that it
    does not return. *)
Lemma invitation_trace w depth :
  ∀ sender_email sender_password receiver_email subject message_ (m : machine unit),
    ∃ o tr',
      send_meeting_invitation w depth sender_email sender_password
                              receiver_email subject message_ m
      = (o, Machine (trace m ++ tr') (locals m)) ∧
      (∀ result, o ≠ Return result) ∧ Forall (invitation_event w) tr'.
Proof.
  induction depth as [|depth IH]; intros; cbn [send_meeting_invitation].
  - exists (Raise Py.RecursionError), []. rewrite app_nil_r. destruct m.
    repeat split; [discriminate | constructor].
  - unfold getattr_configs, ToolContext_get_input, smtp_do, logger,
      mbind, M_bind, oracle, emit.
    destruct (configs w "sender_email") as [sender|] eqn:Hsender; cbn.
    2: { eexists _, []. rewrite app_nil_r. destruct m.
         repeat split; [discriminate | constructor]. }
    destruct (configs w "sender_password") as [password|]; cbn.
    2: { eexists _, []. rewrite app_nil_r. destruct m.
         repeat split; [discriminate | constructor]. }
    repeat match goal with
    | |- context [match smtp w ?tr ?op with _ => _ end] =>
        destruct (smtp w tr op); cbn;
        [ eexists _, _; rewrite <- ?app_assoc;
          split; [reflexivity|]; split; [discriminate|];
          repeat constructor; cbn; eauto 8 | ]
    end.
    match goal with
    | |- context [send_meeting_invitation w depth ?a ?b ?c ?d ?e ?m0] =>
        destruct (IH a b c d e m0) as (o & tr' & -> & Hnever & Hevents)
    end.
    cbn [trace locals]. rewrite <- !app_assoc.
    destruct o as [result|e|]; [now destruct (Hnever result)| |].
    all: eexists _, _; split; [reflexivity|]; split; [discriminate|].
    all: repeat (apply Forall_app; split); try exact Hevents.
    all: repeat constructor; cbn; eauto 8.
Qed.

(** X14. A call of [send_meeting_invitation] never returns a status, in any
    world and under any recursion limit, and it never reaches its
    [logger.info] line: the function calls itself before both, so the trace
    of a call holds no log entry. *)
Theorem invitation_call_never_reports
    w depth sender_email sender_password receiver_email subject message_ :
  let '(result, m) :=
    run (send_meeting_invitation w depth sender_email sender_password
                                 receiver_email subject message_) tt in
  (∀ status_, result ≠ Return status_) ∧
  Forall (λ ev, match ev with Logged _ _ => False | _ => True end) (trace m).
Proof.
  unfold run.
  destruct (invitation_trace w depth sender_email sender_password receiver_email
              subject message_ (Machine [] tt)) as (o & tr' & -> & Hnever & Hevents).
  split; [exact Hnever|]. cbn [trace app].
  eapply Forall_impl; [exact Hevents|]. intros [] Hev; cbn in *; auto.
Qed.

Lemma deliveries_of_invitation_events w tr :
  Forall (invitation_event w) tr →
  Forall (λ op, invitation_event w (Mail op)) (deliveries tr).
Proof.
  induction 1 as [|ev tr Hev _ IH]; [constructor|].
  change (ev :: tr) with ([ev] ++ tr). rewrite deliveries_app.
  apply Forall_app. split; [|exact IH].
  destruct ev as [| | | | | | |[]]; cbn; try apply Forall_nil_2.
  constructor; [exact Hev | constructor].
Qed.

(** X15. Every mail that a call of [send_meeting_invitation] hands to the
    relay goes from the sender of the settings to an address that the
    conversation gave when asked for the receiver, with the subject
    "Meeting Invitation!" and the fixed text followed by a meeting link made
    of the first 8 characters of a fresh identifier.  The five arguments of
    the call, the receiver among them, play no part. *)
Theorem invitations_ignore_the_arguments
    w depth sender_email sender_password receiver_email subject message_ :
  let m := (run (send_meeting_invitation w depth sender_email sender_password
                                         receiver_email subject message_) tt).2 in
  ∀ from_addr to_addr subject' body,
    smtp_sendmail from_addr to_addr subject' body ∈ deliveries (trace m) →
    configs w "sender_email" = Some from_addr ∧
    (∃ tr, to_addr = get_input w tr "Please enter the receiver's email address") ∧
    subject' = "Meeting Invitation!" ∧
    (∃ tr, body = invitation_text +:+ Py.take_prefix 8 (uuid4 w tr)).
Proof.
  unfold run.
  destruct (invitation_trace w depth sender_email sender_password receiver_email
              subject message_ (Machine [] tt)) as (o & tr' & -> & _ & Hevents).
  cbn [snd trace app]. intros from_addr to_addr subject' body Hin.
  apply deliveries_of_invitation_events in Hevents.
  rewrite Forall_forall in Hevents. exact (Hevents _ Hin).
Qed.

Lemma invitations_ignore_the_arguments_witness :
  configs relay_world "sender_email" = Some "agent@example.com" ∧
  (∃ tr, "customer@example.com"
         = get_input relay_world tr "Please enter the receiver's email address") ∧
  "Meeting Invitation!" = "Meeting Invitation!" ∧
  (∃ tr, invitation_text +:+ "3f2b8c1e"
         = invitation_text +:+ Py.take_prefix 8 (uuid4 relay_world tr)).
Proof.
  apply (invitations_ignore_the_arguments relay_world 2
           "someone@else.org" "pw" "boss@else.org" "Hi" "Let us meet").
  vm_compute. left.
Defined.

(** X16. When the relay refuses the login, [send_meeting_invitation] ends
    with the exception of the relay in its first frame: the receiver has
    been asked for, the session has been opened and secured, but no mail has
    been handed over, and the session is not closed. *)
Theorem refused_login_sends_nothing
    w depth sender_email sender_password receiver_email subject message_
    sender password e :
  configs w "sender_email" = Some sender →
  configs w "sender_password" = Some password →
  (∀ tr, smtp w tr (smtp_connect "smtp.gmail.com" 587) = None) →
  (∀ tr, smtp w tr smtp_starttls = None) →
  (∀ tr, smtp w tr (smtp_login sender password) = Some e) →
  let asked := "Please enter the receiver's email address" in
  run (send_meeting_invitation w (S depth) sender_email sender_password
                               receiver_email subject message_) tt
  = (Raise e,
     Machine [Asked asked (get_input w [] asked);
              Mail (smtp_connect "smtp.gmail.com" 587);
              Mail smtp_starttls;
              Mail (smtp_login sender password)] tt).
Proof.
  intros Hsender Hpassword Hconnect Htls Hlogin.
  unfold run. cbn [send_meeting_invitation].
  unfold getattr_configs, ToolContext_get_input, smtp_do, logger,
    mbind, M_bind, oracle, emit.
  rewrite Hsender, Hpassword. cbn. rewrite Hconnect. cbn. rewrite Htls. cbn.
  rewrite Hlogin. reflexivity.
Qed.

Lemma refused_login_sends_nothing_witness :
  run (send_meeting_invitation auth_failure_world 1000 "a" "b" "c" "d" "e") tt
  = (Raise (Py.SMTPException "535 Authentication failed"),
     Machine [Asked "Please enter the receiver's email address" "customer@example.com";
              Mail (smtp_connect "smtp.gmail.com" 587);
              Mail smtp_starttls;
              Mail (smtp_login "agent@example.com" "app-password")] tt).
Proof.
  exact (refused_login_sends_nothing auth_failure_world 999 "a" "b" "c" "d" "e"
           "agent@example.com" "app-password"
           (Py.SMTPException "535 Authentication failed")
           eq_refl eq_refl (λ _, eq_refl) (λ _, eq_refl) (λ _, eq_refl)).
Defined.

(** Running a bind whose first computation returns. *)
Lemma bind_return {L A B} (c : M L A) (f : A → M L B) m a m' :
  c m = (Return a, m') → (c ≫= f) m = f a m'.
Proof. intros H. unfold mbind, M_bind. now rewrite H. Qed.

Lemma catalog_calls_app tr tr' :
  catalog_calls (tr ++ tr') = catalog_calls tr ++ catalog_calls tr'.
Proof. apply bind_app. Qed.

Lemma billing_calls_app tr tr' :
  billing_calls (tr ++ tr') = billing_calls tr ++ billing_calls tr'.
Proof. apply bind_app. Qed.

Section Stranger.
Context (w : World) (customer_id : string).

(** The loop body on a resource of another customer: only [request]
    changes. *)
Lemma instance_body_passes response r (m : machine CartLocals) :
  customer_label r ≠ Some customer_id →
  is_Some (request (locals m)) ∨ last_page response →
  ∃ next, instance_body w customer_id response r m
          = (Return tt, Machine (trace m) (set_request next (locals m))) ∧
          (is_Some next ∨ last_page response).
Proof.
  intros Hlabel Hreq. unfold instance_body.
  rewrite bool_decide_false by exact Hlabel.
  unfold mbind, M_bind, get_locals, list_next, modify_locals. cbn.
  destruct (resp_nextPageToken response) as [token|] eqn:Htoken; cbn.
  - destruct (String.eqb token "") eqn:Hempty; cbn.
    + apply String.eqb_eq in Hempty. subst token. eexists. split; [reflexivity|].
      right. now right.
    + destruct Hreq as [[req Hreq]|[Hnone|Hnone]].
      * rewrite Hreq. cbn. eexists. split; [reflexivity|]. left. eauto.
      * congruence.
      * rewrite Htoken in Hnone. injection Hnone as ->. discriminate Hempty.
  - eexists. split; [reflexivity|]. right. now left.
Qed.

Lemma instance_loop_passes response (page_ : list Resource) :
  Forall (λ r, customer_label r ≠ Some customer_id) page_ →
  ∀ m : machine CartLocals,
    is_Some (request (locals m)) ∨ last_page response →
    ∃ next, for_each page_ (instance_body w customer_id response) m
            = (Return tt, Machine (trace m) (set_request next (locals m))).
Proof.
  induction 1 as [|r page_ Hr _ IH]; intros m Hreq.
  - exists (request (locals m)). destruct m as [tr []]. reflexivity.
  - cbn [for_each].
    destruct (instance_body_passes response r m Hr Hreq) as (next & Hbody & Hnext).
    rewrite (bind_return _ _ _ _ _ Hbody).
    destruct (IH (Machine (trace m) (set_request next (locals m))) Hnext)
      as (next' & ->).
    exists next'. reflexivity.
Qed.

Context (project zone : string).
Context (Hproject : configs w "GOOGLE_CLOUD_PROJECT" = Some project).
Context (Hcatalog : ∀ tr req, ∃ response,
           compute_execute w tr req = inr response ∧
           Forall (λ r, customer_label r ≠ Some customer_id)
                  (default [] (resp_items response))).

Lemma instances_while_loops fuel :
  ∀ (m : machine CartLocals) req,
    request (locals m) = Some req →
    ∃ m', instances_while w fuel customer_id zone m = (OutOfFuel, m') ∧
          catalog_calls (trace m')
          = catalog_calls (trace m) ++ loop_requests fuel req project zone ∧
          billing_calls (trace m') = billing_calls (trace m) ∧
          cart_items (locals m') = cart_items (locals m).
Proof.
  induction fuel as [|fuel IH]; intros m req Hreq.
  - exists m. cbn. unfold mbind, M_bind, get_locals. rewrite Hreq. cbn.
    rewrite app_nil_r. auto.
  - cbn [instances_while]. unfold mbind at 1, M_bind at 1, get_locals.
    rewrite Hreq.
    destruct (Hcatalog (trace m) req) as (response & Hexec & Hpage).
    assert (execute w req m
            = (Return response,
               Machine (trace m ++ [CatalogCall req (inr response)]) (locals m)))
      as Hexecute.
    { unfold execute, mbind, M_bind, oracle, emit. cbn. now rewrite Hexec. }
    rewrite (bind_return _ _ _ _ _ Hexecute).
    destruct (instance_loop_passes response _ Hpage
                (Machine (trace m ++ [CatalogCall req (inr response)]) (locals m)))
      as (next & Hloop).
    { left. cbn. rewrite Hreq. eauto. }
    rewrite (bind_return _ _ _ _ _ Hloop).
    unfold getattr_configs. rewrite Hproject.
    unfold mbind at 1, M_bind at 1. cbn [mret M_ret].
    unfold mbind at 1, M_bind at 1, modify_locals. cbn [trace locals].
    destruct (IH (Machine (trace m ++ [CatalogCall req (inr response)])
                    (set_request (Some (list_request disks project zone))
                       (set_request next (locals m))))
                 (list_request disks project zone) eq_refl)
      as (m' & -> & Hcalls & Hbilling & Hcart).
    exists m'. split; [reflexivity|]. cbn [trace locals] in *.
    rewrite Hcalls, Hbilling, Hcart, catalog_calls_app, billing_calls_app.
    cbn. rewrite app_nil_r, <- app_assoc. cbn.
    repeat split. f_equal. f_equal. now destruct fuel.
Qed.
End Stranger.

(** X17. For a customer without labelled resources the call does not end
    with an empty cart: it does not end.  When the catalog answers every
    request and lists no resource of the customer, the run is still in the
    first loop after any number of iterations, having requested the
    instance listing once and then the first page of the disk listing in
    every further iteration; the billing service is never called. *)
Theorem cart_of_a_stranger_never_ends w customer_id project l :
  configs w "GOOGLE_CLOUD_PROJECT" = Some project →
  (∀ tr req, ∃ response,
     compute_execute w tr req = inr response ∧
     Forall (λ r, customer_label r ≠ Some customer_id)
            (default [] (resp_items response))) →
  ∀ fuel, ∃ m zone,
    run (retrieve_cart_information w fuel customer_id) l = (OutOfFuel, m) ∧
    catalog_calls (trace m)
    = loop_requests fuel (list_request instances project zone) project zone ∧
    billing_calls (trace m) = [] ∧ cart_items (locals m) = [].
Proof.
  intros Hproject Hcatalog fuel.
  unfold run, retrieve_cart_information, try_except, logger,
    ToolContext_get_input, getattr_configs, modify_locals,
    mbind, M_bind, oracle, emit.
  cbn -[instances_while disks_while]. rewrite Hproject.
  cbn -[instances_while disks_while].
  match goal with
  | |- context [instances_while w fuel customer_id ?zone ?m0] =>
      destruct (instances_while_loops w customer_id project zone Hproject
                  Hcatalog fuel m0 _ eq_refl)
        as (m' & -> & Hcalls & Hbilling & Hcart);
      exists m', zone
  end.
  split; [reflexivity|]. rewrite Hcalls, Hbilling, Hcart. repeat split.
Qed.

Lemma cart_of_a_stranger_never_ends_witness :
  ∃ m zone,
    run (retrieve_cart_information stranger_world 4 "123") no_locals = (OutOfFuel, m) ∧
    catalog_calls (trace m)
    = loop_requests 4 (list_request instances "my_project" zone) "my_project" zone ∧
    billing_calls (trace m) = [] ∧ cart_items (locals m) = [].
Proof.
  apply (cart_of_a_stranger_never_ends stranger_world "123" "my_project" no_locals
           eq_refl).
  intros tr [[] ? ? ?]; eexists; (split; [reflexivity|]);
    repeat constructor; vm_compute; congruence.
Defined.

(** ** The billing lookups of [retrieve_cart_information] *)

Lemma billed_event ev (m : machine CartLocals) :
  is_mutation ev = false → billing_calls [ev] = [] →
  billed m → billed (Machine (trace m ++ [ev]) (locals m)).
Proof.
  intros Hev Hnone [Hro Hcalls]. split; cbn.
  - apply Forall_app. split; [exact Hro|]. now constructor.
  - rewrite billing_calls_app, Hnone, app_nil_r. exact Hcalls.
Qed.

Lemma billed_set_request next (m : machine CartLocals) :
  billed m → billed (Machine (trace m) (set_request next (locals m))).
Proof. intros [Hro Hcalls]. split; assumption. Qed.

Lemma billed_stops (m : machine CartLocals) : billed m → billed_or_billing m.
Proof. now left. Qed.

Lemma billing_stops filter (m : machine CartLocals) :
  billing filter m → billed_or_billing m.
Proof. right. eauto. Qed.

Section Billing.
Context (w : World) (customer_id : string).

Lemma execute_billed req :
  triple billed (execute w req) (λ _, billed) billed_or_billing.
Proof.
  intros m Hm. unfold execute, mbind, M_bind, oracle, emit. cbn.
  destruct (compute_execute w (trace m) req); cbn;
    [apply billed_stops|]; now apply billed_event.
Qed.

Lemma skus_list_execute_billing filter :
  triple billed (skus_list_execute w filter) (λ _, billing filter)
         billed_or_billing.
Proof.
  intros m [Hro Hcalls].
  assert (billing filter (Machine (trace m ++ [BillingCall filter]) (locals m))) as H.
  { split; cbn.
    - apply Forall_app. split; [exact Hro|]. now constructor.
    - rewrite billing_calls_app, Hcalls. reflexivity. }
  unfold skus_list_execute, mbind, M_bind, oracle, emit. cbn.
  destruct (billing_execute w (trace m) filter); cbn;
    [now apply (billing_stops filter) | exact H].
Qed.

Lemma first_unit_price_nanos_billing filter price_request :
  triple (billing filter) (first_unit_price_nanos price_request)
         (λ _, billing filter) billed_or_billing.
Proof.
  pose proof (billing_stops filter) as HI. unfold first_unit_price_nanos.
  apply triple_getitem_bind; [exact HI|]. intros skus_ _.
  apply triple_first_bind; [exact HI|]. intros sku.
  apply triple_first_bind; [exact HI|]. intros info.
  apply triple_first_bind; [exact HI|]. intros rate.
  apply triple_ret. auto.
Qed.

Lemma line_is_billed item :
  triple (billing (price_filter item))
         (modify_locals (append_item item) ;;
          modify_locals (add_subtotal (monthly_cost item)))
         (λ _, billed) billed_or_billing.
Proof.
  intros m [Hro Hcalls]. unfold mbind, M_bind, modify_locals. cbn.
  split; [exact Hro|]. cbn. rewrite fmap_app. exact Hcalls.
Qed.

Lemma instance_body_billed response instance :
  triple billed (instance_body w customer_id response instance)
         (λ _, billed) billed_or_billing.
Proof.
  unfold instance_body.
  eapply triple_bind with (Q := λ _, billed).
  - case_bool_decide; [|now apply triple_ret].
    apply triple_getitem_bind; [exact billed_stops|]. intros full_type _.
    eapply triple_bind; [apply skus_list_execute_billing|]. intros price_request.
    eapply triple_bind; [apply first_unit_price_nanos_billing|]. intros nanos.
    cbn beta.
    apply triple_py_float_of_int_bind; [apply billing_stops|].
    apply triple_getitem_bind; [apply billing_stops|]. intros instance_name _.
    match goal with
    | |- triple _ (modify_locals (append_item ?item) ;; _) _ _ =>
        apply (line_is_billed item)
    end.
  - intros []. eapply triple_bind; [apply triple_get_locals|]. intros l.
    eapply triple_bind with (Q := λ _, billed).
    + eapply triple_conseq;
        [apply triple_list_next; exact billed_stops | now intros m [_ Hm]
        | intros a m Hm; exact Hm].
    + intros next. apply triple_modify_locals. intros m Hm.
      now apply billed_set_request.
Qed.

Lemma disk_body_billed disk :
  triple billed (disk_body w customer_id disk) (λ _, billed) billed_or_billing.
Proof.
  unfold disk_body.
  case_bool_decide; [|now apply triple_ret].
  apply triple_getitem_bind; [exact billed_stops|]. intros full_type _.
  apply triple_getitem_bind; [exact billed_stops|]. intros size_str _.
  apply triple_py_int_bind; [exact billed_stops|]. intros size_gb _.
  eapply triple_bind; [apply skus_list_execute_billing|]. intros price_request.
  eapply triple_bind; [apply first_unit_price_nanos_billing|]. intros nanos.
  cbn beta.
  apply triple_py_float_of_int_bind; [apply billing_stops|].
  apply triple_py_float_of_int_bind; [apply billing_stops|].
  match goal with
  | |- triple _ (modify_locals (append_item ?item) ;; _) _ _ =>
      apply (line_is_billed item)
  end.
Qed.

Lemma instances_while_billed fuel zone :
  triple billed (instances_while w fuel customer_id zone) (λ _, billed)
         billed_or_billing.
Proof.
  induction fuel as [|fuel IH]; cbn [instances_while].
  - eapply triple_bind; [apply triple_get_locals|]. intros l.
    destruct (request l); [apply triple_out_of_fuel | apply triple_ret];
      intros m [_ Hm]; auto using billed_stops.
  - eapply triple_bind; [apply triple_get_locals|]. intros l.
    destruct (request l) as [req|]; [|apply triple_ret; now intros m [_ Hm]].
    eapply triple_bind with (Q := λ _, billed).
    { eapply triple_conseq;
        [apply execute_billed | now intros m [_ Hm] | intros a m Hm; exact Hm]. }
    intros response. cbn beta.
    eapply triple_bind with (Q := λ _, billed).
    { apply triple_for_each. intros r _. apply instance_body_billed. }
    intros [].
    eapply triple_bind; [apply (triple_getattr_configs w); exact billed_stops|].
    intros project. eapply triple_bind with (Q := λ _, billed).
    + apply triple_modify_locals. intros m [_ Hm]. now apply billed_set_request.
    + intros []. exact IH.
Qed.

Lemma disks_while_billed fuel :
  triple billed (disks_while w fuel customer_id) (λ _, billed) billed_or_billing.
Proof.
  induction fuel as [|fuel IH]; cbn [disks_while].
  - eapply triple_bind; [apply triple_get_locals|]. intros l.
    destruct (request l); [apply triple_out_of_fuel | apply triple_ret];
      intros m [_ Hm]; auto using billed_stops.
  - eapply triple_bind; [apply triple_get_locals|]. intros l.
    destruct (request l) as [req|]; [|apply triple_ret; now intros m [_ Hm]].
    eapply triple_bind with (Q := λ _, billed).
    { eapply triple_conseq;
        [apply execute_billed | now intros m [_ Hm] | intros a m Hm; exact Hm]. }
    intros response. cbn beta.
    eapply triple_bind with (Q := λ _, billed).
    { apply triple_for_each. intros r _. apply disk_body_billed. }
    intros []. eapply triple_bind; [apply triple_get_locals|]. intros l'.
    eapply triple_bind with (Q := λ _, billed).
    { eapply triple_conseq;
        [apply triple_list_next; exact billed_stops | now intros m [_ Hm]
        | intros a m Hm; exact Hm]. }
    intros next. eapply triple_bind with (Q := λ _, billed).
    + apply triple_modify_locals. intros m Hm. now apply billed_set_request.
    + intros []. exact IH.
Qed.

Lemma retrieve_cart_information_billed fuel :
  triple (λ m, trace m = []) (retrieve_cart_information w fuel customer_id)
         (λ _, billed) billed_or_billing.
Proof.
  unfold retrieve_cart_information.
  eapply triple_bind with (Q := λ _ m, read_only (trace m) ∧ billing_calls (trace m) = []).
  { apply triple_emit. intros m ->. split; [repeat constructor | reflexivity]. }
  intros []. apply triple_try_except.
  - eapply triple_bind with (Q := λ _, billed).
    { apply triple_modify_locals. intros m [Hro Hcalls]. split; assumption. }
    intros []. eapply triple_bind with (Q := λ _, billed).
    { intros m Hm. cbn. now apply billed_event. }
    intros zone.
    eapply triple_bind; [apply (triple_getattr_configs w); exact billed_stops|].
    intros project. eapply triple_bind with (Q := λ _, billed).
    { apply triple_modify_locals. intros m [_ Hm]. now apply billed_set_request. }
    intros []. eapply triple_bind; [apply instances_while_billed|].
    intros []. eapply triple_bind; [apply disks_while_billed|].
    intros []. eapply triple_bind; [apply triple_get_locals|].
    intros l. apply triple_ret. now intros m [_ Hm].
  - intros e. eapply triple_bind with (Q := λ _, billed_or_billing).
    + apply triple_emit. intros m [Hm|[filter [Hro Hcalls]]].
      * left. now apply billed_event.
      * right. exists filter. split; cbn.
        -- apply Forall_app. split; [exact Hro|]. now constructor.
        -- now rewrite billing_calls_app, app_nil_r.
    + intros []. now apply triple_raise.
Qed.
End Billing.

(** X18. [retrieve_cart_information] asks the billing service once for every
    line of the cart, in the order of the lines and with the filter
    'resource.name = <product_id>': wherever a run stops, the billing calls
    made so far are exactly the filters of the lines accumulated so far,
    followed by at most one lookup whose line was not completed.  A price is
    never reused for a second resource of the same type. *)
Theorem one_billing_lookup_per_line w fuel customer_id l :
  let m := (run (retrieve_cart_information w fuel customer_id) l).2 in
  billing_calls (trace m) = price_filter <$> cart_items (locals m) ∨
  ∃ filter,
    billing_calls (trace m) = (price_filter <$> cart_items (locals m)) ++ [filter].
Proof.
  pose proof (retrieve_cart_information_billed w customer_id fuel
                (Machine [] l) eq_refl) as H.
  unfold run. cbn zeta.
  destruct (retrieve_cart_information w fuel customer_id (Machine [] l))
    as [[summary|e|] m]; cbn [snd].
  - left. apply H.
  - destruct H as [[_ H]|[filter [_ H]]]; eauto.
  - destruct H as [[_ H]|[filter [_ H]]]; eauto.
Qed.

Lemma read_only_changes_nothing tr :
  read_only tr → crm_calls tr = [] ∧ deliveries tr = [].
Proof.
  induction 1 as [|ev tr Hev _ [IHcrm IHmail]]; [split; reflexivity|].
  change (ev :: tr) with ([ev] ++ tr).
  rewrite crm_calls_app, deliveries_app, IHcrm, IHmail, !app_nil_r.
  destruct ev as [| | | | | | |[]]; cbn in *; split; reflexivity || discriminate.
Qed.

(** X19. [retrieve_cart_information] only reads: in every world and
    wherever a run stops, its trace holds no update of the CRM and no mail
    handed to the relay. *)
Theorem cart_call_changes_nothing w fuel customer_id l :
  let m := (run (retrieve_cart_information w fuel customer_id) l).2 in
  crm_calls (trace m) = [] ∧ deliveries (trace m) = [].
Proof.
  pose proof (retrieve_cart_information_billed w customer_id fuel
                (Machine [] l) eq_refl) as H.
  unfold run. cbn zeta. apply read_only_changes_nothing.
  destruct (retrieve_cart_information w fuel customer_id (Machine [] l))
    as [[summary|e|] m]; cbn [snd].
  - apply H.
  - destruct H as [[H _]|[filter [H _]]]; exact H.
  - destruct H as [[H _]|[filter [H _]]]; exact H.
Qed.

(** X20. [get_product_recommendations] reads the first page of the
    machine-type listing and the first page of the disk-type listing, and
    nothing else: in every world and wherever a run stops, it has made at
    most these two catalog requests, none with a page token (a continuation
    of a listing is never followed), and no call to the billing service, to
    the CRM or to the mail relay. *)
Theorem recommendations_read_first_pages w customer_id l :
  let m := (run (get_product_recommendations w customer_id) l).2 in
  Forall (λ req, req_pageToken req = None) (catalog_calls (trace m)) ∧
  sublist (req_collection <$> catalog_calls (trace m)) [machineTypes; diskTypes] ∧
  billing_calls (trace m) = [] ∧ crm_calls (trace m) = [] ∧
  deliveries (trace m) = [].
Proof.
  unfold run, get_product_recommendations, try_except, logger,
    ToolContext_get_input, getattr_configs, execute, modify_locals, get_locals,
    mbind, M_bind, oracle, emit.
  cbn. destruct (configs w "GOOGLE_CLOUD_PROJECT") as [project|]; cbn.
  2: { repeat split; repeat constructor. }
  match goal with |- context [compute_execute w ?tr ?req] =>
    destruct (compute_execute w tr req) as [e|machine_types] end; cbn.
  { repeat split; repeat constructor. }
  match goal with
  | |- context [(if ?b then ?ws else if ?b' then ?dp else ?none) ?m0] =>
      assert (∃ o new,
                (if b then ws else if b' then dp else none) m0
                = (o, Machine (trace m0) (locals m0 ++ new)))
        as (o1 & new1 & ->)
  end.
  { destruct (String.eqb _ "web-server").
    { match goal with |- context [for_each ?items ?body ?m0] =>
        destruct (for_each_appends body items (web_server_body_appends _ _) m0)
          as (o & new & -> & _) end. eauto. }
    destruct (String.eqb _ "data-processing").
    { match goal with |- context [for_each ?items ?body ?m0] =>
        destruct (for_each_appends body items (data_processing_body_appends _ _) m0)
          as (o & new & -> & _) end. eauto. }
    exists (Return tt), []. reflexivity. }
  destruct o1 as [[]|e|]; cbn.
  2, 3: repeat split; repeat constructor.
  match goal with |- context [compute_execute w ?tr ?req] =>
    destruct (compute_execute w tr req) as [e|disk_types] end; cbn.
  { repeat split; repeat constructor. }
  match goal with |- context [for_each ?items ?body ?m0] =>
    destruct (for_each_appends body items (disk_type_body_appends _ _) m0)
      as (o2 & new2 & -> & _)
  end.
  destruct o2 as [[]|e|]; cbn; repeat split; repeat constructor.
Qed.

(** ** The product ids of the cart *)

Lemma contains_slash_cons c s :
  Py.contains "/" (String c s) = Ascii.eqb c "/" || Py.contains "/" s.
Proof. cbn. now rewrite andb_true_r, Ascii.eqb_sym. Qed.

Lemma contains_slash_app a b :
  Py.contains "/" (a +:+ b) = Py.contains "/" a || Py.contains "/" b.
Proof.
  induction a as [|c a IH].
  - change ("" +:+ b) with b. change (Py.contains "/" "") with false.
    reflexivity.
  - change (String c a +:+ b) with (String c (a +:+ b)).
    rewrite !contains_slash_cons, IH. apply orb_assoc.
Qed.

Lemma last_segment_from_has_no_slash s :
  ∀ pre, Py.contains "/" pre = false →
         Py.contains "/" (Py.last_segment_from s (pre +:+ s)) = false.
Proof.
  induction s as [|c s IH]; intros pre Hpre; cbn [Py.last_segment_from].
  - now rewrite contains_slash_app, Hpre.
  - destruct (Ascii.eqb c "/") eqn:Hc.
    + apply (IH ""). reflexivity.
    + replace (pre +:+ String c s) with ((pre +:+ String c "") +:+ s).
      * apply IH. rewrite contains_slash_app, Hpre, contains_slash_cons, Hc.
        reflexivity.
      * clear. induction pre as [|d pre IH]; [reflexivity|].
        change (String d ((pre +:+ String c "") +:+ s) = String d (pre +:+ String c s)).
        now f_equal.
Qed.

(** [s.split('/')[-1]] holds no slash. *)
Lemma last_segment_has_no_slash s : Py.contains "/" (Py.last_segment s) = false.
Proof. apply (last_segment_from_has_no_slash s ""). reflexivity. Qed.

(** X21. The product id of a cart line is a bare type name: wherever a run
    of [retrieve_cart_information] stops, no 'product_id' accumulated so far
    holds a slash, whatever path the catalog gives as 'machineType' or
    'type' of the resource. *)
Theorem product_ids_are_bare_names w fuel customer_id l :
  let m := (run (retrieve_cart_information w fuel customer_id) l).2 in
  Forall (λ item, Py.contains "/" (product_id item) = false)
         (cart_items (locals m)).
Proof.
  pose proof (retrieve_cart_information_inv w customer_id fuel (Machine [] l) I) as H.
  unfold run. cbn zeta.
  assert (cart_inv customer_id
            (retrieve_cart_information w fuel customer_id (Machine [] l)).2) as Hinv.
  { destruct (retrieve_cart_information w fuel customer_id (Machine [] l))
      as [[summary|e|] m]; cbn [snd]; apply H. }
  destruct Hinv as [_ _ Horigin].
  eapply Forall_impl; [exact Horigin|]. cbn.
  intros item (r & _ & _ & [[Hid _]|Hid]).
  - destruct (res_machineType r) as [path|]; [|discriminate].
    injection Hid as <-. apply last_segment_has_no_slash.
  - destruct (res_type r) as [path|]; [|discriminate].
    injection Hid as <-. apply last_segment_has_no_slash.
Qed.
(** ** The sender settings of [send_meeting_invitation] *)

(** X22. When the settings object lacks [sender_email] or [sender_password],
    a call of [send_meeting_invitation] raises [AttributeError] for a
    missing attribute before anything else happens: no question is asked
    and the mail relay is not contacted. *)
Theorem invitation_needs_the_sender_settings w depth
    sender_email sender_password receiver_email subject message_ :
  configs w "sender_email" = None ∨ configs w "sender_password" = None →
  ∃ attr, configs w attr = None ∧
    run (send_meeting_invitation w (S depth) sender_email sender_password
           receiver_email subject message_) tt
    = (Raise (Py.AttributeError attr), Machine [] tt).
Proof.
  intros Hmissing. unfold run. cbn [send_meeting_invitation].
  unfold getattr_configs.
  destruct (configs w "sender_email") as [sender|] eqn:Hsender.
  - destruct Hmissing as [Hmissing|Hpassword]; [discriminate|].
    exists "sender_password". split; [exact Hpassword|].
    unfold mbind, M_bind. cbn. rewrite Hpassword. reflexivity.
  - exists "sender_email". split; [exact Hsender|]. reflexivity.
Qed.

Lemma invitation_needs_the_sender_settings_witness :
  ∃ attr, configs shipped_world attr = None ∧
    run (send_meeting_invitation shipped_world 3 "a@example.com" "secret"
           "b@example.com" "Hello" "See you") tt
    = (Raise (Py.AttributeError attr), Machine [] tt).
Proof.
  apply (invitation_needs_the_sender_settings shipped_world 2).
  left. reflexivity.
Defined.

(** ** The customer entity *)

(** X23. [Customer.get_customer] never returns a customer: it builds the
    model without [preferred_store], a field that has no default, so the
    construction fails with the validation error for that field, whatever
    the customer id and the account number are. *)
Theorem get_customer_is_never_valid current_customer_id account_number :
  Entities.get_customer current_customer_id account_number
  = inl (Entities.field_required "preferred_store").
Proof. reflexivity. Qed.
(** ** Disks in the first loop of [retrieve_cart_information] *)

Lemma for_each_app {L A} (l1 l2 : list A) (body : A → M L unit) m :
  for_each (l1 ++ l2) body m = (for_each l1 body ;; for_each l2 body) m.
Proof.
  revert m. induction l1 as [|x l1 IH]; intros m; [reflexivity|].
  cbn [app for_each]. unfold mbind, M_bind in *.
  destruct (body x m) as [[[]| |] m']; [apply IH|reflexivity..].
Qed.

Section DiskOwner.
Context (w : World) (customer_id project zone : string).
Context (Hproject : configs w "GOOGLE_CLOUD_PROJECT" = Some project).

(** An iteration of the first loop over a page without resources of the
    customer: the next iteration requests the disk listing. *)
Lemma instances_while_step fuel (m : machine CartLocals) req response :
  request (locals m) = Some req →
  compute_execute w (trace m) req = inr response →
  Forall (λ r, customer_label r ≠ Some customer_id)
         (default [] (resp_items response)) →
  ∃ next,
    instances_while w (S fuel) customer_id zone m
    = instances_while w fuel customer_id zone
        (Machine (trace m ++ [CatalogCall req (inr response)])
           (set_request (Some (list_request disks project zone))
              (set_request next (locals m)))).
Proof.
  intros Hreq Hexec Hpage.
  cbn [instances_while]. unfold mbind at 1, M_bind at 1, get_locals.
  rewrite Hreq.
  assert (execute w req m
          = (Return response,
             Machine (trace m ++ [CatalogCall req (inr response)]) (locals m)))
    as Hexecute.
  { unfold execute, mbind, M_bind, oracle, emit. cbn. now rewrite Hexec. }
  rewrite (bind_return _ _ _ _ _ Hexecute).
  destruct (instance_loop_passes w customer_id response _ Hpage
              (Machine (trace m ++ [CatalogCall req (inr response)]) (locals m)))
    as (next & Hloop).
  { left. cbn. rewrite Hreq. eauto. }
  rewrite (bind_return _ _ _ _ _ Hloop).
  unfold getattr_configs. rewrite Hproject.
  unfold mbind at 1, M_bind at 1. cbn [mret M_ret].
  unfold mbind at 1, M_bind at 1, modify_locals. cbn [trace locals].
  exists next. reflexivity.
Qed.

(** An iteration of the first loop over a page with a resource of the
    customer that has no ['machineType']. *)
Lemma instances_while_raises fuel (m : machine CartLocals) req response
    before disk after :
  request (locals m) = Some req →
  compute_execute w (trace m) req = inr response →
  resp_items response = Some (before ++ disk :: after) →
  Forall (λ r, customer_label r ≠ Some customer_id) before →
  customer_label disk = Some customer_id →
  res_machineType disk = None →
  ∃ next,
    instances_while w (S fuel) customer_id zone m
    = (Raise (Py.KeyError "machineType"),
       Machine (trace m ++ [CatalogCall req (inr response)])
               (set_request next (locals m))).
Proof.
  intros Hreq Hexec Hitems Hbefore Hlabel Htype.
  cbn [instances_while]. unfold mbind at 1, M_bind at 1, get_locals.
  rewrite Hreq.
  assert (execute w req m
          = (Return response,
             Machine (trace m ++ [CatalogCall req (inr response)]) (locals m)))
    as Hexecute.
  { unfold execute, mbind, M_bind, oracle, emit. cbn. now rewrite Hexec. }
  rewrite (bind_return _ _ _ _ _ Hexecute).
  rewrite Hitems.
  change (default [] (Some (before ++ disk :: after)))
    with (before ++ disk :: after).
  destruct (instance_loop_passes w customer_id response _ Hbefore
              (Machine (trace m ++ [CatalogCall req (inr response)]) (locals m)))
    as (next & Hloop).
  { left. cbn. rewrite Hreq. eauto. }
  exists next.
  unfold mbind at 1, M_bind at 1. rewrite for_each_app.
  rewrite (bind_return _ _ _ _ _ Hloop).
  cbn [for_each]. unfold instance_body.
  rewrite bool_decide_true by exact Hlabel. rewrite Htype.
  reflexivity.
Qed.
End DiskOwner.

(** X24. A disk of the customer is handled by the loop that is written for
    instances.  When the catalog lists no instance of the customer and the
    disk listing has a disk of the customer (which has no ['machineType']),
    [retrieve_cart_information] raises [KeyError('machineType')] in its
    second iteration: the billing service has not been called and the cart
    is still empty. *)
Theorem disk_of_the_customer_raises_key_error w customer_id project l :
  configs w "GOOGLE_CLOUD_PROJECT" = Some project →
  (∀ tr req, req_collection req = instances →
     ∃ response, compute_execute w tr req = inr response ∧
       Forall (λ r, customer_label r ≠ Some customer_id)
              (default [] (resp_items response))) →
  (∀ tr req, req_collection req = disks →
     ∃ response before disk after,
       compute_execute w tr req = inr response ∧
       resp_items response = Some (before ++ disk :: after) ∧
       Forall (λ r, customer_label r ≠ Some customer_id) before ∧
       customer_label disk = Some customer_id ∧
       res_machineType disk = None) →
  ∀ fuel, ∃ m,
    run (retrieve_cart_information w (S (S fuel)) customer_id) l
    = (Raise (Py.KeyError "machineType"), m) ∧
    req_collection <$> catalog_calls (trace m) = [instances; disks] ∧
    billing_calls (trace m) = [] ∧ cart_items (locals m) = [].
Proof.
  intros Hproject Hinstances Hdisks fuel.
  unfold run, retrieve_cart_information, try_except, logger,
    ToolContext_get_input, getattr_configs, modify_locals,
    mbind, M_bind, oracle, emit.
  cbn -[instances_while disks_while]. rewrite Hproject.
  cbn -[instances_while disks_while].
  match goal with
  | |- context [instances_while w _ customer_id ?zone ?m0] =>
      destruct (Hinstances (trace m0) (list_request instances project zone) eq_refl)
        as (response & Hexec & Hpage);
      destruct (instances_while_step w customer_id project zone Hproject
                  (S fuel) m0 _ response eq_refl Hexec Hpage) as (next & ->);
      match goal with
      | |- context [instances_while w _ customer_id zone ?m1] =>
          destruct (Hdisks (trace m1) (list_request disks project zone) eq_refl)
            as (response' & before & disk & after & Hexec' & Hitems & Hbefore
                & Hlabel & Htype);
          destruct (instances_while_raises w customer_id zone fuel m1 _ response'
                      before disk after eq_refl Hexec' Hitems Hbefore Hlabel Htype)
            as (next' & ->)
      end
  end.
  eexists. split; [reflexivity|]. cbn [trace locals].
  rewrite !catalog_calls_app, !billing_calls_app. cbn. auto.
Qed.

Lemma disk_of_the_customer_raises_key_error_witness :
  ∃ m,
    run (retrieve_cart_information disk_owner_world 5 "123") no_locals
    = (Raise (Py.KeyError "machineType"), m) ∧
    req_collection <$> catalog_calls (trace m) = [instances; disks] ∧
    billing_calls (trace m) = [] ∧ cart_items (locals m) = [].
Proof.
  apply (disk_of_the_customer_raises_key_error disk_owner_world "123" "my_project"
           no_locals eq_refl).
  - intros tr [[] ? ? ?] Hc; try discriminate Hc.
    eexists. split; [reflexivity|]. repeat constructor; vm_compute; congruence.
  - intros tr [[] ? ? ?] Hc; try discriminate Hc.
    exists (page [disk_of "456" "disk-7" "pd-ssd" "50";
                  disk_of "123" "disk-1" "pd-ssd" "100"] None),
      [disk_of "456" "disk-7" "pd-ssd" "50"],
      (disk_of "123" "disk-1" "pd-ssd" "100"), [].
    split; [reflexivity|]. split; [reflexivity|].
    split; [repeat constructor; vm_compute; congruence|].
    split; reflexivity.
Defined.
(** ** The cart under construction *)

(** X25. Wherever a run of [retrieve_cart_information] stops, with an
    exception or still looping, the subtotal accumulated so far is the sum
    of the monthly costs of the lines accumulated so far, added in binary64
    from 0.0 in the order of the lines. *)
Theorem accumulated_subtotal_is_the_sum w fuel customer_id l :
  let m := (run (retrieve_cart_information w fuel customer_id) l).2 in
  cart_subtotal (locals m) = sum_monthly_cost (cart_items (locals m)).
Proof.
  pose proof (retrieve_cart_information_inv w customer_id fuel (Machine [] l) I) as H.
  unfold run. cbn zeta.
  destruct (retrieve_cart_information w fuel customer_id (Machine [] l))
    as [[summary| |] m]; cbn [snd]; apply H.
Qed.

(** X26. Wherever a run of [retrieve_cart_information] stops, every line
    accumulated so far has quantity 1 and was made from a resource that the
    catalog listed in this run and whose 'customer_id' label is the
    requested customer: from its machine type and name, or from its disk
    type. *)
Theorem accumulated_lines_belong_to_the_customer w fuel customer_id l :
  let m := (run (retrieve_cart_information w fuel customer_id) l).2 in
  Forall (λ item, quantity item = 1 ∧
                  ∃ r, r ∈ listed (trace m) ∧ made_from customer_id r item)
         (cart_items (locals m)).
Proof.
  pose proof (retrieve_cart_information_inv w customer_id fuel (Machine [] l) I) as H.
  unfold run. cbn zeta.
  assert (cart_inv customer_id
            (retrieve_cart_information w fuel customer_id (Machine [] l)).2) as Hinv.
  { destruct (retrieve_cart_information w fuel customer_id (Machine [] l))
      as [[summary| |] m]; cbn [snd]; apply H. }
  destruct Hinv as [_ Hquantity Horigin].
  apply Forall_and. split; assumption.
Qed.
